(** * py4cast: windowed sample assembly, validity cache and batch collation

    A shallow embedding of [py4cast/datasets/base.py] (periods, timestamps,
    samples, items, the batch collator) and of the Titan accessor and
    dataset of [py4cast/datasets/titan/__init__.py], followed by the
    properties of the specification that concern them.

    Conventions of the embedding:
    - a Python [int] is a [Z]; a [numpy.datetime64[s]] and a naive
      [datetime.datetime] are both the number of seconds since
      1970-01-01T00:00:00, a [Z];
    - a raised exception is the [Raise] branch of [result];
    - a tensor is a shape, a row-major list of values and a dtype; the
      values themselves are kept abstract (type [V]), only the way the
      program moves them around is modelled. *)

From Stdlib Require Import ZArith List Ascii String Bool Lia Permutation Sorted QArith.
From stdpp Require Import base tactics option list gmap strings sorting.

Local Open Scope Z_scope.

(* ===================================================================== *)
(** ** Exceptions *)
(* ===================================================================== *)

Inductive PyError : Type :=
| ValueError (msg : string)
| IndexError (msg : string)
| KeyError (msg : string)
| RuntimeError (msg : string)
| ZeroDivisionError
| Exception_ (msg : string).

Inductive result (A : Type) : Type :=
| Ok (a : A)
| Raise (e : PyError).
Arguments Ok {A} a.
Arguments Raise {A} e.

Definition rbind {A B} (m : result A) (k : A -> result B) : result B :=
  match m with
  | Ok a => k a
  | Raise e => Raise e
  end.

Definition is_ok {A} (m : result A) : bool :=
  match m with Ok _ => true | Raise _ => false end.

(** [[f(x) for x in l]] where [f] may raise: the first failure aborts. *)
Fixpoint rmapM {A B} (f : A -> result B) (l : list A) : result (list B) :=
  match l with
  | [] => Ok []
  | x :: l' =>
      rbind (f x) (fun y => rbind (rmapM f l') (fun ys => Ok (y :: ys)))
  end.

(* ===================================================================== *)
(** ** Python sequence indexing *)
(* ===================================================================== *)

(** Position designated by a slice bound [k] in a sequence of length [n]:
    a negative bound counts from the end, and both are clamped. *)
Definition slice_bound (k : Z) (n : nat) : nat :=
  if k <? 0 then Z.to_nat (Z.max 0 (Z.of_nat n + k))
  else Nat.min (Z.to_nat k) n.

(** [l[k:]] *)
Definition slice_from {A} (k : Z) (l : list A) : list A :=
  drop (slice_bound k (length l)) l.

(** [l[:k]] *)
Definition slice_to {A} (k : Z) (l : list A) : list A :=
  take (slice_bound k (length l)) l.

(** [l[0]] *)
Definition first_item {A} (l : list A) : result A :=
  match l with
  | x :: _ => Ok x
  | [] => Raise (IndexError "list index out of range")
  end.

(** [l.index(x)] *)
Fixpoint list_index {A} `{EqDecision A} (x : A) (l : list A) : result nat :=
  match l with
  | [] => Raise (ValueError "x is not in list")
  | y :: l' =>
      if decide (x = y) then Ok 0%nat
      else rbind (list_index x l') (fun i => Ok (S i))
  end.

(** [l.insert(i, x)]: a negative [i] counts from the end, and the
    position is clamped to the list. *)
Definition py_insert {A} (i : Z) (x : A) (l : list A) : list A :=
  let k := slice_bound i (length l) in
  take k l ++ x :: drop k l.

(** [l.remove(x)]: the first occurrence goes. *)
Fixpoint py_remove {A} `{EqDecision A} (x : A) (l : list A) : result (list A) :=
  match l with
  | [] => Raise (ValueError "list.remove(x): x not in list")
  | y :: l' =>
      if decide (x = y) then Ok l'
      else rbind (py_remove x l') (fun r => Ok (y :: r))
  end.

(** [l[i]] for an integer [i]: a negative [i] counts from the end. *)
Definition py_getitem {A} (l : list A) (i : Z) : result A :=
  let k := if i <? 0 then i + Z.of_nat (length l) else i in
  if (0 <=? k) && (k <? Z.of_nat (length l)) then
    match l !! Z.to_nat k with
    | Some x => Ok x
    | None => Raise (IndexError "list index out of range")
    end
  else Raise (IndexError "list index out of range").

(* ===================================================================== *)
(** ** numpy.arange on integers *)
(* ===================================================================== *)

(** [ceil(a / b)] *)
Definition ceil_div (a b : Z) : Z := - ((- a) / b).

(** The values of [np.arange(start, stop, step)] for a non-zero [step]:
    [ceil((stop - start) / step)] values [start + i * step]. *)
Definition arange_values (start stop step : Z) : list Z :=
  map (fun i : nat => start + Z.of_nat i * step)
      (seq 0 (Z.to_nat (ceil_div (stop - start) step))).

Definition np_arange (start stop step : Z) : result (list Z) :=
  if step =? 0 then Raise ZeroDivisionError
  else Ok (arange_values start stop step).

(* ===================================================================== *)
(** ** Calendar: naive datetimes as seconds since the epoch *)
(* ===================================================================== *)

Module Calendar.

Definition DAY : Z := 86400.
Definition HOUR : Z := 3600.

Definition is_leap (y : Z) : bool :=
  ((y mod 4 =? 0) && negb (y mod 100 =? 0)) || (y mod 400 =? 0).

Definition days_in_month (y m : Z) : Z :=
  if m =? 2 then (if is_leap y then 29 else 28)
  else if (m =? 4) || (m =? 6) || (m =? 9) || (m =? 11) then 30
  else 31.

(** Day-of-era arithmetic on the proleptic Gregorian calendar, with
    years counted from 1 March (400-year eras of 146097 days):
    [year_start yoe] is the day of the era on which year [yoe] of the era
    starts, [doy_of mp d] the day of that year on which day [d] of month
    [mp] (0 for March, 11 for February) falls. *)
Definition year_start (yoe : Z) : Z := yoe * 365 + yoe / 4 - yoe / 100.

Definition doy_of (mp d : Z) : Z := (153 * mp + 2) / 5 + d - 1.

Definition doe_of (yoe mp d : Z) : Z := year_start yoe + doy_of mp d.

Definition days_from_civil (y m d : Z) : Z :=
  let y' := if m <=? 2 then y - 1 else y in
  let era := y' / 400 in
  let yoe := y' - era * 400 in
  let mp := if m <=? 2 then m + 9 else m - 3 in
  era * 146097 + doe_of yoe mp d - 719468.

(** The day of the era, less one day for every leap day before it. *)
Definition days_adj (doe : Z) : Z :=
  doe - doe / 1460 + doe / 36524 - doe / 146096.

Definition yoe_of_doe (doe : Z) : Z := days_adj doe / 365.

Definition mp_of_doy (doy : Z) : Z := (5 * doy + 2) / 153.

Definition dom_of_doy (doy : Z) : Z := doy - (153 * mp_of_doy doy + 2) / 5 + 1.

Definition month_of_mp (mp : Z) : Z := if mp <? 10 then mp + 3 else mp - 9.

(** (year, month, day) of a day count since 1970-01-01. *)
Definition civil_from_days (z : Z) : Z * Z * Z :=
  let z' := z + 719468 in
  let era := z' / 146097 in
  let doe := z' - era * 146097 in
  let yoe := yoe_of_doe doe in
  let doy := doe - year_start yoe in
  let m := month_of_mp (mp_of_doy doy) in
  let y := yoe + era * 400 in
  ((if m <=? 2 then y + 1 else y), m, dom_of_doy doy).

(** The fields of [datetime.datetime]. *)
Record fields : Type := mkFields {
  year : Z; month : Z; day : Z; hour : Z; minute : Z; second : Z
}.

Definition fields_of (t : Z) : fields :=
  let '(y, m, d) := civil_from_days (t / DAY) in
  let s := t mod DAY in
  mkFields y m d (s / HOUR) (s mod HOUR / 60) (s mod 60).

(** [datetime(year, month, day, hour, minute, second)], which checks
    each field. *)
Definition datetime_new (f : fields) : result Z :=
  if negb ((1 <=? year f) && (year f <=? 9999)) then
    Raise (ValueError "year is out of range")
  else if negb ((1 <=? month f) && (month f <=? 12)) then
    Raise (ValueError "month must be in 1..12")
  else if negb ((1 <=? day f) && (day f <=? days_in_month (year f) (month f)))
  then Raise (ValueError "day is out of range for month")
  else if negb ((0 <=? hour f) && (hour f <=? 23)) then
    Raise (ValueError "hour must be in 0..23")
  else if negb ((0 <=? minute f) && (minute f <=? 59)) then
    Raise (ValueError "minute must be in 0..59")
  else if negb ((0 <=? second f) && (second f <=? 59)) then
    Raise (ValueError "second must be in 0..59")
  else
    Ok (days_from_civil (year f) (month f) (day f) * DAY
        + hour f * HOUR + minute f * 60 + second f).

(** 1000-01-01T00:00:00 and 9999-12-31T00:00:00: between them a year
    prints as four digits. *)
Definition T_MIN : Z := days_from_civil 1000 1 1 * DAY.
Definition T_MAX : Z := days_from_civil 9999 12 31 * DAY.

(** Exhaustive check of a predicate on [lo, lo + n). *)
Fixpoint all_from (lo : Z) (n : nat) (f : Z -> bool) : bool :=
  match n with
  | O => true
  | S n' => f lo && all_from (lo + 1) n' f
  end.

(** The length of year [yoe] of an era, which ends with the February of
    the civil year [yoe + 1]. *)
Definition year_len (yoe : Z) : Z := if is_leap (yoe + 1) then 366 else 365.

(** What is checked of each of the 400 years of an era: the adjusted day
    count of its first and of its last day give the year, and the next
    year (or the next era) starts where it ends. *)
Definition year_ok (yoe : Z) : bool :=
  let a := year_start yoe in
  let b := a + year_len yoe - 1 in
  (0 <=? a) && (365 * yoe <=? days_adj a) && (days_adj b <? 365 * (yoe + 1))
  && (if yoe =? 399 then b + 1 =? 146097 else b + 1 =? year_start (yoe + 1)).

(** What is checked of each of the 366 days of a year: its month and day
    of month are in range and give the day back; only 29 February is day
    365; January starts on day 306. *)
Definition doy_ok (doy : Z) : bool :=
  let mp := mp_of_doy doy in
  let d := dom_of_doy doy in
  (0 <=? mp) && (mp <=? 11) && (1 <=? d) && (doy_of mp d =? doy)
  && (d <=? (if mp =? 11 then (if doy =? 365 then 29 else 28)
             else days_in_month 1 (month_of_mp mp)))
  && ((doy <? 306) || (10 <=? mp))
  && ((305 <? doy) || (mp <=? 9)).

End Calendar.

Import Calendar.

(* ===================================================================== *)
(** ** Text: str(int), strftime and strptime *)
(* ===================================================================== *)

Module Text.

Definition text : Type := list ascii.

Definition digit_char (d : Z) : ascii := ascii_of_nat (48 + Z.to_nat d).

Definition is_digit (c : ascii) : bool :=
  let n := nat_of_ascii c in (48 <=? n)%nat && (n <=? 57)%nat.

Definition digit_val (c : ascii) : Z := Z.of_nat (nat_of_ascii c) - 48.

Definition pad2 (v : Z) : text := [digit_char (v / 10); digit_char (v mod 10)].

Definition pad4 (v : Z) : text := pad2 (v / 100) ++ pad2 (v mod 100).

(** Decimal digits of a natural number, most significant first. *)
Fixpoint dec_digits (fuel : nat) (v : Z) (acc : text) : text :=
  match fuel with
  | O => acc
  | S fuel' =>
      let acc' := digit_char (v mod 10) :: acc in
      if v <? 10 then acc' else dec_digits fuel' (v / 10) acc'
  end.

(** [str(n)] for an [int]. *)
Definition str_int (n : Z) : text :=
  let digits v := dec_digits (S (Z.to_nat (Z.log2 v))) v [] in
  if n <? 0 then "-"%char :: digits (- n) else digits n.

(** [%Y] of [strftime]: the year in decimal, which is four digits from
    year 1000 on. *)
Definition year_str (y : Z) : text := str_int y.

(** [t.strftime("%Y-%m-%d_%Hh%M")] *)
Definition strftime (t : Z) : text :=
  let f := fields_of t in
  year_str (year f) ++ "-"%char :: pad2 (month f) ++ "-"%char ::
  pad2 (day f) ++ "_"%char :: pad2 (hour f) ++ "h"%char :: pad2 (minute f).

(** The parses of one directive of [strptime] at the head of [s], in the
    order in which the regular expression of the directive tries them:
    the two-digit alternatives first, then the one-digit one. Digits are
    the ASCII digits. *)
Definition two_digits (ok : Z -> bool) (s : text) : list (Z * text) :=
  match s with
  | a :: b :: r =>
      let v := 10 * digit_val a + digit_val b in
      if is_digit a && is_digit b && ok v then [(v, r)] else []
  | _ => []
  end.

Definition one_digit (ok : Z -> bool) (s : text) : list (Z * text) :=
  match s with
  | a :: r => if is_digit a && ok (digit_val a) then [(digit_val a, r)] else []
  | _ => []
  end.

Definition between (lo hi v : Z) : bool := (lo <=? v) && (v <=? hi).

(** [%Y]: [\d\d\d\d] *)
Definition dir_Y (s : text) : list (Z * text) :=
  match s with
  | a :: b :: c :: d :: r =>
      if is_digit a && is_digit b && is_digit c && is_digit d then
        [(1000 * digit_val a + 100 * digit_val b + 10 * digit_val c
          + digit_val d, r)]
      else []
  | _ => []
  end.

(** [%m]: [1[0-2]|0[1-9]|[1-9]] *)
Definition dir_m (s : text) : list (Z * text) :=
  two_digits (between 1 12) s ++ one_digit (between 1 9) s.

(** [%d]: [3[0-1]|[1-2]\d|0[1-9]|[1-9]| [1-9]] *)
Definition dir_d (s : text) : list (Z * text) :=
  two_digits (between 1 31) s ++ one_digit (between 1 9) s
  ++ match s with
     | " "%char :: r => one_digit (between 1 9) r
     | _ => []
     end.

(** [%H]: [2[0-3]|[0-1]\d|\d] *)
Definition dir_H (s : text) : list (Z * text) :=
  two_digits (between 0 23) s ++ one_digit (between 0 9) s.

(** [%M]: [[0-5]\d|\d] *)
Definition dir_M (s : text) : list (Z * text) :=
  two_digits (between 0 59) s ++ one_digit (between 0 9) s.

(** A literal character of the format. *)
Definition lit (c : ascii) (s : text) : list (unit * text) :=
  match s with
  | a :: r => if decide (a = c) then [((), r)] else []
  | [] => []
  end.

(** Backtracking sequence: every parse of [p], continued by [k]. *)
Definition andthen {A B} (p : list (A * text)) (k : A -> text -> list B)
  : list B :=
  concat (map (fun '(a, r) => k a r) p).

(** The end of the string: [strptime] rejects unconverted data. *)
Definition at_end {A} (a : A) (s : text) : list A :=
  match s with [] => [a] | _ => [] end.

Definition first_parse (l : list fields) : result Z :=
  match l with
  | f :: _ => datetime_new f
  | [] => Raise (ValueError "time data does not match format")
  end.

(** [datetime.strptime(s, "%Y%m%d%H")] *)
Definition strptime_YmdH (s : text) : result Z :=
  first_parse
    (andthen (dir_Y s) (fun y s =>
     andthen (dir_m s) (fun m s =>
     andthen (dir_d s) (fun d s =>
     andthen (dir_H s) (fun h s =>
     at_end (mkFields y m d h 0 0) s))))).

(** [datetime.strptime(s, "%Y-%m-%d_%Hh%M")] *)
Definition strptime (s : text) : result Z :=
  first_parse
    (andthen (dir_Y s) (fun y s =>
     andthen (lit "-" s) (fun _ s =>
     andthen (dir_m s) (fun m s =>
     andthen (lit "-" s) (fun _ s =>
     andthen (dir_d s) (fun d s =>
     andthen (lit "_" s) (fun _ s =>
     andthen (dir_H s) (fun h s =>
     andthen (lit "h" s) (fun _ s =>
     andthen (dir_M s) (fun mi s =>
     at_end (mkFields y m d h mi 0) s)))))))))).

Definition NL : ascii := "010"%char.

(** [f.readlines()]: the lines of a text, each with its line feed (the
    last one may lack it); the line feed is the only line ending that
    the program writes. *)
Fixpoint readlines_go (cur : text) (s : text) : list text :=
  match s with
  | [] => match cur with [] => [] | _ => [rev cur] end
  | c :: r =>
      if decide (c = NL) then rev (c :: cur) :: readlines_go [] r
      else readlines_go (c :: cur) r
  end.

Definition readlines (s : text) : list text := readlines_go [] s.

(** [line[:-1]] *)
Definition chop (line : text) : text := slice_to (-1) line.

(** A year that [str] prints as four digits. *)
Definition four_digit_year (y : Z) : bool := bool_decide (str_int y = pad4 y).

(** A datetime of the years 1000 to 9999. *)
Definition in_range (t : Z) : Prop := T_MIN <= t < T_MAX + DAY.

End Text.

Import Text.

(* ===================================================================== *)
(** ** Period *)
(* ===================================================================== *)

Module Period.

(** The dataclass after [__post_init__]: [start] and [end_] are
    [np.datetime64] values. *)
Record t : Type := mk {
  start : Z;
  end_ : Z;
  step_duration : Z;
  name : string;
  term_start : Z;
  term_end : Z
}.

(** [Period(start, end, step_duration, name, term_start, term_end)]:
    [__post_init__] parses [str(start)] and [str(end)] with the format
    [%Y%m%d%H]. *)
Definition new (start end_ step_duration : Z) (name : string)
    (term_start term_end : Z) : result t :=
  rbind (strptime_YmdH (str_int start)) (fun s =>
  rbind (strptime_YmdH (str_int end_)) (fun e =>
  Ok (mk s e step_duration name term_start term_end))).

Definition terms_list (p : t) : result (list Z) :=
  np_arange (term_start p) (term_end p + 1) (step_duration p).

(** [np.arange(start, end + 1 day, 1 day, dtype="datetime64[s]").tolist()] *)
Definition date_list (p : t) : list Z :=
  arange_values (start p) (end_ p + DAY) DAY.

(** A period of whole hours in the years 1000 to 9999, as
    [__post_init__] makes them out of ten-digit stamps. *)
Definition wf (p : t) : Prop :=
  T_MIN <= start p /\ end_ p <= T_MAX /\ start p mod HOUR = 0.

End Period.

(* ===================================================================== *)
(** ** Timestamps *)
(* ===================================================================== *)

Record Timestamps : Type := mkTimestamps {
  datetime : Z;
  terms : list Z;
  validity_times : list Z
}.

(** The docstring of the class: validity times are the terms (hours)
    added to the reference datetime. *)
Definition Timestamps_consistent (ts : Timestamps) : Prop :=
  validity_times ts = map (fun term => datetime ts + term * HOUR) (terms ts).

(** One validity time per term. *)
Definition Timestamps_aligned (ts : Timestamps) : Prop :=
  length (terms ts) = length (validity_times ts).

(* ===================================================================== *)
(** ** Tensors *)
(* ===================================================================== *)

Inductive dtype : Type := int64 | float16 | float32 | float64.

#[global] Instance dtype_eq_dec : EqDecision dtype.
Proof. solve_decision. Defined.

(** Type promotion of torch on the dtypes above. *)
Definition promote (a b : dtype) : dtype :=
  match a, b with
  | float64, _ | _, float64 => float64
  | float32, _ | _, float32 => float32
  | float16, _ | _, float16 => float16
  | int64, int64 => int64
  end.

(** What the program needs of the element type of its arrays: conversion
    to a dtype and the two operations of standardization. *)
Class Scalar (V : Type) : Type := {
  cast : dtype -> V -> V;
  sub : V -> V -> V;
  div : V -> V -> V
}.

Module Tensor.
Section Tensor.
Context {V : Type} `{Scalar V}.

Record t : Type := mk {
  shape : list nat;
  data : list V;
  dtype_of : dtype
}.

Definition numel (s : list nat) : nat := fold_right Nat.mul 1%nat s.

(** A tensor holds as many values as its shape says. *)
Definition wf (x : t) : Prop := length (data x) = numel (shape x).

Definition dim (x : t) : nat := length (shape x).

(** [k] consecutive pieces of [n] values. *)
Fixpoint chunks {A} (k n : nat) (l : list A) : list (list A) :=
  match k with
  | O => []
  | S k' => take n l :: chunks k' n (drop n l)
  end.

(** Indexing one axis with a slice, the other axes in full: [sl] is the
    slice, as a function on the entries of that axis. *)
Definition slice_axis (axis : nat)
    (sl : list (list V) -> list (list V)) (x : t) : result t :=
  match drop axis (shape x) with
  | [] => Raise (IndexError "too many indices for tensor")
  | n :: rest =>
      let outer := numel (take axis (shape x)) in
      let inner := numel rest in
      let blocks := chunks outer (n * inner) (data x) in
      let blocks' := map (fun b => sl (chunks n inner b)) blocks in
      let n' := length (sl (replicate n [])) in
      Ok (mk (take axis (shape x) ++ n' :: rest)
             (concat (map (fun b => concat b) blocks')) (dtype_of x))
  end.

(** [x[k:]] and [x[:k]] *)
Definition from0 (k : Z) (x : t) : result t := slice_axis 0 (slice_from k) x.
Definition to0 (k : Z) (x : t) : result t := slice_axis 0 (slice_to k) x.

(** [x[:, k:]] and [x[:, :k]] *)
Definition from1 (k : Z) (x : t) : result t := slice_axis 1 (slice_from k) x.
Definition to1 (k : Z) (x : t) : result t := slice_axis 1 (slice_to k) x.

Definition promote_all (l : list t) (d : dtype) : dtype :=
  fold_left (fun acc x => promote acc (dtype_of x)) l d.

(** [torch.stack(l, 0)] and [np.stack(l)]: a new leading axis; the
    members must have one shape. *)
Definition stack (l : list t) : result t :=
  match l with
  | [] => Raise (IndexError "list index out of range")
  | x :: l' =>
      if forallb (fun y => bool_decide (shape y = shape x)) l' then
        let d := promote_all l' (dtype_of x) in
        Ok (mk (length l :: shape x)
               (concat (map (fun y => map (cast d) (data y)) l)) d)
      else Raise (RuntimeError "stack expects each tensor to be equal size")
  end.

(** [torch.cat(l, dim=-1)]: the members agree on every axis but the
    last. *)
Definition cat_last (l : list t) : result t :=
  match l with
  | [] => Raise (RuntimeError "expected a non-empty list of tensors")
  | x :: l' =>
      match rev (shape x) with
      | [] => Raise (RuntimeError "zero-dimensional tensor cannot be concatenated")
      | _ :: _ =>
          let lead := removelast (shape x) in
          if forallb (fun y => bool_decide (shape y <> []
                                 /\ removelast (shape y) = lead)) l' then
            let outer := numel lead in
            let d := promote_all l' (dtype_of x) in
            let rows (y : t) :=
              chunks outer (List.last (shape y) 0%nat) (map (cast d) (data y)) in
            Ok (mk (lead ++ [fold_right Nat.add 0%nat
                               (map (fun y => List.last (shape y) 0%nat) l)])
                   (concat (map (fun i : nat =>
                      concat (map (fun y => nth i (rows y) []) l))
                      (seq 0 outer)))
                   d)
          else Raise (RuntimeError "sizes of tensors must match except in dimension -1")
      end
  end.

(** [torch.unsqueeze(x, idx)] and [np.expand_dims(x, idx)] *)
Definition unsqueeze (idx : nat) (x : t) : result t :=
  if (idx <=? dim x)%nat then
    Ok (mk (take idx (shape x) ++ 1%nat :: drop idx (shape x))
           (data x) (dtype_of x))
  else Raise (IndexError "dimension out of range").

(** One axis of [x.expand(...)]: size [-1] keeps the axis, a size [m]
    repeats an axis of size one [m] times. *)
Definition expand_axis (axis : nat) (size : Z) (x : t) : result t :=
  match drop axis (shape x) with
  | [] => Raise (RuntimeError "the number of sizes must match the dimensions")
  | n :: rest =>
      if size =? -1 then Ok x
      else if size =? Z.of_nat n then Ok x
      else if bool_decide (n = 1%nat) && (0 <=? size) then
        let m := Z.to_nat size in
        let outer := numel (take axis (shape x)) in
        let inner := numel rest in
        Ok (mk (take axis (shape x) ++ m :: rest)
               (concat (map (fun b => concat (replicate m b))
                            (chunks outer inner (data x))))
               (dtype_of x))
      else Raise (RuntimeError "the expanded size must match the existing size")
  end.

Fixpoint expand_go (axis : nat) (sizes : list Z) (x : t) : result t :=
  match sizes with
  | [] => Ok x
  | s :: sizes' =>
      rbind (expand_axis axis s x) (expand_go (S axis) sizes')
  end.

(** [x.expand( *sizes )] with as many sizes as [x] has axes. *)
Definition expand (sizes : list Z) (x : t) : result t :=
  if bool_decide (length sizes = dim x) then expand_go 0 sizes x
  else Raise (RuntimeError "the number of sizes must match the dimensions").

(** [x.type(d)] *)
Definition type (d : dtype) (x : t) : t :=
  mk (shape x) (map (cast d) (data x)) d.

(** [np.transpose(x, axes=[0, 2, 3, 1])] *)
Definition transpose_0231 (x : t) : result t :=
  match shape x with
  | [a; b; c; d] =>
      let cd := (c * d)%nat in
      Ok (mk [a; c; d; b]
             (concat (map (fun blk =>
                concat (map (fun j : nat =>
                   concat (map (fun i : nat => take 1 (drop (i * cd + j) blk))
                               (seq 0 b)))
                   (seq 0 cd)))
                (chunks a (b * cd) (data x))))
             (dtype_of x))
  | _ => Raise (ValueError "axes don't match array")
  end.

(** [(x - mean) / std] with scalar [mean] and [std] *)
Definition standardize (mean std : V) (x : t) : t :=
  mk (shape x) (map (fun v => div (sub v mean) std) (data x)) (dtype_of x).

(** [torch.unsqueeze(x, dim)] for an integer [dim]: a negative [dim]
    counts from the end of the new shape. *)
Definition unsqueeze_at (dim_index : Z) (x : t) : result t :=
  let n := Z.of_nat (dim x) in
  if (0 <=? dim_index) && (dim_index <=? n) then
    unsqueeze (Z.to_nat dim_index) x
  else if (- (n + 1) <=? dim_index) && (dim_index <? 0) then
    unsqueeze (Z.to_nat (dim_index + n + 1)) x
  else Raise (IndexError "dimension out of range").

(** The shape without the axes listed in [dims] that have size one. *)
Fixpoint squeeze_shape (dims : list nat) (i : nat) (s : list nat) : list nat :=
  match s with
  | [] => []
  | n :: s' =>
      if bool_decide (i ∈ dims) && bool_decide (n = 1%nat)
      then squeeze_shape dims (S i) s'
      else n :: squeeze_shape dims (S i) s'
  end.

(** [torch.squeeze(x, dim=dims)] *)
Definition squeeze (dims : list nat) (x : t) : result t :=
  if negb (forallb (fun i => (i <? dim x)%nat) dims) then
    Raise (IndexError "dimension out of range")
  else if negb (bool_decide (NoDup dims)) then
    Raise (RuntimeError "dim appears multiple times in the list of dims")
  else Ok (mk (squeeze_shape dims 0 (shape x)) (data x) (dtype_of x)).

End Tensor.
Arguments t V : clear implicits.
End Tensor.

(* ===================================================================== *)
(** ** NamedTensor (mfai.torch.namedtensor), as the program uses it *)
(* ===================================================================== *)

Module NamedTensor.
Section NamedTensor.
Context {V : Type} `{Scalar V}.

Record t : Type := mk {
  tensor : Tensor.t V;
  names : list string;
  feature_names : list string;
  feature_dim_name : string
}.

Definition SPATIAL_DIM_NAMES : list string := ["lat"; "lon"; "ngrid"].

(** [NamedTensor(tensor, names, feature_names, feature_dim_name)]: one
    name per axis, one feature name per entry of the feature axis. *)
Definition new (tensor : Tensor.t V) (names feature_names : list string)
    (feature_dim_name : string) : result t :=
  if negb (bool_decide (Tensor.dim tensor = length names)) then
    Raise (ValueError "number of names must match number of dimensions")
  else
    rbind (list_index feature_dim_name names) (fun i =>
    if negb (bool_decide (nth i (Tensor.shape tensor) 0%nat
                          = length feature_names)) then
      Raise (ValueError "number of feature names must match number of features")
    else Ok (mk tensor names feature_names feature_dim_name)).

(** The invariant that [new] establishes. *)
Definition wf (x : t) : Prop :=
  Tensor.dim (tensor x) = length (names x)
  /\ exists i, list_index (feature_dim_name x) (names x) = Ok i
       /\ nth i (Tensor.shape (tensor x)) 0%nat = length (feature_names x).

(** [x.dim_size(name)] *)
Definition dim_size (x : t) (name : string) : result nat :=
  rbind (list_index name (names x)) (fun i =>
  Ok (nth i (Tensor.shape (tensor x)) 0%nat)).

(** [NamedTensor.expand_to_batch_like(tensor, other)] *)
Definition expand_to_batch_like (tensor : Tensor.t V) (other : t) : result t :=
  new tensor ("batch" :: names other) (feature_names other)
      (feature_dim_name other).

Definition disjoint_names (a b : list string) : bool :=
  forallb (fun x => negb (bool_decide (x ∈ b))) a.

(** Feature names already seen must not come again. *)
Fixpoint distinct_features (seen : list string) (l : list t) : bool :=
  match l with
  | [] => true
  | x :: l' =>
      disjoint_names (feature_names x) seen
      && distinct_features (seen ++ feature_names x) l'
  end.

(** [NamedTensor.concat(l)]: concatenation along the last axis. *)
Definition concat (l : list t) : result t :=
  match l with
  | [] => Raise (ValueError "cannot concatenate an empty list of NamedTensors")
  | [x] => Ok x
  | x :: _ =>
      if negb (distinct_features [] l) then
        Raise (ValueError "feature names must be distinct")
      else if negb (forallb (fun y => bool_decide (names y = names x)) l) then
        Raise (ValueError "NamedTensors must have the same dimension names")
      else
        rbind (Tensor.cat_last (map tensor l)) (fun c =>
        new c (names x) (List.concat (map feature_names l)) "features")
  end.

(** The spatial names of [other] that [x] lacks, each with its (first)
    position in [other], by increasing position. *)
Definition missing_names (x other : t) : list (string * nat) :=
  filter (fun '(n, idx) =>
            bool_decide (n ∉ names x)
            && bool_decide (n ∈ SPATIAL_DIM_NAMES)
            && bool_decide (n ∉ take idx (names other)))
         (zip (names other) (seq 0 (length (names other)))).

Fixpoint unsqueeze_all (todo : list (string * nat)) (x : t) : result t :=
  match todo with
  | [] => Ok x
  | (n, idx) :: todo' =>
      rbind (Tensor.unsqueeze idx (tensor x)) (fun tx =>
      unsqueeze_all todo'
        (mk tx (take idx (names x) ++ n :: drop idx (names x))
            (feature_names x) (feature_dim_name x)))
  end.

(** [x.unsqueeze_and_expand_from_(other)]: the state of [x] afterwards. *)
Definition unsqueeze_and_expand_from (x other : t) : result t :=
  let missing := missing_names x other in
  match missing with
  | [] => Ok x
  | _ :: _ =>
      rbind (unsqueeze_all missing x) (fun x' =>
      rbind (rmapM (fun n =>
               if bool_decide (n ∈ map fst missing) then
                 rbind (dim_size other n) (fun s => Ok (Z.of_nat s))
               else Ok (-1)) (names x')) (fun expander =>
      rbind (Tensor.expand expander (tensor x')) (fun tx =>
      Ok (mk tx (names x') (feature_names x') (feature_dim_name x')))))
  end.

(** [x.unsqueeze_(dim_name, dim_index)]: the state of [x] afterwards. *)
Definition unsqueeze_ (dim_name : string) (dim_index : Z) (x : t) : result t :=
  rbind (Tensor.unsqueeze_at dim_index (tensor x)) (fun tx =>
  Ok (mk tx (py_insert dim_index dim_name (names x)) (feature_names x)
         (feature_dim_name x))).

Fixpoint remove_names (dim_names : list string) (names : list string)
  : result (list string) :=
  match dim_names with
  | [] => Ok names
  | n :: rest => rbind (py_remove n names) (remove_names rest)
  end.

(** [x.squeeze_(dim_name)] for a list of names (a single name is the list
    of that name): the state of [x] afterwards. *)
Definition squeeze_ (dim_names : list string) (x : t) : result t :=
  rbind (rmapM (fun n => list_index n (names x)) dim_names) (fun dim_indices =>
  rbind (Tensor.squeeze dim_indices (tensor x)) (fun tx =>
  rbind (remove_names dim_names (names x)) (fun names' =>
  Ok (mk tx names' (feature_names x) (feature_dim_name x))))).

End NamedTensor.
Arguments t V : clear implicits.
End NamedTensor.

(* ===================================================================== *)
(** ** Item, ItemBatch and the collator *)
(* ===================================================================== *)

Module Item.
Section Item.
Context {V : Type} `{Scalar V}.

Record t : Type := mk {
  inputs : NamedTensor.t V;
  forcing : NamedTensor.t V;
  outputs : NamedTensor.t V
}.

(** [Item(inputs=..., forcing=..., outputs=...)] with its
    [__post_init__]. *)
Definition new (inputs forcing outputs : NamedTensor.t V) : result t :=
  if negb (bool_decide (NamedTensor.names inputs = NamedTensor.names outputs))
  then Raise (ValueError "Inputs and outputs must have the same dim names")
  else if negb (bool_decide (NamedTensor.feature_names inputs
                             = NamedTensor.feature_names outputs))
  then Raise (ValueError "Inputs and outputs must have the same feature names")
  else Ok (mk inputs forcing outputs).

(** The names of the fields, in their order of declaration, and
    [getattr(item, field_name)]. *)
Inductive field_name : Type := f_inputs | f_forcing | f_outputs.

Definition fields : list field_name := [f_inputs; f_forcing; f_outputs].

Definition getattr (item : t) (f : field_name) : NamedTensor.t V :=
  match f with
  | f_inputs => inputs item
  | f_forcing => forcing item
  | f_outputs => outputs item
  end.

(** What the constructors of the item and of its three tensors
    establish; the program builds every tensor with the default name of
    the feature axis. *)
Definition wf (item : t) : Prop :=
  (forall f, NamedTensor.wf (getattr item f)
             /\ NamedTensor.feature_dim_name (getattr item f) = "features")
  /\ NamedTensor.names (inputs item) = NamedTensor.names (outputs item)
  /\ NamedTensor.feature_names (inputs item)
     = NamedTensor.feature_names (outputs item).

(** [item.unsqueeze_(dim_name, dim_index)]: inputs, outputs, forcing in
    that order; the state of the item afterwards. *)
Definition unsqueeze_ (dim_name : string) (dim_index : Z) (item : t) : result t :=
  rbind (NamedTensor.unsqueeze_ dim_name dim_index (inputs item)) (fun i =>
  rbind (NamedTensor.unsqueeze_ dim_name dim_index (outputs item)) (fun o =>
  rbind (NamedTensor.unsqueeze_ dim_name dim_index (forcing item)) (fun f =>
  Ok (mk i f o)))).

(** [item.squeeze_(dim_name)] *)
Definition squeeze_ (dim_names : list string) (item : t) : result t :=
  rbind (NamedTensor.squeeze_ dim_names (inputs item)) (fun i =>
  rbind (NamedTensor.squeeze_ dim_names (outputs item)) (fun o =>
  rbind (NamedTensor.squeeze_ dim_names (forcing item)) (fun f =>
  Ok (mk i f o)))).

End Item.
Arguments t V : clear implicits.
End Item.

Module ItemBatch.
Section ItemBatch.
Context {V : Type} `{Scalar V}.

(** A subclass of [Item] without fields of its own; it inherits
    [__post_init__]. *)
Definition t : Type := Item.t V.

Definition new : NamedTensor.t V -> NamedTensor.t V -> NamedTensor.t V
                 -> result t := Item.new.

Definition batch_size (b : t) : result nat :=
  NamedTensor.dim_size (Item.inputs b) "batch".
Definition num_input_steps (b : t) : result nat :=
  NamedTensor.dim_size (Item.inputs b) "timestep".
Definition num_pred_steps (b : t) : result nat :=
  NamedTensor.dim_size (Item.outputs b) "timestep".

End ItemBatch.
Arguments t V : clear implicits.
End ItemBatch.

Section Collate.
Context {V : Type} `{Scalar V}.

(** [torch.utils.data._utils.collate.collate_tensor_fn] *)
Definition collate_tensor_fn (batch : list (Tensor.t V)) : result (Tensor.t V) :=
  Tensor.stack batch.

(** One turn of the loop of [collate_fn]. *)
Definition collate_field (f : Item.field_name) (items : list (Item.t V))
  : result (NamedTensor.t V) :=
  rbind (collate_tensor_fn
           (map (fun item => NamedTensor.tensor (Item.getattr item f)) items))
    (fun stacked =>
  let batched_tensor := Tensor.type float32 stacked in
  rbind (first_item items) (fun item0 =>
  NamedTensor.expand_to_batch_like batched_tensor (Item.getattr item0 f))).

(** The loop over [fields(Item)], unrolled: inputs, forcing, outputs;
    then [ItemBatch( **batch_of_items )]. *)
Definition collate_fn (items : list (Item.t V)) : result (ItemBatch.t V) :=
  rbind (collate_field Item.f_inputs items) (fun b_inputs =>
  rbind (collate_field Item.f_forcing items) (fun b_forcing =>
  rbind (collate_field Item.f_outputs items) (fun b_outputs =>
  ItemBatch.new b_inputs b_forcing b_outputs))).

End Collate.

(* ===================================================================== *)
(** ** The records of [py4cast.datasets.access] *)
(* ===================================================================== *)

(** Modelled from the spec: the role of a parameter ([input], [output] or
    [input_output]); the module that declares it is not part of the
    sources at hand. *)
Inductive Kind : Type := input | output | input_output.

#[global] Instance Kind_eq_dec : EqDecision Kind.
Proof. solve_decision. Defined.

(** Modelled from the spec: a named physical field at a vertical level,
    with its role; [parameter_short_name] is the name under which the
    field appears as a feature and in the statistics. *)
Record WeatherParam : Type := mkWeatherParam {
  name : string;
  level : Z;
  level_type : string;
  kind : Kind;
  parameter_short_name : string
}.

#[global] Instance WeatherParam_eq_dec : EqDecision WeatherParam.
Proof. solve_decision. Defined.

Definition is_input_output (p : WeatherParam) : bool :=
  bool_decide (kind p = input_output).

(** The parameters whose tensor goes to the outputs: those of kind
    [output] or [input_output]. *)
Definition is_predicted (p : WeatherParam) : bool :=
  bool_decide (kind p <> input).

(** Axes of the date forcings of [generate_forcings]. *)
Definition DATE_NAMES : list string := ["timestep"; "features"].

Definition FORCING_NAMES : list string :=
  ["cos_hour"; "sin_hour"; "cos_doy"; "sin_doy"; "toa_radiation"].

(** Modelled from the spec: the settings of a dataset split that the
    sample code reads. *)
Record SamplePreprocSettings : Type := mkSettings {
  dataset_name : string;
  num_input_steps : Z;
  num_pred_steps : Z;
  settings_step_duration : Z;
  standardize : bool;
  file_format : string
}.

#[global] Instance Timestamps_eq_dec : EqDecision Timestamps.
Proof. solve_decision. Defined.

Section Access.
Context {V : Type}.

(** Modelled from the spec: per-parameter mean, std, min and max. *)
Record Stat : Type := mkStat {
  stat_mean : V; stat_std : V; stat_min : V; stat_max : V
}.

(** Modelled from the spec: the statistics store, a mapping from the
    short name of a parameter to its statistics. *)
Definition Stats : Type := gmap string Stat.

(** [stats[name]] *)
Definition stats_get (stats : Stats) (name : string) : result Stat :=
  match stats !! name with
  | Some s => Ok s
  | None => Raise (KeyError name)
  end.

(** Modelled from the spec: the grid, of which the sample code reads
    the latitude and longitude arrays. *)
Record Grid : Type := mkGrid {
  grid_name : string;
  lat : Tensor.t V;
  lon : Tensor.t V
}.

(** Modelled from the spec: the two functions of the accessor contract
    that a sample carries, [exists(dataset_name, parameter, timestamps,
    file_format)] and [fetch(parameter, stats, timestamps, settings,
    standardize, member)]. *)
Record DataAccessor : Type := mkAccessor {
  accessor_exists :
    string -> WeatherParam -> Timestamps -> string -> bool;
  accessor_get_param_tensor :
    WeatherParam -> option Stats -> Timestamps -> SamplePreprocSettings
    -> bool -> Z -> result (Tensor.t V)
}.

(** The two functions of [py4cast.forcingutils] that
    [generate_forcings] calls; they are taken as given. *)
Class ForcingUtils : Type := {
  get_year_hour_forcing : Z -> list Z -> Tensor.t V;
  generate_toa_radiation_forcing :
    Tensor.t V -> Tensor.t V -> Z -> list Z -> Tensor.t V
}.

End Access.
Arguments Stat V : clear implicits.
Arguments Stats V : clear implicits.
Arguments Grid V : clear implicits.
Arguments DataAccessor V : clear implicits.
Arguments ForcingUtils V : clear implicits.

(* ===================================================================== *)
(** ** Forcings *)
(* ===================================================================== *)

Section Forcings.
Context {V : Type} `{Scalar V} `{ForcingUtils V}.

Definition generate_forcings (date : Z) (output_timestamps : list Z)
    (grid : Grid V) : result (list (NamedTensor.t V)) :=
  let datetime_forcing :=
    Tensor.type float32 (get_year_hour_forcing date output_timestamps) in
  let solar_forcing :=
    Tensor.type float32
      (generate_toa_radiation_forcing (lat grid) (lon grid) date
         output_timestamps) in
  rbind (Tensor.to1 2 datetime_forcing) (fun hours =>
  rbind (NamedTensor.new hours ["timestep"; "features"]
           ["cos_hour"; "sin_hour"] "features") (fun f_hour =>
  rbind (Tensor.from1 2 datetime_forcing) (fun days =>
  rbind (NamedTensor.new days ["timestep"; "features"]
           ["cos_doy"; "sin_doy"] "features") (fun f_doy =>
  rbind (NamedTensor.new solar_forcing ["timestep"; "lat"; "lon"; "features"]
           ["toa_radiation"] "features") (fun f_solar =>
  Ok [f_hour; f_doy; f_solar]))))).

End Forcings.

(* ===================================================================== *)
(** ** Sample *)
(* ===================================================================== *)

Module Sample.
Section Sample.
Context {V : Type} `{Scalar V} `{ForcingUtils V}.

Record t : Type := mk {
  timestamps : Timestamps;
  settings : SamplePreprocSettings;
  params : list WeatherParam;
  stats : option (Stats V);
  grid : Grid V;
  exists_ : string -> WeatherParam -> Timestamps -> string -> bool;
  get_param_tensor :
    WeatherParam -> option (Stats V) -> Timestamps -> SamplePreprocSettings
    -> bool -> Z -> result (Tensor.t V);
  member : Z;
  input_timestamps : Timestamps;
  output_timestamps : Timestamps
}.

(** [Sample(timestamps, settings, params, stats, grid, exists,
    get_param_tensor, member)] with its [__post_init__]. *)
Definition new (timestamps : Timestamps) (settings : SamplePreprocSettings)
    (params : list WeatherParam) (stats : option (Stats V)) (grid : Grid V)
    (exists_ : string -> WeatherParam -> Timestamps -> string -> bool)
    (get_param_tensor :
       WeatherParam -> option (Stats V) -> Timestamps
       -> SamplePreprocSettings -> bool -> Z -> result (Tensor.t V))
    (member : Z) : result t :=
  if negb (num_input_steps settings + num_pred_steps settings
           =? Z.of_nat (length (validity_times timestamps))) then
    Raise (Exception_ "Length terms does not match inputs + outputs")
  else
    let n := num_input_steps settings in
    Ok (mk timestamps settings params stats grid exists_ get_param_tensor
           member
           (mkTimestamps (datetime timestamps)
              (slice_to n (terms timestamps))
              (slice_to n (validity_times timestamps)))
           (mkTimestamps (datetime timestamps)
              (slice_from n (terms timestamps))
              (slice_from n (validity_times timestamps)))).

(** The loop returns [False] at the first parameter that does not
    exist. *)
Fixpoint is_valid_go (s : t) (ps : list WeatherParam) : bool :=
  match ps with
  | [] => true
  | param :: ps' =>
      if negb (exists_ s (dataset_name (settings s)) param (timestamps s)
                 (file_format (settings s)))
      then false
      else is_valid_go s ps'
  end.

Definition is_valid (s : t) : bool := is_valid_go s (params s).

(** *** Loading: a computation that records its fetches *)

(** One call of [get_param_tensor]. *)
Record Fetch : Type := mkFetch {
  fetch_param : WeatherParam;
  fetch_timestamps : Timestamps;
  fetch_standardize : bool;
  fetch_member : Z
}.

(** A result together with the fetches made on the way to it. *)
Definition M (A : Type) : Type := (list Fetch * result A)%type.

Definition ret {A} (a : A) : M A := ([], Ok a).

Definition bind {A B} (m : M A) (k : A -> M B) : M B :=
  match m with
  | (tr, Ok a) => let '(tr', r) := k a in (tr ++ tr', r)
  | (tr, Raise e) => (tr, Raise e)
  end.

Definition lift {A} (r : result A) : M A := ([], r).

Notation "'do' x <- m ; k" := (bind m (fun x => k))
  (at level 10, x name, m at level 100, k at level 200).

(** [self.get_param_tensor(param=..., stats=self.stats, timestamps=...,
    settings=self.settings, standardize=..., member=self.member)] *)
Definition fetch (s : t) (param : WeatherParam) (ts : Timestamps)
    (std : bool) : M (Tensor.t V) :=
  ([mkFetch param ts std (member s)],
   get_param_tensor s param (stats s) ts (settings s) std (member s)).

Definition STATE_NAMES : list string := ["timestep"; "lat"; "lon"; "features"].

(** One turn of the loop over the parameters; [acc] holds [linputs] and
    [loutputs]. *)
Definition load_param (s : t) (no_standardize : bool)
    (acc : list (NamedTensor.t V) * list (NamedTensor.t V))
    (param : WeatherParam)
  : M (list (NamedTensor.t V) * list (NamedTensor.t V)) :=
  let '(linputs, loutputs) := acc in
  let feature_names := [parameter_short_name param] in
  let std := standardize (settings s) && negb no_standardize in
  match kind param with
  | input =>
      do tensor <- fetch s param (input_timestamps s) std ;
      do tmp_state <- lift (NamedTensor.new tensor STATE_NAMES feature_names
                           "features") ;
      (* [tmp_state] is bound and the turn ends *)
      ret (linputs, loutputs)
  | output =>
      do tensor <- fetch s param (output_timestamps s) std ;
      do tmp_state <- lift (NamedTensor.new tensor STATE_NAMES feature_names
                           "features") ;
      ret (linputs, loutputs ++ [tmp_state])
  | input_output =>
      do tensor <- fetch s param (timestamps s) std ;
      do out_slice <- lift (Tensor.from0 (- num_pred_steps (settings s)) tensor) ;
      do out_state <- lift (NamedTensor.new out_slice STATE_NAMES feature_names
                           "features") ;
      do in_slice <- lift (Tensor.to0 (num_input_steps (settings s)) tensor) ;
      do in_state <- lift (NamedTensor.new in_slice STATE_NAMES feature_names
                          "features") ;
      ret (linputs ++ [in_state], loutputs ++ [out_state])
  end.

Fixpoint load_params (s : t) (no_standardize : bool)
    (acc : list (NamedTensor.t V) * list (NamedTensor.t V))
    (ps : list WeatherParam)
  : M (list (NamedTensor.t V) * list (NamedTensor.t V)) :=
  match ps with
  | [] => ret acc
  | param :: ps' =>
      do acc' <- load_param s no_standardize acc param ;
      load_params s no_standardize acc' ps'
  end.

(** [for forcing in lforcings:
       forcing.unsqueeze_and_expand_from_(linputs[0])] *)
Definition expand_forcings (lforcings linputs : list (NamedTensor.t V))
  : result (list (NamedTensor.t V)) :=
  rmapM (fun forcing =>
           rbind (first_item linputs) (fun like =>
           NamedTensor.unsqueeze_and_expand_from forcing like))
        lforcings.

Definition load (s : t) (no_standardize : bool) : M (Item.t V) :=
  do acc <- load_params s no_standardize ([], []) (params s) ;
  let '(linputs, loutputs) := acc in
  do lforcings <- lift (generate_forcings (datetime (timestamps s))
                       (terms (output_timestamps s)) (grid s)) ;
  do lforcings' <- lift (expand_forcings lforcings linputs) ;
  do inputs <- lift (NamedTensor.concat linputs) ;
  do outputs <- lift (NamedTensor.concat loutputs) ;
  do forcing <- lift (NamedTensor.concat lforcings') ;
  lift (Item.new inputs forcing outputs).

(** The head of [plot]: the tensor of the item that is read for a step
    (inputs up to step 0, outputs after) and the index of the timestep
    in it. *)
Definition plot_select (s : t) (step : Z) : Item.field_name * Z :=
  if step <=? 0 then (Item.f_inputs, step + num_input_steps (settings s) - 1)
  else (Item.f_outputs, step - 1).

(** The steps of [plot_gif]: [list(range(-n_inputs + 1, n_preds + 1))]. *)
Definition plot_gif_steps (s : t) : list Z :=
  arange_values (- num_input_steps (settings s) + 1)
    (num_pred_steps (settings s) + 1) 1.

(** The validity time in the title of [plot]:
    [self.timestamps.validity_times[step]]. *)
Definition plot_title_time (s : t) (step : Z) : result Z :=
  py_getitem (validity_times (timestamps s)) step.

(** The validity time of the timestep that [plot] shows: the tensors of
    the inputs and of the outputs hold one timestep per validity time of
    the input and of the output timestamps. *)
Definition plot_frame_time (s : t) (step : Z) : result Z :=
  let '(f, index_tensor) := plot_select s step in
  py_getitem
    (validity_times
       (match f with
        | Item.f_inputs => input_timestamps s
        | _ => output_timestamps s
        end))
    index_tensor.

(** The fetch that [load] makes for a parameter: over the input, the
    output or all the timestamps, by the kind of the parameter. *)
Definition fetch_of (s : t) (no_standardize : bool) (param : WeatherParam)
  : Fetch :=
  mkFetch param
    (match kind param with
     | input => input_timestamps s
     | output => output_timestamps s
     | input_output => timestamps s
     end)
    (standardize (settings s) && negb no_standardize) (member s).

(** A tensor of the parameter loop: its axes and its feature axis. *)
Definition state_like (x : NamedTensor.t V) : Prop :=
  NamedTensor.names x = STATE_NAMES
  /\ NamedTensor.feature_dim_name x = "features".

(** A fetch function that returns one field of [H] by [W] points per
    validity time asked for, on the axes of [STATE_NAMES]: what the
    accessor contract asks of [get_param_tensor]. *)
Definition fetches_fields
    (gp : WeatherParam -> option (Stats V) -> Timestamps
          -> SamplePreprocSettings -> bool -> Z -> result (Tensor.t V))
    (H W : nat) : Prop :=
  forall p st ts se b m x,
    gp p st ts se b m = Ok x ->
    Tensor.shape x = [length (validity_times ts); H; W; 1%nat].

End Sample.
Arguments t V : clear implicits.
End Sample.

(* ===================================================================== *)
(** ** The Titan accessor *)
(* ===================================================================== *)

Module TitanAccessor.
Section TitanAccessor.
Context {V : Type} `{Scalar V}.

(** Reading one date of one parameter from disk, the cropping to the
    subdomain included; it is taken as given and may fail. *)
Variable load_data_from_disk :
  string -> WeatherParam -> Z -> string -> result (Tensor.t V).

(** [np.stack(arrays)] *)
Definition np_stack (arrays : list (Tensor.t V)) : result (Tensor.t V) :=
  match arrays with
  | [] => Raise (ValueError "need at least one array to stack")
  | _ :: _ =>
      match Tensor.stack arrays with
      | Ok a => Ok a
      | Raise _ => Raise (ValueError "all input arrays must have the same shape")
      end
  end.

Definition get_param_tensor (param : WeatherParam) (stats : option (Stats V))
    (dates : list Z) (settings : SamplePreprocSettings)
    (no_standardize : bool) : result (Tensor.t V) :=
  rbind (rmapM (fun date =>
           load_data_from_disk (dataset_name settings) param date
             (file_format settings)) dates) (fun arrays =>
  rbind (np_stack arrays) (fun arr =>
  rbind (if negb (bool_decide (Tensor.dim arr = 4%nat))
         then Tensor.unsqueeze 1 arr else Ok arr) (fun arr =>
  rbind (Tensor.transpose_0231 arr) (fun arr =>
  if standardize settings && negb no_standardize then
    let name := parameter_short_name param in
    match stats with
    | None => Raise (Exception_ "NoneType object is not subscriptable")
    | Some stats =>
        rbind (stats_get stats name) (fun st =>
        Ok (Tensor.standardize (stat_mean st) (stat_std st) arr))
    end
  else Ok arr)))).

End TitanAccessor.
End TitanAccessor.

(* ===================================================================== *)
(** ** The dataset and its cache of valid dates *)
(* ===================================================================== *)

Module Dataset.
Section Dataset.
Context {V : Type} `{Scalar V} `{ForcingUtils V}.

Record t : Type := mk {
  ds_name : string;
  grid : Grid V;
  period : Period.t;
  params : list WeatherParam;
  settings : SamplePreprocSettings;
  accessor : DataAccessor V;
  stats : Stats V
}.

(** [Sample(date, self.settings, self.params, stats, self.grid)].
    The call names five of the fields of the dataclass; the timestamps
    that belong to a reference date are left as a parameter, and the two
    functions of the sample are those of the accessor of the dataset. *)
Variable timestamps_of : Z -> Timestamps.

Definition trial_sample (ds : t) (stats : option (Stats V)) (date : Z)
  : result (Sample.t V) :=
  Sample.new (timestamps_of date) (settings ds) (params ds) stats (grid ds)
    (accessor_exists (accessor ds))
    (accessor_get_param_tensor (accessor ds)) 0.

(** Whether the trial sample of a date can be built and is valid. *)
Definition date_valid (ds : t) (date : Z) : bool :=
  match trial_sample ds None date with
  | Ok sample => Sample.is_valid sample
  | Raise _ => false
  end.

(** [write_list_valid_samples]: the text written to the file of valid
    samples, opened afresh, paired with the outcome of the call. *)
Fixpoint write_go (ds : t) (dates : list Z) (written : text)
  : text * result unit :=
  match dates with
  | [] => (written, Ok ())
  | date :: dates' =>
      match trial_sample ds (Some (stats ds)) date with
      | Raise e => (written, Raise e)
      | Ok sample =>
          if Sample.is_valid sample then
            write_go ds dates' (written ++ strftime date ++ [NL])
          else write_go ds dates' written
      end
  end.

Definition write_list_valid_samples (ds : t) : text * result unit :=
  write_go ds (Period.date_list (period ds)) [].

(** The order in which a Python [set] lists its elements is left to the
    interpreter: [set_order] is any function that lists the elements of
    a set, each once. *)
Variable set_order : gset Z -> list Z.

(** [list(set(a).intersection(set(b)))] *)
Definition set_intersection_list (a b : list Z) : list Z :=
  set_order (list_to_set a ∩ list_to_set b).

(** The loop of the branch that recomputes: the samples of the valid
    dates, in the order of the dates. *)
Fixpoint fresh_go (ds : t) (stats : option (Stats V)) (dates : list Z)
  : result (list (Sample.t V)) :=
  match dates with
  | [] => Ok []
  | date :: dates' =>
      rbind (trial_sample ds stats date) (fun sample =>
      rbind (fresh_go ds stats dates') (fun samples =>
      Ok (if Sample.is_valid sample then sample :: samples else samples)))
  end.

(** [TitanDataset.sample_list]; [file] is the content of the file of
    valid samples, if the file exists. *)
Definition sample_list (ds : t) (file : option text)
  : result (list (Sample.t V)) :=
  let stats := if standardize (settings ds) then Some (stats ds) else None in
  match file with
  | Some content =>
      let dates_str := map chop (readlines content) in
      rbind (rmapM strptime dates_str) (fun dates =>
      let dates := set_intersection_list dates (Period.date_list (period ds)) in
      rmapM (trial_sample ds stats) dates)
  | None => fresh_go ds stats (Period.date_list (period ds))
  end.

(** [input_dim]: four features for the date, one for the solar forcing
    and one per parameter of kind [input]. *)
Definition input_dim (ds : t) : Z :=
  fold_left (fun res param =>
               if decide (kind param = input) then res + 1 else res)
            (params ds) (4 + 1).

Definition input_output_dim (ds : t) : Z :=
  fold_left (fun res param =>
               if decide (kind param = input_output) then res + 1 else res)
            (params ds) 0.

Definition output_dim (ds : t) : Z :=
  fold_left (fun res param =>
               if decide (kind param = output) then res + 1 else res)
            (params ds) 0.

(** [shortnames(kind)] for one kind. *)
Definition shortnames (ds : t) (k : Kind) : list string :=
  map parameter_short_name (filter (fun p => kind p = k) (params ds)).

(** [self[index]]: the item of the sample at [index] of the sample list
    (the fetches are left out). *)
Definition getitem (ds : t) (file : option text) (index : Z)
  : result (Item.t V) :=
  rbind (sample_list ds file) (fun samples =>
  rbind (py_getitem samples index) (fun sample =>
  snd (Sample.load sample false))).

(** The same dataset over another period, and with another function to
    tell whether the data of a parameter exists. *)
Definition with_period (ds : t) (p : Period.t) : t :=
  mk (ds_name ds) (grid ds) p (params ds) (settings ds) (accessor ds)
     (stats ds).

Definition with_exists (ds : t)
    (ex : string -> WeatherParam -> Timestamps -> string -> bool) : t :=
  mk (ds_name ds) (grid ds) (period ds) (params ds) (settings ds)
     (mkAccessor ex (accessor_get_param_tensor (accessor ds))) (stats ds).

End Dataset.
Arguments t V : clear implicits.
End Dataset.

(* ===================================================================== *)
(** ** Datasets from a configuration *)
(* ===================================================================== *)

Module Config.
Section Config.
Context {V : Type} `{Scalar V} `{ForcingUtils V}.

(** One entry of [conf["periods"]]: the keyword arguments of [Period],
    of which [term_start] and [term_end] may be left out. *)
Record period_conf : Type := mkPeriodConf {
  pc_start : Z;
  pc_end : Z;
  pc_step_duration : Z;
  pc_term_start : option Z;
  pc_term_end : option Z
}.

(** One entry of [conf["params"]]. *)
Record param_conf : Type := mkParamConf {
  pc_levels : list Z;
  pc_kind : Kind
}.

(** The configuration, as [from_dict] and [get_param_list] read it; the
    parameters are in the order of the dictionary. *)
Record conf : Type := mkConf {
  conf_train : period_conf;
  conf_valid : period_conf;
  conf_test : period_conf;
  conf_standardize : bool;
  conf_file_format : string;
  conf_params : list (string * param_conf)
}.

(** The number of levels that the configuration lists under a kind. *)
Definition levels_of_kind (c : conf) (k : Kind) : nat :=
  fold_right Nat.add 0%nat
    (map (fun '(_, values) =>
            if decide (pc_kind values = k)
            then length (pc_levels values) else 0%nat)
         (conf_params c)).

(** The constructor of [WeatherParam], for a name, a level and a kind
    (the grid and the two functions of the accessor are those of the
    dataset); it is taken as given and may raise. *)
Variable weather_param : string -> Z -> Kind -> result WeatherParam.

(** [get_param_list]: for each name, in order, one parameter per
    level. *)
Definition get_param_list (c : conf) : result (list WeatherParam) :=
  rbind (rmapM (fun '(name, values) =>
           rmapM (fun lvl => weather_param name lvl (pc_kind values))
                 (pc_levels values))
         (conf_params c)) (fun per_name =>
  Ok (concat per_name)).

(** [Period( **conf["periods"][name], name=name)] *)
Definition period_of (pc : period_conf) (name : string) : result Period.t :=
  Period.new (pc_start pc) (pc_end pc) (pc_step_duration pc) name
    (default 0 (pc_term_start pc)) (default 23 (pc_term_end pc)).

(** [DatasetABC.from_dict]; the grid that [Grid( **conf["grid"])] builds
    and the statistics of the dataset are given. *)
Definition from_dict (name : string) (c : conf) (grid : Grid V)
    (stats : Stats V) (num_input_steps num_pred_steps_train
       num_pred_steps_val_test : Z) (accessor : DataAccessor V)
  : result (Dataset.t V * Dataset.t V * Dataset.t V) :=
  rbind (get_param_list c) (fun param_list =>
  let train_settings :=
    mkSettings name num_input_steps num_pred_steps_train
      (pc_step_duration (conf_train c)) (conf_standardize c)
      (conf_file_format c) in
  rbind (period_of (conf_train c) "train") (fun train_period =>
  let train_ds :=
    Dataset.mk name grid train_period param_list train_settings accessor
      stats in
  let valid_settings :=
    mkSettings name num_input_steps num_pred_steps_val_test
      (pc_step_duration (conf_valid c)) (conf_standardize c)
      (conf_file_format c) in
  rbind (period_of (conf_valid c) "valid") (fun valid_period =>
  let valid_ds :=
    Dataset.mk name grid valid_period param_list valid_settings accessor
      stats in
  rbind (period_of (conf_test c) "test") (fun test_period =>
  let test_ds :=
    Dataset.mk name grid test_period param_list valid_settings accessor
      stats in
  Ok (train_ds, valid_ds, test_ds))))).

(** [self.shuffle] of [DatasetABC.__init__] *)
Definition shuffle (ds : Dataset.t V) : bool :=
  bool_decide (Period.name (Dataset.period ds) = "train").

End Config.
End Config.

(* ===================================================================== *)
(** ** The registry of datasets *)
(* ===================================================================== *)

Module Registry.
Section Registry.

(** A value of the registry: the tuple that was registered, of two
    components (dataset class, configuration file) or of four (dataset
    name, dataset class, accessor class, configuration file). Classes and
    paths are kept as their names. *)
Inductive entry : Type :=
| Pair (dataset_kls config : string)
| Quad (dataset_name dataset_kls accessor_kls config : string).

(** Which imports of the module succeeded. *)
Record imports : Type := mkImports {
  smeagol_ok : bool;
  smeagol_infer_ok : bool;
  titan_ok : bool;
  poesy_ok : bool;
  poesy_infer_ok : bool;
  dummy_ok : bool
}.

Definition register (ok : bool) (name : string) (e : entry)
    (r : gmap string entry) : gmap string entry :=
  if ok then <[name := e]> r else r.

(** The registry after the module was imported. *)
Definition registry (i : imports) : gmap string entry :=
  register (dummy_ok i) "dummy" (Pair "DummyDataset" "")
  (register (poesy_infer_ok i) "poesy_infer"
     (Quad "Poesy" "InferPoesyDataset" "PoesyAccessor" "poesy_infer.json")
  (register (poesy_ok i) "poesy"
     (Quad "Poesy" "PoesyDataset" "PoesyAccessor" "poesy_refacto.json")
  (register (titan_ok i) "titan"
     (Quad "Titan" "TitanDataset" "TitanAccessor" "titan_full.json")
  (register (smeagol_infer_ok i) "smeagol_infer"
     (Pair "InferSmeagolDataset" "smeagol.json")
  (register (smeagol_ok i) "smeagol"
     (Pair "SmeagolDataset" "smeagol.json") ∅))))).

(** What [from_json] is called with. *)
Record from_json_call : Type := mkCall {
  call_dataset_kls : string;
  call_accessor_kls : string;
  call_dataset_name : string;
  call_config_file : string;
  call_num_input_steps : Z;
  call_num_pred_steps_train : Z;
  call_num_pred_steps_val_test : Z
}.

Context {Datasets : Type}.

(** The class method [from_json] of the dataset classes; it is taken as
    given. *)
Variable from_json : from_json_call -> result Datasets.

(** [get_datasets(name, num_input_steps, num_pred_steps_train,
    num_pred_steps_val_test, config_file)]: only a missing key is turned
    into the error of the function, the failure to unpack a tuple of two
    components is raised as it is. *)
Definition get_datasets (r : gmap string entry) (name : string)
    (num_input_steps num_pred_steps_train num_pred_steps_val_test : Z)
    (config_file : option string) : result Datasets :=
  match r !! name with
  | None => Raise (ValueError "Dataset not found in registry")
  | Some (Pair _ _) =>
      Raise (ValueError "not enough values to unpack (expected 4, got 2)")
  | Some (Quad dataset_name dataset_kls accessor_kls default_config) =>
      let config_file :=
        match config_file with
        | None => default_config
        | Some f => f
        end in
      from_json (mkCall dataset_kls accessor_kls dataset_name config_file
                   num_input_steps num_pred_steps_train
                   num_pred_steps_val_test)
  end.

End Registry.
End Registry.

(* ===================================================================== *)
(** ** Concrete data for the examples *)
(* ===================================================================== *)

Module Examples.

(** Rational values, on which a change of dtype changes nothing. *)
#[global] Instance Scalar_Q : Scalar Q :=
  {| cast := fun _ v => v; sub := Qminus; div := Qdiv |}.

(** A tensor of the given shape, filled with [v]. *)
Definition full (shape : list nat) (v : Q) (d : dtype) : Tensor.t Q :=
  Tensor.mk shape (replicate (Tensor.numel shape) v) d.

Definition grid1 : Grid Q :=
  mkGrid "dummygrid" (full [1; 1]%nat 0%Q float64) (full [1; 1]%nat 0%Q float64).

(** Forcings of the right shapes: four date features per output step,
    one solar value per output step and grid point. *)
#[global] Instance forcing_utils : ForcingUtils Q := {|
  get_year_hour_forcing := fun _ terms =>
    full [length terms; 4%nat] 1%Q float64;
  generate_toa_radiation_forcing := fun lat _ _ terms =>
    full (length terms :: Tensor.shape lat ++ [1%nat]) 1%Q float64
|}.

(** An accessor that finds every file and fetches, for each timestamp,
    a one-point field whose value is the validity time in hours;
    standardization is with mean 1 and std 2. *)
Definition fetch_hours (_ : WeatherParam) (_ : option (Stats Q))
    (ts : Timestamps) (_ : SamplePreprocSettings) (std : bool) (_ : Z)
  : result (Tensor.t Q) :=
  let x := Tensor.mk [length (validity_times ts); 1; 1; 1]%nat
             (map (fun t => inject_Z (t / HOUR)) (validity_times ts))
             float64 in
  Ok (if std then Tensor.standardize 1%Q 2%Q x else x).

Definition accessor1 : DataAccessor Q :=
  mkAccessor (fun _ _ _ _ => true) fetch_hours.

Definition temperature : WeatherParam :=
  mkWeatherParam "t2m" 2 "heightAboveGround" input_output
    "t2m_2_heightAboveGround".

Definition orography : WeatherParam :=
  mkWeatherParam "z" 0 "surface" input "z_0_surface".

Definition settings_2_1 : SamplePreprocSettings :=
  mkSettings "dummy" 2 1 1 false "npy".

Definition settings_2_0 : SamplePreprocSettings :=
  mkSettings "dummy" 2 0 1 false "npy".

Definition settings_1_1 : SamplePreprocSettings :=
  mkSettings "dummy" 1 1 1 false "npy".

(** One term, two validity times. *)
Definition timestamps_misaligned : Timestamps :=
  mkTimestamps 1672534800 [0] [1672534800; 1672538400].

(** Terms [-1, 0, 1] hours around 2023-01-01 01h. *)
Definition timestamps3 : Timestamps :=
  mkTimestamps 1672534800 [-1; 0; 1] [1672531200; 1672534800; 1672538400].

(** Terms [-1, 0] hours around 2023-01-01 01h. *)
Definition timestamps2 : Timestamps :=
  mkTimestamps 1672534800 [-1; 0] [1672531200; 1672534800].

Definition named (shape : list nat) (features : list string) (v : Q)
  : NamedTensor.t Q :=
  NamedTensor.mk (full shape v float64)
    ["timestep"; "lat"; "lon"; "features"] features "features".

(** Two items of one shape whose feature names differ. *)
Definition item_a : Item.t Q :=
  Item.mk (named [2; 1; 1; 1]%nat ["t2m"] 1%Q)
          (named [1; 1; 1; 5]%nat ["f1"; "f2"; "f3"; "f4"; "f5"] 0%Q)
          (named [1; 1; 1; 1]%nat ["t2m"] 2%Q).

Definition item_b : Item.t Q :=
  Item.mk (named [2; 1; 1; 1]%nat ["u10"] 3%Q)
          (named [1; 1; 1; 5]%nat ["g1"; "g2"; "g3"; "g4"; "g5"] 0%Q)
          (named [1; 1; 1; 1]%nat ["u10"] 4%Q).

(** The tensors of [item_b] under the names of [item_a]. *)
Definition item_b_renamed : Item.t Q :=
  Item.mk (named [2; 1; 1; 1]%nat ["t2m"] 3%Q)
          (Item.forcing item_b)
          (named [1; 1; 1; 1]%nat ["t2m"] 4%Q).

(** An item with three input steps, where [item_a] has two. *)
Definition item_c : Item.t Q :=
  Item.mk (named [3; 1; 1; 1]%nat ["t2m"] 1%Q)
          (Item.forcing item_a)
          (Item.outputs item_a).

(** A sample with an [input] parameter next to an [input_output] one. *)
Definition sample_with_input : result (Sample.t Q) :=
  Sample.new timestamps3 settings_2_1 [orography; temperature] None grid1
    (accessor_exists accessor1) (accessor_get_param_tensor accessor1) 0.

(** A sample with an [input] parameter only. *)
Definition sample_input_only : result (Sample.t Q) :=
  Sample.new timestamps3 settings_2_1 [orography] None grid1
    (accessor_exists accessor1) (accessor_get_param_tensor accessor1) 0.

(** A sample with two input steps and no prediction step. *)
Definition sample_no_pred : result (Sample.t Q) :=
  Sample.new timestamps2 settings_2_0 [temperature] None grid1
    (accessor_exists accessor1) (accessor_get_param_tensor accessor1) 0.

(** A dataset over two days, 2023-01-01 and 2023-01-02 at 00h, with
    samples of terms -1, 0 and 1 hours. *)
Definition period2 : Period.t :=
  Period.mk 1672531200 1672617600 1 "train" 0 23.

(** The first day of [period2] alone. *)
Definition period1 : Period.t :=
  Period.mk 1672531200 1672531200 1 "train" 0 23.

(** Reading a field of two by three points from disk, whatever the
    date. *)
Definition load_field (_ : string) (_ : WeatherParam) (_ : Z) (_ : string)
  : result (Tensor.t Q) :=
  Ok (full [2; 3]%nat 0%Q float64).

Definition timestamps_at (date : Z) : Timestamps :=
  mkTimestamps date [-1; 0; 1] [date - HOUR; date; date + HOUR].

Definition dataset2 : Dataset.t Q :=
  Dataset.mk "dummy" grid1 period2 [temperature] settings_2_1 accessor1 ∅.

(** The file of valid samples of [dataset2]. *)
Definition cache2 : text :=
  concat (map (fun l => list_ascii_of_string l ++ [NL])
            ["2023-01-01_00h00"; "2023-01-02_00h00"]).

(** The configuration that [DummyAccessor] writes. *)
Definition dummy_conf : Config.conf :=
  Config.mkConf
    (Config.mkPeriodConf 2023010100 2023010107 1 None None)
    (Config.mkPeriodConf 2023010108 2023010115 1 None None)
    (Config.mkPeriodConf 2023010116 2023010122 1 None None)
    true "npy"
    [("dummy_parameter", Config.mkParamConf [500] input_output)].

(** A constructor of parameters that knows one type of level. *)
Definition isobaric_param (name : string) (lvl : Z) (k : Kind)
  : result WeatherParam :=
  Ok (mkWeatherParam name lvl "isobaricInhPa" k name).

(** The reference dates of a list of samples. *)
Definition sample_dates (r : result (list (Sample.t Q))) : result (list Z) :=
  rbind r (fun l => Ok (map (fun s => datetime (Sample.timestamps s)) l)).

(** Two ways of listing a set: by increasing and by decreasing value. *)
Definition ascending (s : gset Z) : list Z := merge_sort Z.le (elements s).
Definition descending (s : gset Z) : list Z := reverse (ascending s).

End Examples.

(* ===================================================================== *)
(** * Properties *)
(* ===================================================================== *)

(** ** Calendar *)

Lemma all_from_spec (f : Z -> bool) (n : nat) (lo : Z) :
  all_from lo n f = true ->
  forall i, lo <= i < lo + Z.of_nat n -> f i = true.
Proof.
  revert lo. induction n as [|n IH]; intros lo Hall i Hi; [lia|].
  simpl in Hall. apply andb_true_iff in Hall as [Hlo Hrest].
  destruct (Z.eq_dec i lo) as [->|Hne]; [done|].
  apply (IH (lo + 1)); [done | lia].
Qed.

(** Every year of an era and every day of a year is checked. *)
Lemma years_ok : all_from 0 400 year_ok = true.
Proof. vm_compute. reflexivity. Qed.

Lemma days_ok : all_from 0 366 doy_ok = true.
Proof. vm_compute. reflexivity. Qed.

Lemma days_adj_step (x : Z) :
  0 <= x < 146096 -> days_adj x <= days_adj (x + 1).
Proof.
  intros Hx. unfold days_adj.
  pose proof (Z.div_mod x 1460 ltac:(lia)).
  pose proof (Z.mod_pos_bound x 1460 ltac:(lia)).
  pose proof (Z.div_mod (x + 1) 1460 ltac:(lia)).
  pose proof (Z.mod_pos_bound (x + 1) 1460 ltac:(lia)).
  pose proof (Z.div_mod x 36524 ltac:(lia)).
  pose proof (Z.mod_pos_bound x 36524 ltac:(lia)).
  pose proof (Z.div_mod (x + 1) 36524 ltac:(lia)).
  pose proof (Z.mod_pos_bound (x + 1) 36524 ltac:(lia)).
  pose proof (Z.div_mod x 146096 ltac:(lia)).
  pose proof (Z.mod_pos_bound x 146096 ltac:(lia)).
  pose proof (Z.div_mod (x + 1) 146096 ltac:(lia)).
  pose proof (Z.mod_pos_bound (x + 1) 146096 ltac:(lia)).
  lia.
Qed.

Lemma days_adj_mono (x y : Z) :
  0 <= x <= y -> y <= 146096 -> days_adj x <= days_adj y.
Proof.
  intros Hxy Hy.
  replace y with (x + Z.of_nat (Z.to_nat (y - x))) in * by lia.
  induction (Z.to_nat (y - x)) as [|n IH]; [by rewrite Z.add_0_r|].
  etrans; [apply IH; lia|].
  replace (x + Z.of_nat (S n)) with (x + Z.of_nat n + 1) by lia.
  apply days_adj_step. lia.
Qed.

Lemma year_ok_spec (yoe : Z) :
  0 <= yoe <= 399 ->
  0 <= year_start yoe
  /\ 365 * yoe <= days_adj (year_start yoe)
  /\ days_adj (year_start yoe + year_len yoe - 1) < 365 * (yoe + 1)
  /\ year_start yoe + year_len yoe
     = (if yoe =? 399 then 146097 else year_start (yoe + 1)).
Proof.
  intros Hy.
  pose proof (all_from_spec _ _ _ years_ok yoe ltac:(lia)) as Hok.
  unfold year_ok in Hok. cbv zeta in Hok.
  repeat (apply andb_true_iff in Hok as [Hok ?]).
  apply Z.leb_le in Hok.
  repeat match goal with
         | Hb : (_ <=? _) = true |- _ => apply Z.leb_le in Hb
         | Hb : (_ <? _) = true |- _ => apply Z.ltb_lt in Hb
         end.
  repeat split; try done.
  destruct (yoe =? 399);
    match goal with Hb : (_ =? _) = true |- _ => apply Z.eqb_eq in Hb end; lia.
Qed.

(** Every day of an era lies in one of its years. *)
Lemma year_of_doe (doe : Z) :
  0 <= doe < 146097 ->
  exists yoe, 0 <= yoe <= 399
    /\ year_start yoe <= doe < year_start yoe + year_len yoe.
Proof.
  intros Hd.
  assert (Hind : forall n : nat, (n <= 399)%nat ->
            doe < year_start (Z.of_nat n) + year_len (Z.of_nat n) ->
            exists yoe, 0 <= yoe <= 399
              /\ year_start yoe <= doe < year_start yoe + year_len yoe).
  { induction n as [|n IH]; intros Hn Hlt.
    - exists 0. split; [lia|]. split; [|exact Hlt].
      change (year_start 0) with 0. lia.
    - destruct (Z_lt_le_dec doe (year_start (Z.of_nat n) + year_len (Z.of_nat n)))
        as [Hlo|Hhi]; [apply IH; [lia | done]|].
      exists (Z.of_nat (S n)). split; [lia|]. split; [|exact Hlt].
      destruct (year_ok_spec (Z.of_nat n) ltac:(lia)) as (_ & _ & _ & He).
      destruct (Z.eqb_spec (Z.of_nat n) 399); [lia|].
      replace (Z.of_nat (S n)) with (Z.of_nat n + 1) by lia. lia. }
  apply (Hind 399%nat); [lia|].
  destruct (year_ok_spec 399 ltac:(lia)) as (_ & _ & _ & He).
  simpl in He. change (Z.of_nat 399) with 399. lia.
Qed.

(** No year of the era ends after the era. *)
Lemma year_end_le (yoe : Z) :
  0 <= yoe <= 399 -> year_start yoe + year_len yoe <= 146097.
Proof.
  intros Hy.
  assert (G : forall k : nat, (k <= 399)%nat ->
            year_start (399 - Z.of_nat k) + year_len (399 - Z.of_nat k)
            <= 146097).
  { induction k as [|k IH]; intros Hk.
    - vm_compute. discriminate.
    - destruct (year_ok_spec (399 - Z.of_nat (S k)) ltac:(lia))
        as (_ & _ & _ & He).
      destruct (Z.eqb_spec (399 - Z.of_nat (S k)) 399); [lia|].
      specialize (IH ltac:(lia)).
      replace (399 - Z.of_nat (S k) + 1) with (399 - Z.of_nat k) in He by lia.
      assert (0 < year_len (399 - Z.of_nat k))
        by (unfold year_len; destruct (is_leap _); lia).
      lia. }
  specialize (G (Z.to_nat (399 - yoe)) ltac:(lia)).
  by replace (399 - Z.of_nat (Z.to_nat (399 - yoe))) with yoe in G by lia.
Qed.

Lemma yoe_of_doe_spec (doe yoe : Z) :
  0 <= yoe <= 399 ->
  year_start yoe <= doe < year_start yoe + year_len yoe ->
  yoe_of_doe doe = yoe.
Proof.
  intros Hy Hd.
  destruct (year_ok_spec yoe Hy) as (H0 & Ha & Hb & _).
  pose proof (year_end_le yoe Hy) as Hend.
  pose proof (days_adj_mono (year_start yoe) doe ltac:(lia) ltac:(lia)).
  pose proof (days_adj_mono doe (year_start yoe + year_len yoe - 1)
                ltac:(lia) ltac:(lia)).
  unfold yoe_of_doe. symmetry.
  apply (Z.div_unique_pos _ _ _ (days_adj doe - 365 * yoe)); lia.
Qed.

Lemma year_start_mono (a b : Z) :
  0 <= a <= b -> year_start a <= year_start b.
Proof.
  intros Hab. unfold year_start.
  pose proof (Z.div_mod a 4 ltac:(lia)).
  pose proof (Z.mod_pos_bound a 4 ltac:(lia)).
  pose proof (Z.div_mod b 4 ltac:(lia)).
  pose proof (Z.mod_pos_bound b 4 ltac:(lia)).
  pose proof (Z.div_mod a 100 ltac:(lia)).
  pose proof (Z.mod_pos_bound a 100 ltac:(lia)).
  pose proof (Z.div_mod b 100 ltac:(lia)).
  pose proof (Z.mod_pos_bound b 100 ltac:(lia)).
  lia.
Qed.

Lemma doy_ok_spec (doy : Z) :
  0 <= doy < 366 ->
  let mp := mp_of_doy doy in
  let d := dom_of_doy doy in
  0 <= mp <= 11 /\ 1 <= d /\ doy_of mp d = doy
  /\ d <= (if mp =? 11 then (if doy =? 365 then 29 else 28)
           else days_in_month 1 (month_of_mp mp))
  /\ (306 <= doy -> 10 <= mp) /\ (doy <= 305 -> mp <= 9).
Proof.
  intros Hd.
  pose proof (all_from_spec _ _ _ days_ok doy ltac:(lia)) as Hok.
  unfold doy_ok in Hok. cbv zeta in *.
  repeat (apply andb_true_iff in Hok as [Hok ?]).
  apply Z.leb_le in Hok.
  repeat match goal with
         | Hb : (_ || _) = true |- _ =>
             apply orb_true_iff in Hb; rewrite Z.ltb_lt, Z.leb_le in Hb
         | Hb : (_ <=? _) = true |- _ => apply Z.leb_le in Hb
         | Hb : (_ =? _) = true |- _ => apply Z.eqb_eq in Hb
         end.
  repeat split; try done; lia.
Qed.

Lemma is_leap_era (y era : Z) : is_leap (y + era * 400) = is_leap y.
Proof.
  unfold is_leap.
  replace (y + era * 400) with (y + (era * 100) * 4) at 1 by lia.
  replace (y + era * 400) with (y + (era * 4) * 100) at 1 by lia.
  by rewrite !Z.mod_add by lia.
Qed.

Lemma days_in_month_era (y era m : Z) :
  days_in_month (y + era * 400) m = days_in_month y m.
Proof. unfold days_in_month. by rewrite is_leap_era. Qed.

Lemma days_in_month_not_feb (y m : Z) :
  m <> 2 -> days_in_month y m = days_in_month 1 m.
Proof.
  intros Hm. unfold days_in_month. by destruct (Z.eqb_spec m 2).
Qed.

(** The two conversions between day counts and civil dates agree, and a
    civil date has a month and a day of that month. *)
Lemma civil_from_days_spec (z : Z) :
  let '(y, m, d) := civil_from_days z in
  days_from_civil y m d = z
  /\ 1 <= m <= 12
  /\ 1 <= d <= days_in_month y m
  /\ (T_MIN / DAY <= z <= T_MAX / DAY -> 1000 <= y <= 9999).
Proof.
  unfold civil_from_days.
  set (z' := z + 719468).
  set (era := z' / 146097).
  set (doe := z' - era * 146097).
  assert (Hdoe : 0 <= doe < 146097).
  { subst doe era. pose proof (Z.div_mod z' 146097 ltac:(lia)).
    pose proof (Z.mod_pos_bound z' 146097 ltac:(lia)). lia. }
  destruct (year_of_doe doe Hdoe) as (yoe & Hyoe & Hin).
  cbv zeta. rewrite (yoe_of_doe_spec doe yoe Hyoe Hin).
  set (doy := doe - year_start yoe).
  assert (Hdoy : 0 <= doy < year_len yoe) by (subst doy; lia).
  assert (Hdoy' : 0 <= doy < 366).
  { unfold year_len in Hdoy. destruct (is_leap (yoe + 1)); lia. }
  pose proof (doy_ok_spec doy Hdoy') as Hok. cbv zeta in Hok.
  set (mp := mp_of_doy doy) in *.
  set (d := dom_of_doy doy) in *.
  set (m := month_of_mp mp).
  destruct Hok as (Hmp & Hd1 & Hback & Hdmax & Hjan & Hdec).
  assert (Hm : 1 <= m <= 12 /\ (if m <=? 2 then m + 9 else m - 3) = mp
               /\ (m <=? 2) = (10 <=? mp) /\ (m = 2 <-> mp = 11)).
  { subst m. unfold month_of_mp.
    destruct (Z.ltb_spec mp 10).
    - destruct (Z.leb_spec (mp + 3) 2); destruct (Z.leb_spec 10 mp); lia.
    - destruct (Z.leb_spec (mp - 9) 2); destruct (Z.leb_spec 10 mp); lia. }
  destruct Hm as (Hm & Hmpm & Hjf & Hfeb).
  assert (Hy' : (if m <=? 2 then (if m <=? 2 then yoe + era * 400 + 1
                                  else yoe + era * 400) - 1
                 else (if m <=? 2 then yoe + era * 400 + 1
                       else yoe + era * 400)) = yoe + era * 400).
  { destruct (m <=? 2); lia. }
  assert (Hera : (yoe + era * 400) / 400 = era).
  { rewrite Z.div_add by lia. rewrite Z.div_small by lia. lia. }
  split; [|split; [done|split]].
  - unfold days_from_civil. cbv zeta. rewrite Hy', Hera, Hmpm.
    replace (yoe + era * 400 - era * 400) with yoe by lia.
    unfold doe_of. rewrite Hback. subst doy doe z'. lia.
  - split; [done|].
    replace (if m <=? 2 then yoe + era * 400 + 1 else yoe + era * 400)
      with ((if m <=? 2 then yoe + 1 else yoe) + era * 400)
      by (destruct (m <=? 2); lia).
    rewrite days_in_month_era.
    revert Hdmax. destruct (Z.eqb_spec mp 11) as [E11|N11]; intros Hdmax.
    + assert (m = 2) as Em by (by apply Hfeb). rewrite Em.
      unfold days_in_month. change (2 <=? 2) with true.
      change (2 =? 2) with true. cbv iota.
      unfold year_len in Hdoy.
      destruct (is_leap (yoe + 1)); destruct (Z.eqb_spec doy 365); lia.
    + rewrite days_in_month_not_feb by (rewrite Hfeb; done). done.
  - intros [Hlo Hhi].
    assert (E0 : T_MIN / DAY + 719468 = 2 * 146097 + (year_start 199 + 306))
      by (vm_compute; reflexivity).
    assert (E1 : T_MAX / DAY + 719468 = 24 * 146097 + (year_start 399 + 305))
      by (vm_compute; reflexivity).
    assert (B0 : 0 <= year_start 199 + 306 < 146097)
      by (vm_compute; split; congruence).
    assert (B1 : 0 <= year_start 399 + 305 < 146097)
      by (vm_compute; split; congruence).
    assert (Hera_lo : 2 <= era).
    { subst era. apply Z.div_le_lower_bound; lia. }
    assert (Hera_hi : era <= 24).
    { subst era. apply Z.lt_succ_r, Z.div_lt_upper_bound; lia. }
    rewrite Hjf. split.
    + destruct (Z.eq_dec era 2) as [E2|N2];
        [|destruct (10 <=? mp); lia].
      assert (Hdoe_lo : year_start 199 + 306 <= doe) by (subst doe; lia).
      assert (199 <= yoe).
      { destruct (Z_lt_le_dec yoe 199) as [Hlt|]; [|done].
        pose proof (year_start_mono (yoe + 1) 199 ltac:(lia)).
        destruct (year_ok_spec yoe Hyoe) as (_ & _ & _ & He).
        destruct (Z.eqb_spec yoe 399); lia. }
      destruct (Z.eq_dec yoe 199) as [E199|N199].
      * assert (306 <= doy) by (subst doy; rewrite E199; lia).
        destruct (Z.leb_spec 10 mp); lia.
      * destruct (10 <=? mp); lia.
    + destruct (Z.eq_dec era 24) as [E24|N24];
        [|destruct (10 <=? mp); lia].
      assert (Hdoe_hi : doe <= year_start 399 + 305) by (subst doe; lia).
      destruct (Z.eq_dec yoe 399) as [E399|N399].
      * assert (doy <= 305) by (subst doy; rewrite E399; lia).
        destruct (Z.leb_spec 10 mp); lia.
      * destruct (10 <=? mp); lia.
Qed.

(** ** Printing and parsing digits *)

Lemma digit_char_spec (k : Z) :
  0 <= k <= 9 ->
  is_digit (digit_char k) = true /\ digit_val (digit_char k) = k
  /\ digit_char k <> NL.
Proof.
  intros Hk.
  assert (Hc : k = 0 \/ k = 1 \/ k = 2 \/ k = 3 \/ k = 4 \/ k = 5 \/ k = 6
               \/ k = 7 \/ k = 8 \/ k = 9) by lia.
  destruct Hc as [->|[->|[->|[->|[->|[->|[->|[->|[->| ->]]]]]]]]];
    repeat split; (reflexivity || discriminate).
Qed.

Lemma pad2_digits (v : Z) :
  0 <= v <= 99 -> 0 <= v / 10 <= 9 /\ 0 <= v mod 10 <= 9.
Proof.
  intros Hv. pose proof (Z.div_mod v 10 ltac:(lia)).
  pose proof (Z.mod_pos_bound v 10 ltac:(lia)). lia.
Qed.

Lemma two_digits_pad2 (ok : Z -> bool) (v : Z) (r : text) :
  0 <= v <= 99 -> ok v = true -> two_digits ok (pad2 v ++ r) = [(v, r)].
Proof.
  intros Hv Hok. destruct (pad2_digits v Hv) as [Hq Hr].
  destruct (digit_char_spec _ Hq) as (Ha & Hva & _).
  destruct (digit_char_spec _ Hr) as (Hb & Hvb & _).
  unfold two_digits, pad2. simpl app. cbv beta iota zeta.
  rewrite Ha, Hb, Hva, Hvb.
  replace (10 * (v / 10) + v mod 10) with v
    by (pose proof (Z.div_mod v 10 ltac:(lia)); lia).
  by rewrite Hok.
Qed.

Lemma dir_Y_pad4 (y : Z) (r : text) :
  0 <= y <= 9999 -> dir_Y (pad4 y ++ r) = [(y, r)].
Proof.
  intros Hy.
  assert (Hh : 0 <= y / 100 <= 99 /\ 0 <= y mod 100 <= 99).
  { pose proof (Z.div_mod y 100 ltac:(lia)).
    pose proof (Z.mod_pos_bound y 100 ltac:(lia)). lia. }
  destruct Hh as [Hh Hl].
  destruct (pad2_digits _ Hh) as [Ha Hb].
  destruct (pad2_digits _ Hl) as [Hc Hd].
  destruct (digit_char_spec _ Ha) as (Ea & Va & _).
  destruct (digit_char_spec _ Hb) as (Eb & Vb & _).
  destruct (digit_char_spec _ Hc) as (Ec & Vc & _).
  destruct (digit_char_spec _ Hd) as (Ed & Vd & _).
  unfold dir_Y, pad4, pad2. simpl app. cbv beta iota zeta.
  rewrite Ea, Eb, Ec, Ed, Va, Vb, Vc, Vd. simpl andb. cbv iota.
  do 2 f_equal.
  pose proof (Z.div_mod y 100 ltac:(lia)).
  pose proof (Z.div_mod (y / 100) 10 ltac:(lia)).
  pose proof (Z.div_mod (y mod 100) 10 ltac:(lia)).
  lia.
Qed.

Lemma four_digit_years : all_from 1000 (Z.to_nat 9000) four_digit_year = true.
Proof. vm_compute. reflexivity. Qed.

Lemma year_str_pad4 (y : Z) : 1000 <= y <= 9999 -> year_str y = pad4 y.
Proof.
  intros Hy. unfold year_str.
  pose proof (all_from_spec _ _ _ four_digit_years y ltac:(lia)) as Hc.
  by apply bool_decide_eq_true_1 in Hc.
Qed.

(** ** strptime after strftime *)

(** The result of [strptime] is decided by the first complete parse. *)
Lemma andthen_head {A B} (a : A) (r : text) (p : list (A * text))
    (k : A -> text -> list B) (b : B) (l : list B) :
  k a r = b :: l -> andthen ((a, r) :: p) k = b :: (l ++ andthen p k).
Proof. intros Hk. unfold andthen. simpl. by rewrite Hk. Qed.

Lemma lit_cons (c : ascii) (r : text) : lit c (c :: r) = [((), r)].
Proof. unfold lit. by rewrite decide_True. Qed.

Lemma time_of_day_fields (t : Z) :
  t mod 60 = 0 ->
  let s := t mod DAY in
  0 <= s / HOUR <= 23 /\ 0 <= s mod HOUR / 60 <= 59 /\ s mod 60 = 0
  /\ t / DAY * DAY + s / HOUR * HOUR + s mod HOUR / 60 * 60 = t.
Proof.
  intros Hs. cbv zeta. unfold DAY, HOUR.
  pose proof (Z.div_mod t 86400 ltac:(lia)).
  pose proof (Z.mod_pos_bound t 86400 ltac:(lia)).
  pose proof (Z.div_mod (t mod 86400) 3600 ltac:(lia)).
  pose proof (Z.mod_pos_bound (t mod 86400) 3600 ltac:(lia)).
  pose proof (Z.div_mod (t mod 86400 mod 3600) 60 ltac:(lia)).
  pose proof (Z.mod_pos_bound (t mod 86400 mod 3600) 60 ltac:(lia)).
  pose proof (Z.div_mod t 60 ltac:(lia)).
  pose proof (Z.div_mod (t mod 86400) 60 ltac:(lia)).
  pose proof (Z.mod_pos_bound (t mod 86400) 60 ltac:(lia)).
  assert (E1 : t mod 86400 mod 60 = 0).
  { rewrite Z.mod_mod_divide; [done|]. exists 1440. lia. }
  assert (E2 : t mod 86400 mod 3600 mod 60 = 0).
  { rewrite Z.mod_mod_divide; [done|]. exists 60. lia. }
  lia.
Qed.

Lemma in_range_days (t : Z) :
  in_range t -> T_MIN / DAY <= t / DAY <= T_MAX / DAY.
Proof.
  unfold in_range. intros [Hlo Hhi].
  assert (E0 : T_MIN = T_MIN / DAY * DAY) by (vm_compute; reflexivity).
  assert (E1 : T_MAX = T_MAX / DAY * DAY) by (vm_compute; reflexivity).
  unfold DAY in *. split.
  - apply Z.div_le_mono; lia.
  - apply Z.lt_succ_r. apply Z.div_lt_upper_bound; lia.
Qed.

(** Parsing a printed date gives the date back, when the date is a whole
    number of minutes in the years 1000 to 9999. *)
Lemma strptime_strftime (t : Z) :
  in_range t -> t mod 60 = 0 -> strptime (strftime t) = Ok t.
Proof.
  intros Hr Hs.
  pose proof (civil_from_days_spec (t / DAY)) as Hc.
  pose proof (time_of_day_fields t Hs) as Ht. cbv zeta in Ht.
  destruct Ht as (Hh & Hmi & Hsec & Hsum).
  unfold strptime, strftime, fields_of.
  destruct (civil_from_days (t / DAY)) as [[y m] d].
  destruct Hc as (Hdays & Hm & Hd & Hy).
  specialize (Hy (in_range_days t Hr)).
  cbv zeta. simpl year. simpl month. simpl day. simpl hour. simpl minute.
  assert (Hd31 : d <= 31).
  { unfold days_in_month in Hd.
    repeat match type of Hd with
           | context [if ?b then _ else _] => destruct b
           end; lia. }
  rewrite (year_str_pad4 y Hy).
  set (f := mkFields y m d (t mod DAY / HOUR) (t mod DAY mod HOUR / 60) 0).
  assert (Hall : exists l,
    andthen (dir_Y (pad4 y ++ "-"%char :: pad2 m ++ "-"%char :: pad2 d
                    ++ "_"%char :: pad2 (t mod DAY / HOUR) ++ "h"%char
                    :: pad2 (t mod DAY mod HOUR / 60)))
      (fun y s =>
       andthen (lit "-" s) (fun _ s =>
       andthen (dir_m s) (fun m s =>
       andthen (lit "-" s) (fun _ s =>
       andthen (dir_d s) (fun d s =>
       andthen (lit "_" s) (fun _ s =>
       andthen (dir_H s) (fun h s =>
       andthen (lit "h" s) (fun _ s =>
       andthen (dir_M s) (fun mi s =>
       at_end (mkFields y m d h mi 0) s))))))))) = f :: l).
  { eexists. rewrite dir_Y_pad4 by lia. eapply andthen_head.
    rewrite lit_cons. eapply andthen_head.
    unfold dir_m. rewrite two_digits_pad2; [|lia|unfold between; lia].
    eapply andthen_head.
    rewrite lit_cons. eapply andthen_head.
    unfold dir_d. rewrite two_digits_pad2; [|lia|unfold between; lia].
    eapply andthen_head.
    rewrite lit_cons. eapply andthen_head.
    unfold dir_H. rewrite two_digits_pad2; [|lia|unfold between; lia].
    eapply andthen_head.
    rewrite lit_cons. eapply andthen_head.
    unfold dir_M.
    rewrite <- (app_nil_r (pad2 _)).
    rewrite two_digits_pad2; [|lia|unfold between; lia].
    eapply andthen_head. reflexivity. }
  destruct Hall as [l ->]. unfold first_parse, datetime_new. subst f.
  simpl year. simpl month. simpl day. simpl hour. simpl minute. simpl second.
  repeat match goal with
         | |- context [negb (?a && ?b)] =>
             replace (a && b) with true
               by (symmetry; apply andb_true_iff; split; apply Z.leb_le; lia)
         end.
  simpl negb. cbv iota. f_equal. rewrite Hdays. lia.
Qed.


(** ** numpy.arange *)

Lemma ceil_div_succ (d s : Z) :
  0 <= d -> 0 < s -> ceil_div (d + 1) s = d / s + 1.
Proof.
  intros Hd Hs. unfold ceil_div.
  assert (Hq : (- (d + 1)) / s = - (d / s + 1)).
  { symmetry. apply (Z.div_unique_pos _ _ _ (s - 1 - d mod s)).
    - pose proof (Z.mod_pos_bound d s Hs). lia.
    - pose proof (Z.div_mod d s ltac:(lia)). nia. }
  rewrite Hq. lia.
Qed.

Lemma arange_values_length (start stop step : Z) :
  length (arange_values start stop step)
  = Z.to_nat (ceil_div (stop - start) step).
Proof. unfold arange_values. by rewrite length_map, length_seq. Qed.

Lemma arange_values_lookup (start stop step : Z) (i : nat) :
  (i < length (arange_values start stop step))%nat ->
  arange_values start stop step !! i = Some (start + Z.of_nat i * step).
Proof.
  rewrite arange_values_length. intros Hi. unfold arange_values.
  rewrite list_lookup_fmap, lookup_seq_lt by done. done.
Qed.

Lemma arange_values_elem (start stop step x : Z) :
  x ∈ arange_values start stop step ->
  exists i : nat, x = start + Z.of_nat i * step
    /\ (i < Z.to_nat (ceil_div (stop - start) step))%nat.
Proof.
  unfold arange_values. intros Hx.
  apply list_elem_of_fmap in Hx as (i & -> & Hi).
  apply elem_of_seq in Hi. exists i. split; [done | lia].
Qed.

Lemma arange_values_sorted (start stop step : Z) :
  0 < step -> StronglySorted Z.lt (arange_values start stop step).
Proof.
  intros Hs. unfold arange_values.
  generalize (Z.to_nat (ceil_div (stop - start) step)) as n.
  generalize 0%nat as k.
  intros k n. revert k. induction n as [|n IH]; intros k; simpl.
  - constructor.
  - constructor; [apply IH |].
    apply Forall_forall. intros x Hx.
    apply list_elem_of_fmap in Hx as (i & -> & Hi).
    apply elem_of_seq in Hi. nia.
Qed.

(** Below the stop: every value of [arange] is smaller than [stop]. *)
Lemma arange_values_below_stop (start stop step x : Z) :
  0 < step -> x ∈ arange_values start stop step -> x < stop.
Proof.
  intros Hs Hx. apply arange_values_elem in Hx as (i & -> & Hi).
  unfold ceil_div in Hi.
  assert (0 < - ((- (stop - start)) / step)) by lia.
  assert (Z.of_nat i + 1 <= - ((- (stop - start)) / step)) by lia.
  pose proof (Z.div_mod (- (stop - start)) step ltac:(lia)).
  pose proof (Z.mod_pos_bound (- (stop - start)) step Hs).
  nia.
Qed.

(** ** Period *)



(** The reference dates are 24 hours apart, start with the start date and
    stay below the end date plus one day. *)
Lemma date_list_spacing (p : Period.t) (i : nat) :
  (i < length (Period.date_list p))%nat ->
  Period.date_list p !! i = Some (Period.start p + Z.of_nat i * DAY).
Proof. apply arange_values_lookup. Qed.

Lemma date_list_below (p : Period.t) (d : Z) :
  d ∈ Period.date_list p -> Period.start p <= d < Period.end_ p + DAY.
Proof.
  intros Hd. split.
  - apply arange_values_elem in Hd as (i & -> & _). unfold DAY. lia.
  - eapply arange_values_below_stop; [|exact Hd]. reflexivity.
Qed.

(** C5. The period of the dummy configuration, from 2023-01-01 00h to
    2023-01-01 07h: the list of dates holds 2023-01-02 00h, which is
    later than the end of the period. *)
Theorem date_list_overshoots_end :
  exists p,
    Period.new 2023010100 2023010107 1 "train" 0 23 = Ok p
    /\ Period.date_list p = [Period.start p; Period.start p + DAY]
    /\ Period.end_ p < Period.start p + DAY
    /\ map strftime (Period.date_list p)
       = map list_ascii_of_string ["2023-01-01_00h00"; "2023-01-02_00h00"].
Proof.
  eexists. split; [vm_compute; reflexivity|].
  vm_compute. repeat split; reflexivity.
Qed.

(** [__post_init__] leaves whole hours in [start] and [end]. *)
Lemma andthen_Forall {A B} (P : B -> Prop) (p : list (A * text))
    (k : A -> text -> list B) :
  (forall a r, Forall P (k a r)) -> Forall P (andthen p k).
Proof.
  intros Hk. unfold andthen. apply Forall_concat, Forall_fmap, Forall_forall.
  intros [a r] _. apply Hk.
Qed.

Lemma strptime_YmdH_whole_hour (s : text) (t : Z) :
  strptime_YmdH s = Ok t -> t mod HOUR = 0.
Proof.
  unfold strptime_YmdH.
  set (l := andthen _ _).
  assert (Hl : Forall (fun f => minute f = 0 /\ second f = 0) l).
  { subst l. repeat (apply andthen_Forall; intros ? ?).
    unfold at_end. destruct r2; repeat constructor. }
  destruct l as [|f l]; simpl; [discriminate|].
  apply Forall_cons in Hl as [[Hm Hs] _].
  unfold datetime_new.
  repeat match goal with
         | |- context [if ?b then _ else _] => destruct b; [discriminate|]
         end.
  intros [= <-]. rewrite Hm, Hs. unfold DAY, HOUR.
  replace (days_from_civil (year f) (month f) (day f) * 86400
           + hour f * 3600 + 0 * 60 + 0)
    with (0 + (days_from_civil (year f) (month f) (day f) * 24 + hour f) * 3600)
    by lia.
  by rewrite Z.mod_add.
Qed.

Lemma Period_new_whole_hours start end_ step name ts te (p : Period.t) :
  Period.new start end_ step name ts te = Ok p ->
  Period.start p mod HOUR = 0 /\ Period.end_ p mod HOUR = 0
  /\ Period.step_duration p = step /\ Period.term_start p = ts
  /\ Period.term_end p = te.
Proof.
  unfold Period.new.
  destruct (strptime_YmdH (str_int start)) as [s|e] eqn:Es; [|discriminate].
  destruct (strptime_YmdH (str_int end_)) as [e|e'] eqn:Ee; [|discriminate].
  simpl. intros [= <-]. simpl.
  apply strptime_YmdH_whole_hour in Es, Ee. done.
Qed.

(** ** Slices *)

(** [l[:k]] is the first [k] items, [l[-k:]] the last [k] items for a
    positive [k], and [l[-0:]] is the whole of [l]. *)
Lemma slice_to_first {A} (k : Z) (l : list A) :
  0 <= k <= Z.of_nat (length l) ->
  slice_to k l = take (Z.to_nat k) l /\ length (slice_to k l) = Z.to_nat k.
Proof.
  intros Hk. unfold slice_to, slice_bound.
  destruct (Z.ltb_spec k 0); [lia|].
  rewrite Nat.min_l by lia. split; [done|]. rewrite length_take. lia.
Qed.

Lemma slice_from_last {A} (k : Z) (l : list A) :
  0 < k <= Z.of_nat (length l) ->
  slice_from (- k) l = drop (length l - Z.to_nat k) l
  /\ length (slice_from (- k) l) = Z.to_nat k.
Proof.
  intros Hk. unfold slice_from, slice_bound.
  destruct (Z.ltb_spec (- k) 0); [|lia].
  replace (Z.to_nat (Z.max 0 (Z.of_nat (length l) + - k)))
    with (length l - Z.to_nat k)%nat by lia.
  split; [done|]. rewrite length_drop. lia.
Qed.

Lemma slice_from_minus_zero {A} (l : list A) : slice_from (- 0) l = l.
Proof. reflexivity. Qed.

Section TensorSlices.
Context {V : Type} `{Scalar V}.

(** The number of timesteps of [x[:k]] and of [x[-k:]]: the latter keeps
    every timestep when [k] is zero. *)
Lemma to0_shape (x : Tensor.t V) (n : nat) (rest : list nat) (k : Z) :
  Tensor.shape x = n :: rest -> 0 <= k <= Z.of_nat n ->
  exists y, Tensor.to0 k x = Ok y /\ Tensor.shape y = Z.to_nat k :: rest.
Proof.
  intros Hs Hk. unfold Tensor.to0, Tensor.slice_axis. rewrite Hs. simpl drop.
  eexists. split; [reflexivity|]. simpl. f_equal.
  apply slice_to_first. by rewrite length_replicate.
Qed.

Lemma from0_shape (x : Tensor.t V) (n : nat) (rest : list nat) (k : Z) :
  Tensor.shape x = n :: rest -> 0 <= k <= Z.of_nat n ->
  exists y, Tensor.from0 (- k) x = Ok y
            /\ Tensor.shape y = (if k =? 0 then n else Z.to_nat k) :: rest.
Proof.
  intros Hs Hk. unfold Tensor.from0, Tensor.slice_axis. rewrite Hs. simpl drop.
  eexists. split; [reflexivity|]. simpl. f_equal.
  destruct (Z.eqb_spec k 0) as [->|Hne].
  - rewrite slice_from_minus_zero. apply length_replicate.
  - apply slice_from_last. rewrite length_replicate. lia.
Qed.

(** The Titan accessor standardizes the whole array that it fetched:
    every value [v] becomes [(v - mean) / std], with the statistics of
    the parameter. *)
Lemma titan_get_param_tensor_standardizes
    (load_data_from_disk :
       string -> WeatherParam -> Z -> string -> result (Tensor.t V))
    (param : WeatherParam) (stats : Stats V) (dates : list Z)
    (settings : SamplePreprocSettings) (raw : Tensor.t V) (st : Stat V) :
  standardize settings = true ->
  TitanAccessor.get_param_tensor load_data_from_disk param (Some stats)
    dates settings true = Ok raw ->
  stats !! parameter_short_name param = Some st ->
  TitanAccessor.get_param_tensor load_data_from_disk param (Some stats)
    dates settings false
  = Ok (Tensor.mk (Tensor.shape raw)
          (map (fun v => div (sub v (stat_mean st)) (stat_std st))
               (Tensor.data raw))
          (Tensor.dtype_of raw)).
Proof.
  intros Hstd Hraw Hst. unfold TitanAccessor.get_param_tensor in *.
  rewrite Hstd in *. simpl andb in *. cbv iota in Hraw.
  destruct (rmapM _ dates) as [arrays|e]; simpl in *; [|discriminate].
  destruct (TitanAccessor.np_stack arrays) as [arr|e]; simpl in *;
    [|discriminate].
  destruct (if negb _ then _ else _) as [arr'|e]; simpl in *; [|discriminate].
  destruct (Tensor.transpose_0231 arr') as [arr''|e]; simpl in *;
    [|discriminate].
  injection Hraw as ->. unfold stats_get. rewrite Hst. done.
Qed.

End TensorSlices.

(** ** Timestamps and sample construction *)

Lemma Timestamps_consistent_aligned (ts : Timestamps) :
  Timestamps_consistent ts -> Timestamps_aligned ts.
Proof.
  unfold Timestamps_consistent, Timestamps_aligned. intros ->.
  by rewrite length_map.
Qed.

Section SampleNew.
Context {V : Type} `{Scalar V}.
Implicit Types (ts : Timestamps) (st : SamplePreprocSettings).

(** [__post_init__] raises exactly when the number of validity times
    is not the sum of the two step counts. *)
Lemma Sample_new_ok_iff ts st ps (stats : option (Stats V)) g ex gp m :
  is_ok (Sample.new ts st ps stats g ex gp m) = true
  <-> num_input_steps st + num_pred_steps st
      = Z.of_nat (length (validity_times ts)).
Proof.
  unfold Sample.new.
  destruct (Z.eqb_spec (num_input_steps st + num_pred_steps st)
              (Z.of_nat (length (validity_times ts)))); simpl; split;
    congruence.
Qed.

Lemma Sample_new_fields ts st ps (stats : option (Stats V)) g ex gp m s :
  Sample.new ts st ps stats g ex gp m = Ok s ->
  Sample.timestamps s = ts /\ Sample.settings s = st
  /\ Sample.params s = ps /\ Sample.stats s = stats
  /\ Sample.exists_ s = ex /\ Sample.get_param_tensor s = gp.
Proof.
  unfold Sample.new.
  destruct (negb _); [discriminate|]. intros [= <-]. simpl. tauto.
Qed.


End SampleNew.



(** ** Item construction *)

Section ItemNew.
Context {V : Type} `{Scalar V}.
Implicit Types (i f o : NamedTensor.t V).

(** C7. Building an item raises when the inputs and the outputs differ
    in their axis names or in their feature names (in particular when
    the sets of feature names differ), and an item that was built has
    inputs and outputs with the same axis names and the same feature
    names. *)
Theorem Item_new_checks_names i f o :
  (NamedTensor.names i <> NamedTensor.names o
   \/ NamedTensor.feature_names i <> NamedTensor.feature_names o
   \/ ~ (forall x, x ∈ NamedTensor.feature_names i
                   <-> x ∈ NamedTensor.feature_names o) ->
   exists e, Item.new i f o = Raise e)
  /\ (forall it, Item.new i f o = Ok it ->
        it = Item.mk i f o
        /\ NamedTensor.names (Item.inputs it)
           = NamedTensor.names (Item.outputs it)
        /\ NamedTensor.feature_names (Item.inputs it)
           = NamedTensor.feature_names (Item.outputs it)).
Proof.
  unfold Item.new. split.
  - intros Hdiff.
    destruct (decide (NamedTensor.names i = NamedTensor.names o)) as [En|En].
    2: { rewrite bool_decide_eq_false_2 by done. simpl. eauto. }
    rewrite bool_decide_eq_true_2 by done. simpl.
    destruct (decide (NamedTensor.feature_names i
                      = NamedTensor.feature_names o)) as [Ef|Ef].
    2: { rewrite bool_decide_eq_false_2 by done. simpl. eauto. }
    exfalso. destruct Hdiff as [Hd|[Hd|Hd]]; [done | done |].
    apply Hd. intros x. by rewrite Ef.
  - intros it.
    case_bool_decide; simpl; [|discriminate].
    case_bool_decide; simpl; [|discriminate].
    intros [= <-]. simpl. done.
Qed.

End ItemNew.

Lemma Item_new_checks_names_witness :
  (exists e,
     Item.new (Item.inputs Examples.item_a) (Item.forcing Examples.item_a)
       (Item.outputs Examples.item_b) = Raise e)
  /\ (forall it,
        Item.new (Item.inputs Examples.item_a) (Item.forcing Examples.item_a)
          (Item.outputs Examples.item_a) = Ok it ->
        NamedTensor.feature_names (Item.inputs it)
        = NamedTensor.feature_names (Item.outputs it))
  /\ is_ok (Item.new (Item.inputs Examples.item_a)
              (Item.forcing Examples.item_a)
              (Item.outputs Examples.item_a)) = true.
Proof.
  split; [|split].
  - apply (Item_new_checks_names (Item.inputs Examples.item_a)
             (Item.forcing Examples.item_a) (Item.outputs Examples.item_b)).
    right. left. simpl. discriminate.
  - intros it Hit.
    apply (Item_new_checks_names (Item.inputs Examples.item_a)
             (Item.forcing Examples.item_a) (Item.outputs Examples.item_a)
             ) in Hit.
    tauto.
  - reflexivity.
Defined.

(** ** The batch collator *)

Section CollateProps.
Context {V : Type} `{Scalar V}.
Implicit Types (item : Item.t V) (items : list (Item.t V)).

Lemma stack_ok (x : Tensor.t V) (l : list (Tensor.t V)) :
  Forall (fun y => Tensor.shape y = Tensor.shape x) l ->
  exists d,
    Tensor.stack (x :: l)
    = Ok (Tensor.mk (length (x :: l) :: Tensor.shape x)
            (concat (map (fun y => map (cast d) (Tensor.data y)) (x :: l))) d).
Proof.
  intros Hall. unfold Tensor.stack.
  assert (E : forallb (fun y => bool_decide (Tensor.shape y = Tensor.shape x)) l
              = true).
  { apply forallb_forall. intros y Hy. apply bool_decide_eq_true_2.
    rewrite Forall_forall in Hall. apply Hall. by apply list_elem_of_In. }
  rewrite E. eauto.
Qed.

Lemma stack_mismatch (x : Tensor.t V) (l : list (Tensor.t V)) :
  Exists (fun y => Tensor.shape y <> Tensor.shape x) l ->
  exists e, Tensor.stack (x :: l) = Raise e.
Proof.
  intros Hex. unfold Tensor.stack.
  assert (E : forallb (fun y => bool_decide (Tensor.shape y = Tensor.shape x)) l
              = false).
  { apply not_true_is_false. intros Htrue.
    rewrite forallb_forall in Htrue.
    apply Exists_exists in Hex as (y & Hy & Hne).
    apply list_elem_of_In in Hy. apply Htrue in Hy.
    by apply bool_decide_eq_true_1 in Hy. }
  rewrite E. eauto.
Qed.

Lemma list_index_cons_ne (x y : string) (l : list string) (i : nat) :
  x <> y -> list_index x l = Ok i -> list_index x (y :: l) = Ok (S i).
Proof.
  intros Hne Hi. simpl. destruct (decide (x = y)); [done|]. by rewrite Hi.
Qed.

Lemma expand_to_batch_like_ok (tensor : Tensor.t V) (other : NamedTensor.t V)
    (n : nat) :
  NamedTensor.wf other ->
  NamedTensor.feature_dim_name other <> "batch" ->
  Tensor.shape tensor = n :: Tensor.shape (NamedTensor.tensor other) ->
  NamedTensor.expand_to_batch_like tensor other
  = Ok (NamedTensor.mk tensor ("batch" :: NamedTensor.names other)
          (NamedTensor.feature_names other)
          (NamedTensor.feature_dim_name other)).
Proof.
  intros (Hdim & i & Hi & Hfeat) Hne Hshape.
  unfold NamedTensor.expand_to_batch_like, NamedTensor.new.
  rewrite bool_decide_eq_true_2.
  2: { unfold Tensor.dim in *. rewrite Hshape. simpl. by rewrite Hdim. }
  simpl negb. cbv iota.
  rewrite (list_index_cons_ne _ _ _ _ Hne Hi). simpl rbind.
  rewrite Hshape. simpl nth.
  rewrite bool_decide_eq_true_2 by done. done.
Qed.

(** One field of the batch, when the tensors of that field have one shape
    across the items. *)
Lemma collate_field_ok (f : Item.field_name) item0 (rest : list (Item.t V)) :
  NamedTensor.wf (Item.getattr item0 f) ->
  NamedTensor.feature_dim_name (Item.getattr item0 f) <> "batch" ->
  Forall (fun it =>
            Tensor.shape (NamedTensor.tensor (Item.getattr it f))
            = Tensor.shape (NamedTensor.tensor (Item.getattr item0 f))) rest ->
  exists b,
    collate_field f (item0 :: rest) = Ok b
    /\ Tensor.shape (NamedTensor.tensor b)
       = length (item0 :: rest)
         :: Tensor.shape (NamedTensor.tensor (Item.getattr item0 f))
    /\ Tensor.dtype_of (NamedTensor.tensor b) = float32
    /\ Forall (fun v => exists u, v = cast float32 u)
         (Tensor.data (NamedTensor.tensor b))
    /\ NamedTensor.names b = "batch" :: NamedTensor.names (Item.getattr item0 f)
    /\ NamedTensor.feature_names b
       = NamedTensor.feature_names (Item.getattr item0 f)
    /\ NamedTensor.feature_dim_name b
       = NamedTensor.feature_dim_name (Item.getattr item0 f).
Proof.
  intros Hwf Hne Hall. unfold collate_field, collate_tensor_fn.
  destruct (stack_ok (NamedTensor.tensor (Item.getattr item0 f))
              (map (fun it => NamedTensor.tensor (Item.getattr it f)) rest))
    as [d Hd].
  { apply Forall_fmap. exact Hall. }
  change (map (fun item => NamedTensor.tensor (Item.getattr item f))
            (item0 :: rest))
    with (NamedTensor.tensor (Item.getattr item0 f)
          :: map (fun it => NamedTensor.tensor (Item.getattr it f)) rest).
  rewrite Hd. simpl rbind.
  erewrite expand_to_batch_like_ok; [|exact Hwf|exact Hne|reflexivity].
  eexists. split; [reflexivity|]. simpl.
  rewrite length_map. repeat split; try reflexivity.
  apply Forall_forall. intros v Hv.
  apply list_elem_of_fmap in Hv as (u & -> & _). eauto.
Qed.

Lemma collate_field_mismatch (f : Item.field_name) item0 rest :
  Exists (fun it =>
            Tensor.shape (NamedTensor.tensor (Item.getattr it f))
            <> Tensor.shape (NamedTensor.tensor (Item.getattr item0 f))) rest ->
  exists e, collate_field f (item0 :: rest) = Raise e.
Proof.
  intros Hex. unfold collate_field, collate_tensor_fn.
  destruct (stack_mismatch (NamedTensor.tensor (Item.getattr item0 f))
              (map (fun it => NamedTensor.tensor (Item.getattr it f)) rest))
    as [e He].
  { apply Exists_fmap. exact Hex. }
  change (map (fun item => NamedTensor.tensor (Item.getattr item f))
            (item0 :: rest))
    with (NamedTensor.tensor (Item.getattr item0 f)
          :: map (fun it => NamedTensor.tensor (Item.getattr it f)) rest).
  rewrite He. simpl. eauto.
Qed.

(** The names and feature names of the items after the first are not
    read. *)
Lemma collate_field_first_only (f : Item.field_name) item0 rest rest' :
  map (fun it => NamedTensor.tensor (Item.getattr it f)) rest
  = map (fun it => NamedTensor.tensor (Item.getattr it f)) rest' ->
  collate_field f (item0 :: rest) = collate_field f (item0 :: rest').
Proof.
  intros E. unfold collate_field. simpl map. simpl first_item. by rewrite E.
Qed.

End CollateProps.

Section CollateClaims.
Context {V : Type} `{Scalar V}.
Implicit Types (item : Item.t V) (items : list (Item.t V)).

Lemma features_not_batch : "features" <> "batch".
Proof. discriminate. Qed.


(** C4, as the code has it. The collator reads the axis names and the
    feature names of the first item only: replacing the other items by
    items with the same tensors, whatever their names, does not change
    its result. The failure it has across items is that of stacking: a
    tensor whose shape differs from that of the first item raises. *)
Theorem collate_fn_reads_names_of_first_item item0
    (rest rest' : list (Item.t V)) :
  (forall f,
     map (fun it => NamedTensor.tensor (Item.getattr it f)) rest
     = map (fun it => NamedTensor.tensor (Item.getattr it f)) rest') ->
  collate_fn (item0 :: rest) = collate_fn (item0 :: rest')
  /\ ((exists it f, it ∈ rest
         /\ Tensor.shape (NamedTensor.tensor (Item.getattr it f))
            <> Tensor.shape (NamedTensor.tensor (Item.getattr item0 f))) ->
      exists e, collate_fn (item0 :: rest) = Raise e).
Proof.
  intros Hsame. split.
  - unfold collate_fn.
    by rewrite !(collate_field_first_only _ item0 rest rest') by apply Hsame.
  - intros (it & f & Hit & Hne).
    assert (Hf : exists e, collate_field f (item0 :: rest) = Raise e).
    { apply collate_field_mismatch, Exists_exists.
      exists it. by split. }
    destruct Hf as [e He]. unfold collate_fn.
    destruct (collate_field Item.f_inputs (item0 :: rest)) as [bi|ei] eqn:Ei;
      simpl; [|eauto].
    destruct (collate_field Item.f_forcing (item0 :: rest)) as [bf|ef] eqn:Ef;
      simpl; [|eauto].
    destruct (collate_field Item.f_outputs (item0 :: rest)) as [bo|eo] eqn:Eo;
      simpl; [|eauto].
    destruct f; congruence.
Qed.

End CollateClaims.


(** C4, as stated, fails: two items of one shape whose feature names
    differ are collated without complaint, under the names of the
    first. *)
Lemma collate_fn_accepts_mismatched_names :
  NamedTensor.feature_names (Item.inputs Examples.item_a)
  <> NamedTensor.feature_names (Item.inputs Examples.item_b)
  /\ exists b,
       collate_fn [Examples.item_a; Examples.item_b] = Ok b
       /\ NamedTensor.feature_names (Item.inputs b) = ["t2m"].
Proof.
  split; [discriminate|].
  eexists. split; [vm_compute; reflexivity | reflexivity].
Qed.

Lemma collate_fn_reads_names_of_first_item_witness :
  collate_fn [Examples.item_a; Examples.item_b]
  = collate_fn [Examples.item_a; Examples.item_b_renamed]
  /\ exists e, collate_fn [Examples.item_a; Examples.item_c] = Raise e.
Proof.
  split.
  - apply (collate_fn_reads_names_of_first_item Examples.item_a
             [Examples.item_b] [Examples.item_b_renamed]).
    intros f. destruct f; reflexivity.
  - apply (collate_fn_reads_names_of_first_item Examples.item_a
             [Examples.item_c] [Examples.item_c]); [done|].
    exists Examples.item_c, Item.f_inputs.
    split; [left | discriminate].
Defined.

(** ** Loading a sample *)

Section TraceMonad.
Context {V : Type} `{Scalar V}.
Implicit Types (s : Sample.t V) (p : WeatherParam).

Lemma bind_ok_inv {A B} (m : Sample.M A) (k : A -> Sample.M B) tr b :
  Sample.bind m k = (tr, Ok b) ->
  exists tr1 a tr2,
    m = (tr1, Ok a) /\ k a = (tr2, Ok b) /\ tr = tr1 ++ tr2.
Proof.
  unfold Sample.bind. destruct m as [tr1 [a|e]]; [|discriminate].
  destruct (k a) as [tr2 r] eqn:Ek. intros [= <- ->]. eauto 6.
Qed.

Lemma lift_ok_inv {A} (r : result A) tr a :
  Sample.lift r = (tr, Ok a) -> r = Ok a /\ tr = [].
Proof. unfold Sample.lift. by intros [= <- ->]. Qed.

Lemma ret_ok_inv {A} (x : A) tr a :
  Sample.ret x = (tr, Ok a) -> x = a /\ tr = [].
Proof. unfold Sample.ret. by intros [= <- ->]. Qed.

Lemma fetch_ok_inv s p ts std tr x :
  Sample.fetch s p ts std = (tr, Ok x) ->
  tr = [Sample.mkFetch p ts std (Sample.member s)]
  /\ Sample.get_param_tensor s p (Sample.stats s) ts (Sample.settings s) std
       (Sample.member s) = Ok x.
Proof. unfold Sample.fetch. by intros [= <- ->]. Qed.

Lemma NamedTensor_new_ok_inv (x : Tensor.t V) ns fs fd nt :
  NamedTensor.new x ns fs fd = Ok nt ->
  nt = NamedTensor.mk x ns fs fd /\ NamedTensor.wf nt.
Proof.
  unfold NamedTensor.new.
  case_bool_decide as Hdim; simpl; [|discriminate].
  destruct (list_index fd ns) as [i|e] eqn:Ei; simpl; [|discriminate].
  case_bool_decide as Hf; simpl; [|discriminate].
  intros [= <-]. split; [done|]. split; [done|]. exists i. by split.
Qed.

End TraceMonad.

(** [bind_inv Hb as E1 E2]: from [Hb : bind m k = (tr, Ok b)], the
    successful run [E1] of [m] and the successful run [E2] of [k]. *)
Tactic Notation "bind_inv" hyp(Hb) "as" ident(E1) ident(E2) :=
  let tr1 := fresh "tr" in
  let tr2 := fresh "tr" in
  let a := fresh "a" in
  let Et := fresh "Et" in
  apply bind_ok_inv in Hb as (tr1 & a & tr2 & E1 & E2 & Et).

Section LoadProps.
Context {V : Type} `{Scalar V} `{ForcingUtils V}.
Implicit Types (s : Sample.t V) (p : WeatherParam) (ps : list WeatherParam).
Implicit Types (li lo : list (NamedTensor.t V)).

(** What one turn of the parameter loop does to the two lists and which
    fetch it makes. *)
Lemma load_param_ok s b li lo p tr li' lo' :
  Sample.load_param s b (li, lo) p = (tr, Ok (li', lo')) ->
  let std := standardize (Sample.settings s) && negb b in
  match kind p with
  | input =>
      tr = [Sample.mkFetch p (Sample.input_timestamps s) std (Sample.member s)]
      /\ li' = li /\ lo' = lo
  | output =>
      tr = [Sample.mkFetch p (Sample.output_timestamps s) std (Sample.member s)]
      /\ li' = li
      /\ exists x,
           Sample.get_param_tensor s p (Sample.stats s)
             (Sample.output_timestamps s) (Sample.settings s) std
             (Sample.member s) = Ok x
           /\ lo' = lo ++ [NamedTensor.mk x Sample.STATE_NAMES
                             [parameter_short_name p] "features"]
  | input_output =>
      tr = [Sample.mkFetch p (Sample.timestamps s) std (Sample.member s)]
      /\ exists x xi xo,
           Sample.get_param_tensor s p (Sample.stats s) (Sample.timestamps s)
             (Sample.settings s) std (Sample.member s) = Ok x
           /\ Tensor.to0 (num_input_steps (Sample.settings s)) x = Ok xi
           /\ Tensor.from0 (- num_pred_steps (Sample.settings s)) x = Ok xo
           /\ li' = li ++ [NamedTensor.mk xi Sample.STATE_NAMES
                             [parameter_short_name p] "features"]
           /\ lo' = lo ++ [NamedTensor.mk xo Sample.STATE_NAMES
                             [parameter_short_name p] "features"]
  end.
Proof.
  unfold Sample.load_param. intros Hl. cbv zeta.
  destruct (kind p).
  - bind_inv Hl as Ef K1. apply fetch_ok_inv in Ef as [-> _].
    bind_inv K1 as En K2. apply lift_ok_inv in En as [_ ->].
    apply ret_ok_inv in K2 as [[= <- <-] ->]. subst. done.
  - bind_inv Hl as Ef K1. apply fetch_ok_inv in Ef as [-> Hx].
    bind_inv K1 as En K2. apply lift_ok_inv in En as [Hn ->].
    apply NamedTensor_new_ok_inv in Hn as [-> _].
    apply ret_ok_inv in K2 as [[= <- <-] ->]. subst. eauto.
  - bind_inv Hl as Ef K1. apply fetch_ok_inv in Ef as [-> Hx].
    bind_inv K1 as Eo K2. apply lift_ok_inv in Eo as [Ho ->].
    bind_inv K2 as Eno K3. apply lift_ok_inv in Eno as [Hno ->].
    apply NamedTensor_new_ok_inv in Hno as [-> _].
    bind_inv K3 as Ei K4. apply lift_ok_inv in Ei as [Hi ->].
    bind_inv K4 as Eni K5. apply lift_ok_inv in Eni as [Hni ->].
    apply NamedTensor_new_ok_inv in Hni as [-> _].
    apply ret_ok_inv in K5 as [[= <- <-] ->]. subst. simpl.
    split; [done|]. eauto 10.
Qed.

(** The list of inputs grows by one single-feature tensor per
    [input_output] parameter, and by nothing else. *)
Lemma load_params_inputs s b ps li lo tr li' lo' :
  Sample.load_params s b (li, lo) ps = (tr, Ok (li', lo')) ->
  map NamedTensor.feature_names li'
  = map NamedTensor.feature_names li
    ++ map (fun p => [parameter_short_name p]) (filter is_input_output ps).
Proof.
  revert li lo tr. induction ps as [|p ps IH]; intros li lo tr; simpl.
  - intros Hr. apply ret_ok_inv in Hr as [[= <- <-] _].
    by rewrite app_nil_r.
  - intros Hb. bind_inv Hb as E E0. destruct a as [li1 lo1].
    apply load_param_ok in E. apply IH in E0. rewrite E0.
    rewrite filter_cons.
    destruct (decide (is_input_output p)) as [Hio|Hio];
      unfold is_input_output in Hio; rewrite bool_decide_spec in Hio.
    + rewrite Hio in E.
      destruct E as (_ & x & xi & xo & _ & _ & _ & -> & _).
      rewrite map_app. simpl. by rewrite <- app_assoc.
    + destruct (kind p); [| |done]; by destruct E as (_ & -> & _).
Qed.

Lemma generate_forcings_nonempty date terms (g : Grid V) l :
  generate_forcings date terms g = Ok l -> l <> [].
Proof.
  unfold generate_forcings.
  repeat (match goal with
          | |- context [rbind ?m _] => destruct m; simpl; [|discriminate]
          end).
  by intros [= <-].
Qed.

Lemma expand_forcings_no_input f (l : list (NamedTensor.t V)) :
  Sample.expand_forcings (f :: l) []
  = Raise (IndexError "list index out of range").
Proof. reflexivity. Qed.

Lemma load_ok_inputs_nonempty s b tr it :
  Sample.load s b = (tr, Ok it) ->
  filter is_input_output (Sample.params s) <> [].
Proof.
  unfold Sample.load. intros Hl. bind_inv Hl as Ep K1. destruct a as [li lo].
  apply load_params_inputs in Ep. simpl in Ep.
  bind_inv K1 as Eg K2. apply lift_ok_inv in Eg as [Hg _].
  apply generate_forcings_nonempty in Hg.
  bind_inv K2 as Ex K3. apply lift_ok_inv in Ex as [Hx _].
  intros Hnil. rewrite Hnil in Ep. simpl in Ep.
  apply map_eq_nil in Ep. subst li.
  destruct a; [done|]. by rewrite expand_forcings_no_input in Hx.
Qed.

End LoadProps.

Section LoadClaims.
Context {V : Type} `{Scalar V} `{ForcingUtils V}.
Implicit Types (s : Sample.t V) (p : WeatherParam).

Lemma concat_feature_names (l : list (NamedTensor.t V)) x :
  NamedTensor.concat l = Ok x ->
  NamedTensor.feature_names x = concat (map NamedTensor.feature_names l).
Proof.
  unfold NamedTensor.concat. destruct l as [|y [|z l]].
  - discriminate.
  - intros [= <-]. simpl. by rewrite app_nil_r.
  - destruct (negb _); [discriminate|].
    destruct (negb _); [discriminate|].
    destruct (Tensor.cat_last _) as [c|e]; simpl; [|discriminate].
    intros Hn. by apply NamedTensor_new_ok_inv in Hn as [-> _].
Qed.

Lemma concat_singletons {A B} (f : A -> B) (l : list A) :
  concat (map (fun x => [f x]) l) = map f l.
Proof. induction l as [|x l IH]; simpl; [done | by rewrite IH]. Qed.

(** The features of the inputs of a loaded item are the [input_output]
    parameters of the sample, in their order. *)
Lemma load_inputs_feature_names s b tr it :
  Sample.load s b = (tr, Ok it) ->
  NamedTensor.feature_names (Item.inputs it)
  = map parameter_short_name (filter is_input_output (Sample.params s)).
Proof.
  unfold Sample.load. intros Hl. bind_inv Hl as Ep K1. destruct a as [li lo].
  apply load_params_inputs in Ep. simpl in Ep.
  bind_inv K1 as Eg K2. bind_inv K2 as Ex K3.
  bind_inv K3 as Ei K4. apply lift_ok_inv in Ei as [Hi _].
  bind_inv K4 as Eo K5. bind_inv K5 as Ef K6.
  apply lift_ok_inv in K6 as [Hit _].
  apply concat_feature_names in Hi. rewrite Ep in Hi.
  unfold Item.new in Hit.
  destruct (negb _); [discriminate|]. destruct (negb _); [discriminate|].
  injection Hit as <-. simpl. rewrite Hi. apply concat_singletons.
Qed.

(** C10. When no parameter of the sample is of kind [input_output],
    [load] raises: if the parameter loop and the generation of the
    forcings get through, the list of inputs is empty and its first
    element is asked for. Conversely a [load] that returns an item had an
    [input_output] parameter. *)
Theorem load_requires_input_output s (no_standardize : bool) :
  (Forall (fun p => kind p <> input_output) (Sample.params s) ->
   (exists tr e, Sample.load s no_standardize = (tr, Raise e))
   /\ forall tr li lo l,
        Sample.load_params s no_standardize ([], []) (Sample.params s)
        = (tr, Ok (li, lo)) ->
        generate_forcings (datetime (Sample.timestamps s))
          (terms (Sample.output_timestamps s)) (Sample.grid s) = Ok l ->
        li = []
        /\ Sample.load s no_standardize
           = (tr, Raise (IndexError "list index out of range")))
  /\ (forall tr it,
        Sample.load s no_standardize = (tr, Ok it) ->
        exists p, p ∈ Sample.params s /\ kind p = input_output).
Proof.
  assert (Hnone : Forall (fun p => kind p <> input_output) (Sample.params s) ->
                  filter is_input_output (Sample.params s) = []).
  { intros Hall. induction Hall as [|q l Hq _ IH]; [done|].
    rewrite filter_cons, decide_False; [done|].
    unfold is_input_output. by rewrite bool_decide_spec. }
  split.
  - intros Hall. split.
    + destruct (Sample.load s no_standardize) as [tr [it|e]] eqn:El; [|eauto].
      apply load_ok_inputs_nonempty in El. by apply Hnone in Hall.
    + intros tr li lo l Hp Hg.
      assert (li = []) as ->.
      { apply load_params_inputs in Hp. rewrite (Hnone Hall) in Hp.
        simpl in Hp. by apply map_eq_nil in Hp. }
      split; [done|]. unfold Sample.load. rewrite Hp. simpl.
      rewrite Hg. simpl.
      pose proof (generate_forcings_nonempty _ _ _ _ Hg) as Hne.
      destruct l as [|f l]; [done|].
      rewrite expand_forcings_no_input. simpl. by rewrite app_nil_r.
  - intros tr it Hl. apply load_ok_inputs_nonempty in Hl.
    destruct (filter is_input_output (Sample.params s)) as [|q l] eqn:Ef;
      [done|].
    assert (Hq : q ∈ filter is_input_output (Sample.params s))
      by (rewrite Ef; left).
    apply list_elem_of_filter in Hq as [Hio Hin].
    exists q. split; [done|].
    unfold is_input_output in Hio. by rewrite bool_decide_spec in Hio.
Qed.

End LoadClaims.

Lemma load_requires_input_output_witness :
  exists s,
    Examples.sample_input_only = Ok s
    /\ Forall (fun p => kind p <> input_output) (Sample.params s)
    /\ (exists tr e, Sample.load s false = (tr, Raise e))
    /\ Sample.load s false
       = ([Sample.mkFetch Examples.orography (Sample.input_timestamps s)
             false 0],
          Raise (IndexError "list index out of range")).
Proof.
  eexists. split; [reflexivity|]. split; [|split].
  - repeat constructor. discriminate.
  - eapply (load_requires_input_output _ false).
    repeat constructor. discriminate.
  - eapply (load_requires_input_output _ false).
    + repeat constructor. discriminate.
    + vm_compute. reflexivity.
    + vm_compute. reflexivity.
Defined.

(** C1. A sample with an [input] parameter ([z_0_surface]) and an
    [input_output] parameter: [load] fetches the [input] parameter over
    the input timestamps, and returns an item none of whose tensors has
    it as a feature. *)
Theorem load_leaves_input_parameter_out :
  exists s tr it,
    Examples.sample_with_input = Ok s
    /\ Sample.load s false = (tr, Ok it)
    /\ tr = [Sample.mkFetch Examples.orography (Sample.input_timestamps s)
               false 0;
             Sample.mkFetch Examples.temperature (Sample.timestamps s)
               false 0]
    /\ NamedTensor.feature_names (Item.inputs it) = ["t2m_2_heightAboveGround"]
    /\ NamedTensor.feature_names (Item.outputs it) = ["t2m_2_heightAboveGround"]
    /\ NamedTensor.feature_names (Item.forcing it)
       = ["cos_hour"; "sin_hour"; "cos_doy"; "sin_doy"; "toa_radiation"]
    /\ Tensor.shape (NamedTensor.tensor (Item.inputs it)) = [2; 1; 1; 1]%nat.
Proof.
  eexists. eexists. eexists.
  split; [reflexivity|]. split; [vm_compute; reflexivity|].
  repeat split; reflexivity.
Qed.

(** C3. A sample with two input steps and no prediction step: the output
    slice [tensor[-0:]] of the [input_output] parameter is the whole
    fetched tensor, two timesteps, where the last [num_pred_steps]
    timesteps are none. *)
Theorem load_output_slice_without_pred_step :
  exists s tr it,
    Examples.sample_no_pred = Ok s
    /\ num_input_steps (Sample.settings s) = 2
    /\ num_pred_steps (Sample.settings s) = 0
    /\ Sample.load s false = (tr, Ok it)
    /\ tr = [Sample.mkFetch Examples.temperature (Sample.timestamps s)
               false 0]
    /\ Tensor.shape (NamedTensor.tensor (Item.inputs it)) = [2; 1; 1; 1]%nat
    /\ Tensor.shape (NamedTensor.tensor (Item.outputs it)) = [2; 1; 1; 1]%nat
    /\ NamedTensor.tensor (Item.outputs it) = NamedTensor.tensor (Item.inputs it).
Proof.
  eexists. eexists. eexists.
  split; [reflexivity|]. split; [reflexivity|]. split; [reflexivity|].
  split; [vm_compute; reflexivity|].
  repeat split; reflexivity.
Qed.

(** ** The cache of valid dates *)

Lemma strftime_no_newline (t : Z) : in_range t -> NL ∉ strftime t.
Proof.
  intros Hr.
  pose proof (civil_from_days_spec (t / DAY)) as Hc.
  unfold strftime, fields_of.
  destruct (civil_from_days (t / DAY)) as [[y m] d].
  destruct Hc as (_ & Hm & Hd & Hy).
  specialize (Hy (in_range_days t Hr)).
  cbv zeta. simpl year. simpl month. simpl day. simpl hour. simpl minute.
  assert (Hd31 : d <= 31).
  { unfold days_in_month in Hd.
    repeat match type of Hd with
           | context [if ?b then _ else _] => destruct b
           end; lia. }
  assert (Hh : 0 <= t mod DAY / HOUR <= 99 /\ 0 <= t mod DAY mod HOUR / 60 <= 99).
  { unfold DAY, HOUR.
    pose proof (Z.mod_pos_bound t 86400 ltac:(lia)).
    pose proof (Z.div_mod (t mod 86400) 3600 ltac:(lia)).
    pose proof (Z.mod_pos_bound (t mod 86400) 3600 ltac:(lia)).
    pose proof (Z.div_mod (t mod 86400 mod 3600) 60 ltac:(lia)).
    pose proof (Z.mod_pos_bound (t mod 86400 mod 3600) 60 ltac:(lia)).
    lia. }
  rewrite (year_str_pad4 y Hy).
  assert (Hpad : forall v, 0 <= v <= 99 -> NL ∉ pad2 v).
  { intros v Hv. destruct (pad2_digits v Hv) as [Hq Hr'].
    destruct (digit_char_spec _ Hq) as (_ & _ & Na).
    destruct (digit_char_spec _ Hr') as (_ & _ & Nb).
    unfold pad2. rewrite !not_elem_of_cons.
    repeat split; [congruence | congruence | apply not_elem_of_nil]. }
  assert (Hy2 : 0 <= y / 100 <= 99 /\ 0 <= y mod 100 <= 99).
  { pose proof (Z.div_mod y 100 ltac:(lia)).
    pose proof (Z.mod_pos_bound y 100 ltac:(lia)). lia. }
  unfold pad4.
  repeat match goal with
         | |- _ ∉ _ ++ _ => apply not_elem_of_app; split
         | |- _ ∉ _ :: _ => apply not_elem_of_cons; split
         | |- _ ∉ pad2 _ => apply Hpad; lia
         | |- _ ∉ [] => apply not_elem_of_nil
         | |- NL <> _ => discriminate
         end.
Qed.

Lemma readlines_go_line (cur l rest : text) :
  NL ∉ l ->
  readlines_go cur (l ++ NL :: rest)
  = (rev cur ++ l ++ [NL]) :: readlines_go [] rest.
Proof.
  revert cur. induction l as [|c l IH]; intros cur Hnl.
  - cbn [app readlines_go]. destruct (decide (NL = NL)); [|done].
    simpl. done.
  - apply not_elem_of_cons in Hnl as [Hc Hl].
    cbn [app readlines_go]. destruct (decide (c = NL)); [congruence|].
    rewrite IH by done. simpl. by rewrite <- app_assoc.
Qed.

(** Reading back lines that were written one by one. *)
Lemma readlines_written (ls : list text) :
  Forall (fun l => NL ∉ l) ls ->
  readlines (concat (map (fun l => l ++ [NL]) ls))
  = map (fun l => l ++ [NL]) ls.
Proof.
  unfold readlines. induction 1 as [|l ls Hl _ IH]; simpl; [done|].
  rewrite <- app_assoc. simpl.
  rewrite readlines_go_line by done. simpl. by rewrite IH.
Qed.

Lemma chop_line (l : text) : chop (l ++ [NL]) = l.
Proof.
  unfold chop, slice_to, slice_bound. simpl.
  rewrite length_app. simpl.
  replace (Z.to_nat (Z.max 0 (Z.of_nat (length l + 1) + -1))) with (length l)
    by lia.
  by rewrite take_app_length.
Qed.

Lemma chop_lines (ls : list text) :
  map chop (map (fun l => l ++ [NL]) ls) = ls.
Proof.
  induction ls as [|l ls IH]; simpl; [done|]. by rewrite chop_line, IH.
Qed.

(** A comprehension over a list visited in another order gives the same
    results in that order. *)
Lemma rmapM_perm {A B} (f : A -> result B) (l l' : list A) (r : list B) :
  l ≡ₚ l' -> rmapM f l = Ok r -> exists r', rmapM f l' = Ok r' /\ r ≡ₚ r'.
Proof.
  intros Hp. revert r. induction Hp as [|x l l' _ IH|x y l|l l' l'' _ IH1 _ IH2];
    intros r; simpl.
  - intros [= <-]. eauto.
  - destruct (f x) as [b|e]; simpl; [|discriminate].
    destruct (rmapM f l) as [bs|e]; simpl; [|discriminate].
    intros [= <-]. destruct (IH bs eq_refl) as (r' & -> & Hr').
    simpl. eexists. split; [done|]. by constructor.
  - destruct (f y) as [b|e]; simpl; [|discriminate].
    destruct (f x) as [a|e]; simpl; [|discriminate].
    destruct (rmapM f l) as [bs|e]; simpl; [|discriminate].
    intros [= <-]. eexists. split; [done|]. constructor.
  - intros Hr. destruct (IH1 r Hr) as (r1 & H1 & P1).
    destruct (IH2 r1 H1) as (r2 & H2 & P2).
    exists r2. split; [done|]. by etrans.
Qed.

Lemma rmapM_map_ok {A B} (f : B -> result A) (h : A -> B) (l : list A) :
  (forall x, x ∈ l -> f (h x) = Ok x) -> rmapM f (map h l) = Ok l.
Proof.
  induction l as [|x l IH]; intros Hf; simpl; [done|].
  rewrite Hf by left. simpl. rewrite IH; [done|].
  intros y Hy. apply Hf. by right.
Qed.

Lemma NoDup_List_filter {A} (f : A -> bool) (l : list A) :
  NoDup l -> NoDup (List.filter f l).
Proof.
  induction 1 as [|x l Hx _ IH]; simpl; [constructor|].
  destruct (f x); [|done]. constructor; [|done].
  intros Hin. apply Hx.
  apply list_elem_of_In, filter_In in Hin as [Hin _].
  by apply list_elem_of_In.
Qed.

Lemma date_list_NoDup (p : Period.t) : NoDup (Period.date_list p).
Proof.
  unfold Period.date_list.
  assert (Hs : StronglySorted Z.lt (arange_values (Period.start p)
                                      (Period.end_ p + DAY) DAY))
    by (by apply arange_values_sorted).
  induction Hs as [|x l _ IH Hx]; constructor; [|done].
  intros Hin. rewrite Forall_forall in Hx. specialize (Hx x Hin). lia.
Qed.

Lemma date_list_printable (p : Period.t) (d : Z) :
  Period.wf p -> d ∈ Period.date_list p -> in_range d /\ d mod 60 = 0.
Proof.
  intros (Hlo & Hhi & Hh) Hd. split.
  - apply date_list_below in Hd. unfold in_range. lia.
  - apply arange_values_elem in Hd as (i & -> & _).
    unfold DAY, HOUR in *.
    replace (Period.start p + Z.of_nat i * 86400)
      with (Period.start p + (Z.of_nat i * 1440) * 60) by lia.
    rewrite Z.mod_add by lia.
    rewrite <- (Z.mod_mod_divide _ 3600) by (exists 60; lia).
    by rewrite Hh.
Qed.

Section CacheProps.
Context {V : Type} `{Scalar V} `{ForcingUtils V}.
Variable timestamps_of : Z -> Timestamps.
Variable set_order : gset Z -> list Z.
Hypothesis set_order_lists : forall s, set_order s ≡ₚ elements s.
Implicit Types (ds : Dataset.t V) (st : option (Stats V)) (d : Z).

Local Abbreviation trial_sample := (Dataset.trial_sample timestamps_of).
Local Abbreviation date_valid := (Dataset.date_valid timestamps_of).
Local Abbreviation sample_list := (Dataset.sample_list timestamps_of set_order).
Local Abbreviation write_list_valid_samples :=
  (Dataset.write_list_valid_samples timestamps_of).

Lemma is_valid_go_ext (s1 s2 : Sample.t V) (ps : list WeatherParam) :
  Sample.exists_ s1 = Sample.exists_ s2 ->
  Sample.settings s1 = Sample.settings s2 ->
  Sample.timestamps s1 = Sample.timestamps s2 ->
  Sample.is_valid_go s1 ps = Sample.is_valid_go s2 ps.
Proof.
  intros He Hs Ht. induction ps as [|p ps IH]; simpl; [done|].
  by rewrite He, Hs, Ht, IH.
Qed.

(** Whether a trial sample can be built, and whether it is valid, does
    not depend on the statistics it is given. *)
Lemma trial_sample_stats ds st d :
  match trial_sample ds None d with
  | Ok _ => exists s, trial_sample ds st d = Ok s
                      /\ Sample.is_valid s = date_valid ds d
  | Raise e => trial_sample ds st d = Raise e
  end.
Proof.
  unfold Dataset.date_valid, Dataset.trial_sample, Sample.new.
  destruct (negb _); [done|].
  eexists. split; [done|]. unfold Sample.is_valid. simpl.
  by apply is_valid_go_ext.
Qed.

Lemma write_go_spec ds (dates : list Z) (written content : text) :
  Dataset.write_go timestamps_of ds dates written = (content, Ok ()) ->
  content = written
            ++ concat (map (fun d => strftime d ++ [NL])
                         (List.filter (date_valid ds) dates))
  /\ Forall (fun d => is_ok (trial_sample ds None d) = true) dates.
Proof.
  revert written. induction dates as [|d dates IH]; intros written; simpl.
  - intros Heq. injection Heq as <-.
    split; [symmetry; apply app_nil_r | constructor].
  - pose proof (trial_sample_stats ds (Some (Dataset.stats ds)) d) as Hst.
    destruct (trial_sample ds None d) as [s0|e] eqn:E0.
    2: { rewrite Hst. discriminate. }
    destruct Hst as (s & -> & Hv). rewrite Hv.
    destruct (date_valid ds d); intros Hw; apply IH in Hw as [-> Hall];
      (split; [|constructor; [by rewrite E0 | done]]).
    + simpl. by rewrite <- !app_assoc.
    + done.
Qed.

Lemma fresh_go_spec ds st (dates : list Z) :
  Forall (fun d => is_ok (trial_sample ds None d) = true) dates ->
  exists samples,
    Dataset.fresh_go timestamps_of ds st dates = Ok samples
    /\ rmapM (trial_sample ds st) (List.filter (date_valid ds) dates)
       = Ok samples.
Proof.
  induction 1 as [|d dates Hd _ (samples & Hf & Hm)]; simpl; [eauto|].
  pose proof (trial_sample_stats ds st d) as Hst.
  destruct (trial_sample ds None d) as [s0|e]; [|discriminate].
  destruct Hst as (s & Es & Hv). rewrite Es, Hf. simpl. rewrite Hv.
  destruct (date_valid ds d); simpl; [|eauto].
  rewrite Es, Hm. simpl. eauto.
Qed.


End CacheProps.

Lemma descending_lists (s : gset Z) : Examples.descending s ≡ₚ elements s.
Proof.
  unfold Examples.descending, Examples.ascending.
  by rewrite reverse_Permutation, merge_sort_Permutation.
Qed.

Lemma period2_wf : Period.wf Examples.period2.
Proof.
  split; [|split]; [vm_compute; discriminate | vm_compute; discriminate
                   | reflexivity].
Qed.



(* ===================================================================== *)
(** * Further properties *)
(* ===================================================================== *)

(** ** The split of the timestamps *)

Lemma slice_to_from {A} (k : Z) (l : list A) :
  slice_to k l ++ slice_from k l = l.
Proof. unfold slice_to, slice_from. apply take_drop. Qed.

Section SampleSplit.
Context {V : Type} `{Scalar V}.
Implicit Types (ts : Timestamps) (st : SamplePreprocSettings).

(** X1. A sample that was built splits its timestamps in two without
    loss: the input terms followed by the output terms are the terms,
    and likewise for the validity times, whatever the step counts. When
    both step counts are non-negative there are [num_input_steps] input
    validity times and [num_pred_steps] output validity times. *)
Theorem Sample_new_splits_timestamps ts st ps (stats : option (Stats V))
    g ex gp m s :
  Sample.new ts st ps stats g ex gp m = Ok s ->
  terms (Sample.input_timestamps s) ++ terms (Sample.output_timestamps s)
  = terms ts
  /\ validity_times (Sample.input_timestamps s)
     ++ validity_times (Sample.output_timestamps s) = validity_times ts
  /\ datetime (Sample.input_timestamps s) = datetime ts
  /\ datetime (Sample.output_timestamps s) = datetime ts
  /\ (0 <= num_input_steps st -> 0 <= num_pred_steps st ->
      Z.of_nat (length (validity_times (Sample.input_timestamps s)))
      = num_input_steps st
      /\ Z.of_nat (length (validity_times (Sample.output_timestamps s)))
         = num_pred_steps st).
Proof.
  intros Hs.
  pose proof (proj1 (Sample_new_ok_iff ts st ps stats g ex gp m)) as Hlen.
  rewrite Hs in Hlen. specialize (Hlen eq_refl).
  unfold Sample.new in Hs. destruct (negb _); [discriminate|].
  injection Hs as <-. simpl.
  rewrite !slice_to_from. repeat split; try done.
  - destruct (slice_to_first (num_input_steps st) (validity_times ts))
      as [_ El]; lia.
  - pose proof (slice_to_from (num_input_steps st) (validity_times ts)) as E.
    apply (f_equal length) in E. rewrite length_app in E.
    destruct (slice_to_first (num_input_steps st) (validity_times ts))
      as [_ El]; lia.
Qed.

(** X2. [is_valid] holds exactly when every parameter of the sample
    exists for the timestamps of the sample (in particular for a sample
    without parameters); the statistics, the grid and the fetch function
    play no part. *)
Theorem is_valid_iff_all_exist (s : Sample.t V) :
  Sample.is_valid s = true
  <-> forall param, param ∈ Sample.params s ->
        Sample.exists_ s (dataset_name (Sample.settings s)) param
          (Sample.timestamps s) (file_format (Sample.settings s)) = true.
Proof.
  unfold Sample.is_valid. induction (Sample.params s) as [|p ps IH]; simpl.
  - split; [|done]. intros _ q Hq. by apply elem_of_nil in Hq.
  - destruct (Sample.exists_ s _ p _ _) eqn:Ep; simpl.
    + rewrite IH. split.
      * intros Hall q Hq. apply elem_of_cons in Hq as [->|Hq]; [done|].
        by apply Hall.
      * intros Hall q Hq. apply Hall. by right.
    + split; [discriminate|]. intros Hall.
      rewrite <- Ep. apply Hall. left.
Qed.

End SampleSplit.

(** ** What [load] puts in an item *)

Section LoadContents.
Context {V : Type} `{Scalar V} `{ForcingUtils V}.
Implicit Types (s : Sample.t V) (p : WeatherParam) (ps : list WeatherParam).
Implicit Types (li lo : list (NamedTensor.t V)).

Lemma load_params_outputs s b ps li lo tr li' lo' :
  Sample.load_params s b (li, lo) ps = (tr, Ok (li', lo')) ->
  map NamedTensor.feature_names lo'
  = map NamedTensor.feature_names lo
    ++ map (fun p => [parameter_short_name p]) (filter is_predicted ps).
Proof.
  revert li lo tr. induction ps as [|p ps IH]; intros li lo tr; simpl.
  - intros Hr. apply ret_ok_inv in Hr as [[= <- <-] _].
    by rewrite app_nil_r.
  - intros Hb. bind_inv Hb as E E0. destruct a as [li1 lo1].
    apply load_param_ok in E. apply IH in E0. rewrite E0.
    rewrite filter_cons.
    destruct (decide (is_predicted p)) as [Hp|Hp];
      unfold is_predicted in Hp; rewrite bool_decide_spec in Hp.
    + destruct (kind p); [done| |].
      * destruct E as (_ & _ & x & _ & ->).
        rewrite map_app. simpl. by rewrite <- app_assoc.
      * destruct E as (_ & x & xi & xo & _ & _ & _ & _ & ->).
        rewrite map_app. simpl. by rewrite <- app_assoc.
    + destruct (kind p); [|exfalso; by apply Hp..].
      by destruct E as (_ & _ & ->).
Qed.

Lemma load_params_state_like s b ps li lo tr li' lo' :
  Sample.load_params s b (li, lo) ps = (tr, Ok (li', lo')) ->
  Forall Sample.state_like li -> Forall Sample.state_like lo ->
  Forall Sample.state_like li' /\ Forall Sample.state_like lo'.
Proof.
  revert li lo tr. induction ps as [|p ps IH]; intros li lo tr; simpl.
  - intros Hr. by apply ret_ok_inv in Hr as [[= <- <-] _].
  - intros Hb Hli Hlo. bind_inv Hb as E E0. destruct a as [li1 lo1].
    apply load_param_ok in E. eapply IH; [exact E0| |].
    + destruct (kind p).
      * by destruct E as (_ & -> & _).
      * by destruct E as (_ & -> & _).
      * destruct E as (_ & x & xi & xo & _ & _ & _ & -> & _).
        apply Forall_app. split; [done|]. by repeat constructor.
    + destruct (kind p).
      * by destruct E as (_ & _ & ->).
      * destruct E as (_ & _ & x & _ & ->).
        apply Forall_app. split; [done|]. by repeat constructor.
      * destruct E as (_ & x & xi & xo & _ & _ & _ & _ & ->).
        apply Forall_app. split; [done|]. by repeat constructor.
Qed.

(** The concatenation has the axis names of the first tensor. *)
Lemma concat_names (l : list (NamedTensor.t V)) x :
  NamedTensor.concat l = Ok x ->
  exists y l', l = y :: l' /\ NamedTensor.names x = NamedTensor.names y.
Proof.
  unfold NamedTensor.concat. destruct l as [|y [|z l]].
  - discriminate.
  - intros [= <-]. eauto.
  - destruct (negb _); [discriminate|].
    destruct (negb _); [discriminate|].
    destruct (Tensor.cat_last _) as [c|e]; simpl; [|discriminate].
    intros Hn. apply NamedTensor_new_ok_inv in Hn as [-> _]. eauto.
Qed.

Lemma filter_predicted_length ps :
  length (filter is_predicted ps)
  = (length (filter is_input_output ps)
     + length (filter (fun p => kind p = output) ps))%nat.
Proof.
  induction ps as [|p ps IH]; [done|].
  rewrite !filter_cons.
  destruct (decide (is_predicted p)) as [H1|H1];
    destruct (decide (is_input_output p)) as [H2|H2];
    destruct (decide (kind p = output)) as [H3|H3];
    unfold is_predicted, is_input_output in H1, H2;
    rewrite bool_decide_spec in H1; rewrite bool_decide_spec in H2;
    simpl; rewrite ?IH; try lia; exfalso;
    revert H1 H2 H3; destruct (kind p); naive_solver.
Qed.

Lemma Item_new_ok_inv (i f o : NamedTensor.t V) it :
  Item.new i f o = Ok it ->
  it = Item.mk i f o
  /\ NamedTensor.names i = NamedTensor.names o
  /\ NamedTensor.feature_names i = NamedTensor.feature_names o.
Proof.
  unfold Item.new.
  case_bool_decide; simpl; [|discriminate].
  case_bool_decide; simpl; [|discriminate].
  by intros [= <-].
Qed.

(** What a successful [load] went through. *)
Lemma load_ok_inv s b tr it :
  Sample.load s b = (tr, Ok it) ->
  exists li lo lf lf' inputs forcing outputs,
    Sample.load_params s b ([], []) (Sample.params s) = (tr, Ok (li, lo))
    /\ generate_forcings (datetime (Sample.timestamps s))
         (terms (Sample.output_timestamps s)) (Sample.grid s) = Ok lf
    /\ Sample.expand_forcings lf li = Ok lf'
    /\ NamedTensor.concat li = Ok inputs
    /\ NamedTensor.concat lo = Ok outputs
    /\ NamedTensor.concat lf' = Ok forcing
    /\ Item.new inputs forcing outputs = Ok it.
Proof.
  unfold Sample.load. intros Hl. bind_inv Hl as Ep K1. destruct a as [li lo].
  bind_inv K1 as Eg K2. apply lift_ok_inv in Eg as [Hg ->].
  bind_inv K2 as Ex K3. apply lift_ok_inv in Ex as [Hx ->].
  bind_inv K3 as Ei K4. apply lift_ok_inv in Ei as [Hi ->].
  bind_inv K4 as Eo K5. apply lift_ok_inv in Eo as [Ho ->].
  bind_inv K5 as Ef K6. apply lift_ok_inv in Ef as [Hf ->].
  apply lift_ok_inv in K6 as [Hit ->].
  subst. rewrite !app_nil_r in *.
  exists li, lo. eauto 12.
Qed.

(** X3. The features of the outputs of a loaded item are the parameters
    of kind [output] or [input_output], in their order; as an item needs
    the inputs and the outputs to have the same features, [load] raises
    for every sample that has a parameter of kind [output]. *)
Theorem load_outputs_and_output_parameters s (no_standardize : bool) :
  (forall tr it,
     Sample.load s no_standardize = (tr, Ok it) ->
     NamedTensor.feature_names (Item.outputs it)
     = map parameter_short_name (filter is_predicted (Sample.params s))
     /\ forall p, p ∈ Sample.params s -> kind p <> output)
  /\ ((exists p, p ∈ Sample.params s /\ kind p = output) ->
      exists tr e, Sample.load s no_standardize = (tr, Raise e)).
Proof.
  assert (Hok : forall tr it,
     Sample.load s no_standardize = (tr, Ok it) ->
     NamedTensor.feature_names (Item.outputs it)
     = map parameter_short_name (filter is_predicted (Sample.params s))
     /\ forall p, p ∈ Sample.params s -> kind p <> output).
  { intros tr it Hl.
    pose proof (load_inputs_feature_names s _ tr it Hl) as Hin.
    destruct (load_ok_inv s _ tr it Hl)
      as (li & lo & lf & lf' & i & f & o & Hp & _ & _ & _ & Ho & _ & Hit).
    apply load_params_outputs in Hp. simpl in Hp.
    apply concat_feature_names in Ho. rewrite Hp, concat_singletons in Ho.
    destruct (Item_new_ok_inv i f o it Hit) as (-> & _ & Hsame).
    simpl in *. split; [done|].
    rewrite Hin, Ho in Hsame. apply (f_equal length) in Hsame.
    rewrite !length_map, filter_predicted_length in Hsame.
    intros p Hp' Hk.
    assert (Hpf : p ∈ filter (fun p => kind p = output) (Sample.params s))
      by (by apply list_elem_of_filter).
    destruct (filter (fun p => kind p = output) (Sample.params s));
      [by apply elem_of_nil in Hpf | simpl in Hsame; lia]. }
  split; [exact Hok|].
  intros (p & Hp & Hk).
  destruct (Sample.load s no_standardize) as [tr [it|e]] eqn:El; [|eauto].
  exfalso. by apply (proj2 (Hok tr it eq_refl) p Hp).
Qed.

End LoadContents.

Section LoadForcing.
Context {V : Type} `{Scalar V} `{ForcingUtils V}.
Implicit Types (s : Sample.t V) (x other : NamedTensor.t V).

Lemma generate_forcings_ok_inv date terms (g : Grid V) l :
  generate_forcings date terms g = Ok l ->
  exists a b c,
    l = [a; b; c]
    /\ NamedTensor.names a = DATE_NAMES /\ NamedTensor.names b = DATE_NAMES
    /\ NamedTensor.names c = Sample.STATE_NAMES
    /\ NamedTensor.feature_names a = ["cos_hour"; "sin_hour"]
    /\ NamedTensor.feature_names b = ["cos_doy"; "sin_doy"]
    /\ NamedTensor.feature_names c = ["toa_radiation"].
Proof.
  unfold generate_forcings.
  destruct (Tensor.to1 _ _) as [hours|e]; simpl; [|discriminate].
  destruct (NamedTensor.new hours _ _ _) as [a|e] eqn:Ea; simpl;
    [|discriminate].
  destruct (Tensor.from1 _ _) as [days|e]; simpl; [|discriminate].
  destruct (NamedTensor.new days _ _ _) as [b|e] eqn:Eb; simpl;
    [|discriminate].
  destruct (NamedTensor.new (Tensor.type _ _) _ _ _) as [c|e] eqn:Ec; simpl;
    [|discriminate].
  intros [= <-].
  apply NamedTensor_new_ok_inv in Ea as [-> _].
  apply NamedTensor_new_ok_inv in Eb as [-> _].
  apply NamedTensor_new_ok_inv in Ec as [-> _].
  do 3 eexists. repeat split.
Qed.

Lemma unsqueeze_all_features (todo : list (string * nat)) x x' :
  NamedTensor.unsqueeze_all todo x = Ok x' ->
  NamedTensor.feature_names x' = NamedTensor.feature_names x.
Proof.
  revert x. induction todo as [|[n idx] todo IH]; intros x; simpl.
  - by intros [= <-].
  - destruct (Tensor.unsqueeze idx _) as [tx|e]; simpl; [|discriminate].
    intros Hx. by apply IH in Hx.
Qed.

(** Expanding a tensor on the spatial axes of another keeps its
    features; a tensor on the axes (timestep, features), or already on
    the four axes of a state, ends on the axes of the state. *)
Lemma unsqueeze_and_expand_from_ok x other x' :
  NamedTensor.unsqueeze_and_expand_from x other = Ok x' ->
  NamedTensor.feature_names x' = NamedTensor.feature_names x
  /\ (NamedTensor.names other = Sample.STATE_NAMES ->
      NamedTensor.names x = DATE_NAMES
      \/ NamedTensor.names x = Sample.STATE_NAMES ->
      NamedTensor.names x' = Sample.STATE_NAMES).
Proof.
  unfold NamedTensor.unsqueeze_and_expand_from. intros Hx. split.
  - destruct (NamedTensor.missing_names x other) as [|m ms]; cbv zeta in Hx.
    + by injection Hx as <-.
    + destruct (NamedTensor.unsqueeze_all (m :: ms) x) as [x1|e] eqn:E1;
        cbn [rbind] in Hx; [|discriminate Hx].
      destruct (rmapM _ _) as [ex|e]; cbn [rbind] in Hx; [|discriminate Hx].
      destruct (Tensor.expand ex _) as [tx|e]; cbn [rbind] in Hx;
        [|discriminate Hx].
      injection Hx as <-. simpl. by apply unsqueeze_all_features in E1.
  - intros Ho [Hn|Hn].
    + assert (Em : NamedTensor.missing_names x other
                   = [("lat", 1%nat); ("lon", 2%nat)]).
      { unfold NamedTensor.missing_names. rewrite Hn, Ho.
        vm_compute. reflexivity. }
      rewrite Em in Hx. simpl in Hx.
      destruct (Tensor.unsqueeze 1 _) as [t1|e]; simpl in Hx; [|discriminate].
      destruct (Tensor.unsqueeze 2 _) as [t2|e]; simpl in Hx; [|discriminate].
      destruct (rmapM _ _) as [ex|e]; simpl in Hx; [|discriminate].
      destruct (Tensor.expand ex _) as [tx|e]; simpl in Hx; [|discriminate].
      injection Hx as <-. simpl. by rewrite Hn.
    + assert (Em : NamedTensor.missing_names x other = []).
      { unfold NamedTensor.missing_names. rewrite Hn, Ho.
        vm_compute. reflexivity. }
      rewrite Em in Hx. by injection Hx as <-.
Qed.

(** The forcing of a loaded item: the three generated tensors, expanded
    on the axes of the first input and concatenated. *)
Lemma load_forcing_ok s b tr it :
  Sample.load s b = (tr, Ok it) ->
  NamedTensor.names (Item.forcing it) = Sample.STATE_NAMES
  /\ NamedTensor.feature_names (Item.forcing it) = FORCING_NAMES.
Proof.
  intros Hl.
  destruct (load_ok_inv s _ tr it Hl)
    as (li & lo & lf & lf' & i & f & o & Hp & Hg & Hx & Hi & Ho & Hf & Hit).
  apply load_params_state_like in Hp as [Hli _]; [|constructor..].
  destruct (Item_new_ok_inv i f o it Hit) as (-> & _ & _).
  destruct (concat_names li i Hi) as (i0 & li' & -> & Eni).
  apply Forall_cons in Hli as [[Hi0 _] _].
  destruct (generate_forcings_ok_inv _ _ _ _ Hg)
    as (a & b' & c & -> & Na & Nb & Nc & Fa & Fb & Fc).
  unfold Sample.expand_forcings in Hx. simpl in Hx.
  destruct (NamedTensor.unsqueeze_and_expand_from a i0) as [a'|e] eqn:Ea;
    simpl in Hx; [|discriminate].
  destruct (NamedTensor.unsqueeze_and_expand_from b' i0) as [b''|e] eqn:Eb;
    simpl in Hx; [|discriminate].
  destruct (NamedTensor.unsqueeze_and_expand_from c i0) as [c'|e] eqn:Ec;
    simpl in Hx; [|discriminate].
  injection Hx as <-.
  apply unsqueeze_and_expand_from_ok in Ea as [Fa' Na'].
  apply unsqueeze_and_expand_from_ok in Eb as [Fb' Nb'].
  apply unsqueeze_and_expand_from_ok in Ec as [Fc' Nc'].
  destruct (concat_names _ f Hf) as (f0 & lf0 & [= <- <-] & Enf).
  apply concat_feature_names in Hf. simpl in Hf. simpl. split.
  - rewrite Enf. apply Na'; [done | by left].
  - rewrite Hf, Fa', Fb', Fc', Fa, Fb, Fc. reflexivity.
Qed.

(** X4. Every tensor of a loaded item is on the axes (timestep, lat,
    lon, features), and the features of its forcing are the five
    generated ones, cos_hour, sin_hour, cos_doy, sin_doy and
    toa_radiation, whatever the parameters of the sample. *)
Theorem load_axes_and_forcing_features s (no_standardize : bool) tr it :
  Sample.load s no_standardize = (tr, Ok it) ->
  (forall f, NamedTensor.names (Item.getattr it f) = Sample.STATE_NAMES)
  /\ NamedTensor.feature_names (Item.forcing it) = FORCING_NAMES.
Proof.
  intros Hl. destruct (load_forcing_ok s _ tr it Hl) as [Nf Ff].
  split; [|exact Ff].
  destruct (load_ok_inv s _ tr it Hl)
    as (li & lo & lf & lf' & i & f & o & Hp & _ & _ & Hi & Ho & _ & Hit).
  apply load_params_state_like in Hp as [Hli Hlo]; [|constructor..].
  destruct (Item_new_ok_inv i f o it Hit) as (-> & _ & _).
  destruct (concat_names li i Hi) as (i0 & li' & -> & Eni).
  destruct (concat_names lo o Ho) as (o0 & lo' & -> & Eno).
  apply Forall_cons in Hli as [[Hi0 _] _].
  apply Forall_cons in Hlo as [[Ho0 _] _].
  intros [ | | ]; simpl in *; [by rewrite Eni | done | by rewrite Eno].
Qed.

End LoadForcing.

(** ** The fetches of [load] *)

Section LoadTrace.
Context {V : Type} `{Scalar V} `{ForcingUtils V}.
Implicit Types (s : Sample.t V) (p : WeatherParam) (ps : list WeatherParam).

Lemma lift_trace {A B} (r : result A) (k : A -> Sample.M B) :
  (forall a, fst (k a) = []) -> fst (Sample.bind (Sample.lift r) k) = [].
Proof.
  intros Hk. unfold Sample.bind, Sample.lift. destruct r as [a|e]; [|done].
  specialize (Hk a). by destruct (k a).
Qed.

Lemma fetch_trace {B} s p ts std (k : Tensor.t V -> Sample.M B) :
  (forall a, fst (k a) = []) ->
  fst (Sample.bind (Sample.fetch s p ts std) k)
  = [Sample.mkFetch p ts std (Sample.member s)].
Proof.
  intros Hk. unfold Sample.bind, Sample.fetch.
  destruct (Sample.get_param_tensor s _ _ _ _ _ _) as [a|e]; [|done].
  specialize (Hk a). destruct (k a) as [tr r]. simpl in *. by rewrite Hk.
Qed.

Lemma bind_silent {A B} (m : Sample.M A) (k : A -> Sample.M B) :
  (forall a, fst (k a) = []) ->
  fst (Sample.bind m k) = fst m
  /\ forall b, snd (Sample.bind m k) = Ok b -> exists a, snd m = Ok a.
Proof.
  intros Hk. unfold Sample.bind. destruct m as [tr [a|e]]; simpl.
  - specialize (Hk a). destruct (k a) as [tr' r]. simpl in *. subst tr'.
    rewrite app_nil_r. eauto.
  - split; [done | discriminate].
Qed.

(** A turn of the parameter loop makes one fetch, whether it ends well
    or not. *)
Lemma load_param_trace s b acc p :
  fst (Sample.load_param s b acc p) = [Sample.fetch_of s b p].
Proof.
  unfold Sample.load_param, Sample.fetch_of. destruct acc as [li lo].
  destruct (kind p); apply fetch_trace; intros;
    repeat (apply lift_trace; intros); reflexivity.
Qed.

Lemma load_params_trace s b ps acc :
  fst (Sample.load_params s b acc ps) `prefix_of` map (Sample.fetch_of s b) ps
  /\ (forall acc', snd (Sample.load_params s b acc ps) = Ok acc' ->
      fst (Sample.load_params s b acc ps) = map (Sample.fetch_of s b) ps)
  /\ (ps <> [] -> fst (Sample.load_params s b acc ps) <> []).
Proof.
  revert acc. induction ps as [|p ps IH]; intros acc; simpl.
  - repeat split; done.
  - pose proof (load_param_trace s b acc p) as Hp.
    unfold Sample.bind.
    destruct (Sample.load_param s b acc p) as [tr [acc1|e]]; simpl in Hp;
      subst tr.
    + destruct (IH acc1) as (Hpre & Hok & _).
      destruct (Sample.load_params s b acc1 ps) as [tr' r]; simpl in *.
      repeat split; [by apply prefix_cons | | done].
      intros acc' ->. f_equal. by eapply Hok.
    + simpl. repeat split; [|done..].
      by exists (map (Sample.fetch_of s b) ps).
Qed.

(** X5. [load] fetches the parameters one by one in their order, each
    once: the input parameters over the input timestamps, the output
    parameters over the output timestamps, the others over all the
    timestamps, all with the member of the sample and standardized when
    the settings ask for it and the caller does not forbid it. A load
    that fails has made the first of these fetches at least, one that
    succeeds has made them all; nothing else is fetched. *)
Theorem load_fetches_each_parameter_once s (no_standardize : bool) :
  fst (Sample.load s no_standardize)
    `prefix_of` map (Sample.fetch_of s no_standardize) (Sample.params s)
  /\ (forall it, snd (Sample.load s no_standardize) = Ok it ->
      fst (Sample.load s no_standardize)
      = map (Sample.fetch_of s no_standardize) (Sample.params s))
  /\ (Sample.params s <> [] -> fst (Sample.load s no_standardize) <> []).
Proof.
  destruct (load_params_trace s no_standardize (Sample.params s) ([], []))
    as (Hpre & Hok & Hne).
  destruct (bind_silent
              (Sample.load_params s no_standardize ([], []) (Sample.params s))
              (fun acc : list (NamedTensor.t V) * list (NamedTensor.t V) =>
                 let '(linputs, loutputs) := acc in
                 Sample.bind (Sample.lift (generate_forcings
                      (datetime (Sample.timestamps s))
                      (terms (Sample.output_timestamps s)) (Sample.grid s)))
                   (fun lforcings =>
                 Sample.bind
                   (Sample.lift (Sample.expand_forcings lforcings linputs))
                   (fun lforcings' =>
                 Sample.bind (Sample.lift (NamedTensor.concat linputs))
                   (fun inputs =>
                 Sample.bind (Sample.lift (NamedTensor.concat loutputs))
                   (fun outputs =>
                 Sample.bind (Sample.lift (NamedTensor.concat lforcings'))
                   (fun forcing =>
                 Sample.lift (Item.new inputs forcing outputs))))))))
    as [Etr Eok].
  { intros [li lo]. repeat (apply lift_trace; intros). reflexivity. }
  fold (Sample.load s no_standardize) in Etr, Eok. rewrite Etr.
  repeat split; [done | | done].
  intros it Hit. destruct (Eok it Hit) as [acc Hacc]. by eapply Hok.
Qed.

End LoadTrace.

(** ** The shapes of a loaded item *)

Section LoadShapes.
Context {V : Type} `{Scalar V} `{ForcingUtils V}.
Implicit Types (s : Sample.t V) (p : WeatherParam) (ps : list WeatherParam).
Implicit Types (li lo : list (NamedTensor.t V)) (lead : list nat).

Lemma sum_last_ones lead (l : list (Tensor.t V)) :
  Forall (fun y => Tensor.shape y = lead ++ [1%nat]) l ->
  fold_right Nat.add 0%nat (map (fun y => List.last (Tensor.shape y) 0%nat) l)
  = length l.
Proof.
  induction 1 as [|y l Hy _ IH]; simpl; [done|].
  by rewrite Hy, last_last, IH.
Qed.

Lemma cat_last_shape lead (l : list (Tensor.t V)) c :
  Forall (fun y => Tensor.shape y = lead ++ [1%nat]) l ->
  Tensor.cat_last l = Ok c ->
  Tensor.shape c = lead ++ [length l].
Proof.
  intros Hall. unfold Tensor.cat_last. destruct l as [|x l']; [discriminate|].
  pose proof (sum_last_ones lead _ Hall) as Hsum.
  apply Forall_cons in Hall as [Hx _].
  rewrite Hx, rev_app_distr, removelast_last. simpl rev. cbv iota.
  destruct (forallb _ l'); [|discriminate].
  intros [= <-]. simpl in Hsum |- *. by rewrite Hsum.
Qed.

(** Concatenating single-feature tensors of one shape gives as many
    features as there are tensors. *)
Lemma concat_shape lead (l : list (NamedTensor.t V)) x :
  Forall (fun y => Tensor.shape (NamedTensor.tensor y) = lead ++ [1%nat]) l ->
  NamedTensor.concat l = Ok x ->
  Tensor.shape (NamedTensor.tensor x) = lead ++ [length l].
Proof.
  intros Hall. unfold NamedTensor.concat. destruct l as [|y [|z l]].
  - discriminate.
  - intros [= <-]. by apply Forall_cons in Hall as [-> _].
  - destruct (negb _); [discriminate|].
    destruct (negb _); [discriminate|].
    destruct (Tensor.cat_last _) as [c|e] eqn:Ec; simpl; [|discriminate].
    intros Hn. apply NamedTensor_new_ok_inv in Hn as [-> _]. simpl.
    apply (cat_last_shape lead) in Ec; [by rewrite Ec, length_map|].
    by apply Forall_map.
Qed.

Lemma Sample_new_lengths ts st ps (stats : option (Stats V)) g ex gp m s :
  Sample.new ts st ps stats g ex gp m = Ok s ->
  0 <= num_input_steps st -> 0 <= num_pred_steps st ->
  length (validity_times (Sample.timestamps s))
  = (Z.to_nat (num_input_steps st) + Z.to_nat (num_pred_steps st))%nat
  /\ length (validity_times (Sample.output_timestamps s))
     = Z.to_nat (num_pred_steps st).
Proof.
  intros Hs Hi Hp.
  pose proof (proj1 (Sample_new_ok_iff ts st ps stats g ex gp m)) as Hlen.
  rewrite Hs in Hlen. specialize (Hlen eq_refl).
  unfold Sample.new in Hs. destruct (negb _); [discriminate|].
  injection Hs as <-. simpl. split; [lia|].
  pose proof (slice_to_from (num_input_steps st) (validity_times ts)) as E.
  apply (f_equal length) in E. rewrite length_app in E.
  destruct (slice_to_first (num_input_steps st) (validity_times ts))
    as [_ El]; lia.
Qed.

Lemma load_params_shapes s b (gh gw n_in n_pred : nat) ps li lo tr li' lo' :
  Sample.fetches_fields (Sample.get_param_tensor s) gh gw ->
  num_input_steps (Sample.settings s) = Z.of_nat n_in ->
  num_pred_steps (Sample.settings s) = Z.of_nat n_pred ->
  (0 < n_pred)%nat ->
  length (validity_times (Sample.timestamps s)) = (n_in + n_pred)%nat ->
  length (validity_times (Sample.output_timestamps s)) = n_pred ->
  Sample.load_params s b (li, lo) ps = (tr, Ok (li', lo')) ->
  Forall (fun y => Tensor.shape (NamedTensor.tensor y) = [n_in; gh; gw] ++ [1%nat])
    li ->
  Forall (fun y => Tensor.shape (NamedTensor.tensor y) = [n_pred; gh; gw] ++ [1%nat])
    lo ->
  Forall (fun y => Tensor.shape (NamedTensor.tensor y) = [n_in; gh; gw] ++ [1%nat])
    li'
  /\ Forall (fun y => Tensor.shape (NamedTensor.tensor y)
                      = [n_pred; gh; gw] ++ [1%nat]) lo'.
Proof.
  intros Hf Hi Hp Hpos Hall Hout.
  revert li lo tr. induction ps as [|p ps IH]; intros li lo tr; simpl.
  - intros Hr. by apply ret_ok_inv in Hr as [[= <- <-] _].
  - intros Hb Hli Hlo. bind_inv Hb as E E0. destruct a as [li1 lo1].
    apply load_param_ok in E. cbv zeta in E.
    destruct (kind p).
    + destruct E as (_ & -> & ->). by eapply IH.
    + destruct E as (_ & -> & x & Hx & ->).
      apply Hf in Hx. rewrite Hout in Hx.
      eapply IH; [exact E0 | done |].
      apply Forall_app. split; [done|]. by repeat constructor.
    + destruct E as (_ & x & xi & xo & Hx & Hxi & Hxo & -> & ->).
      apply Hf in Hx. rewrite Hall in Hx.
      destruct (to0_shape x _ _ (Z.of_nat n_in) Hx) as (yi & Eyi & Syi);
        [lia|].
      destruct (from0_shape x _ _ (Z.of_nat n_pred) Hx) as (yo & Eyo & Syo);
        [lia|].
      rewrite Hi, Eyi in Hxi. rewrite Hp, Eyo in Hxo.
      injection Hxi as <-. injection Hxo as <-.
      destruct (Z.eqb_spec (Z.of_nat n_pred) 0) as [E|_]; [lia|].
      rewrite Nat2Z.id in Syi, Syo.
      eapply IH; [exact E0 | |];
        (apply Forall_app; split; [done|]; by repeat constructor).
Qed.

(** X6. The shapes of a loaded item, for a sample that was built with
    [n_in >= 0] input steps and [n_pred > 0] prediction steps and whose
    accessor fetches one field of [gh] by [gw] points per validity time:
    the inputs are [(n_in, gh, gw, K)] and the outputs
    [(n_pred, gh, gw, K)], with one feature per [input_output]
    parameter. *)
Theorem load_shapes ts st ps (stats : option (Stats V)) g ex gp m s
    (gh gw : nat) (no_standardize : bool) tr it :
  Sample.new ts st ps stats g ex gp m = Ok s ->
  Sample.fetches_fields gp gh gw ->
  0 <= num_input_steps st -> 0 < num_pred_steps st ->
  Sample.load s no_standardize = (tr, Ok it) ->
  let K := length (filter is_input_output ps) in
  Tensor.shape (NamedTensor.tensor (Item.inputs it))
  = [Z.to_nat (num_input_steps st); gh; gw; K]
  /\ Tensor.shape (NamedTensor.tensor (Item.outputs it))
     = [Z.to_nat (num_pred_steps st); gh; gw; K].
Proof.
  intros Hs Hf Hi Hp Hl K.
  destruct (Sample_new_lengths _ _ _ _ _ _ _ _ _ Hs) as [Hall Hout];
    [lia..|].
  destruct (Sample_new_fields _ _ _ _ _ _ _ _ _ Hs)
    as (_ & Est & Eps & _ & _ & Egp).
  destruct (load_ok_inv s _ tr it Hl)
    as (li & lo & lf & lf' & i & f & o & Hpar & _ & _ & Hci & Hco & _ & Hit).
  destruct (Item_new_ok_inv i f o it Hit) as (-> & _ & Hsame). simpl.
  destruct (load_params_shapes s no_standardize gh gw
              (Z.to_nat (num_input_steps st)) (Z.to_nat (num_pred_steps st))
              _ _ _ _ _ _ ltac:(by rewrite Egp) ltac:(rewrite Est; lia)
              ltac:(rewrite Est; lia) ltac:(lia) Hall Hout Hpar
              ltac:(constructor) ltac:(constructor)) as [Sli Slo].
  pose proof (load_params_inputs _ _ _ _ _ _ _ _ Hpar) as Eli.
  pose proof (load_params_outputs _ _ _ _ _ _ _ _ Hpar) as Elo.
  simpl in Eli, Elo. rewrite Eps in Eli, Elo.
  pose proof (concat_feature_names _ _ Hci) as Fi.
  pose proof (concat_feature_names _ _ Hco) as Fo.
  rewrite Eli, concat_singletons in Fi.
  rewrite Elo, concat_singletons in Fo.
  rewrite Fi, Fo in Hsame.
  apply (f_equal length) in Hsame, Eli, Elo.
  rewrite !length_map in Hsame, Eli, Elo.
  eapply concat_shape in Hci; [|exact Sli].
  eapply concat_shape in Hco; [|exact Slo].
  rewrite Hci, Hco, Elo, Eli, <- Hsame. done.
Qed.

End LoadShapes.

(** ** The further properties on the example sample *)

Lemma Sample_new_splits_timestamps_witness :
  exists s,
    Examples.sample_with_input = Ok s
    /\ terms (Sample.input_timestamps s) ++ terms (Sample.output_timestamps s)
       = [-1; 0; 1]
    /\ Z.of_nat (length (validity_times (Sample.input_timestamps s))) = 2
    /\ Z.of_nat (length (validity_times (Sample.output_timestamps s))) = 1.
Proof.
  eexists. split; [reflexivity|].
  pose proof (Sample_new_splits_timestamps Examples.timestamps3
                Examples.settings_2_1 [Examples.orography; Examples.temperature]
                None Examples.grid1 (accessor_exists Examples.accessor1)
                (accessor_get_param_tensor Examples.accessor1) 0 _ eq_refl)
    as (Ht & _ & _ & _ & Hn).
  split; [exact Ht|]. apply Hn; simpl; lia.
Defined.

Lemma load_axes_and_forcing_features_witness :
  exists s tr it,
    Examples.sample_with_input = Ok s
    /\ Sample.load s false = (tr, Ok it)
    /\ (forall f, NamedTensor.names (Item.getattr it f) = Sample.STATE_NAMES)
    /\ NamedTensor.feature_names (Item.forcing it) = FORCING_NAMES.
Proof.
  eexists. eexists. eexists. split; [reflexivity|].
  match goal with
  | |- ?l = (?tr, Ok ?it) /\ _ =>
      assert (Hl : l = (tr, Ok it)) by (vm_compute; reflexivity)
  end.
  split; [exact Hl|].
  exact (load_axes_and_forcing_features _ false _ _ Hl).
Defined.

Lemma load_shapes_witness :
  exists s tr it,
    Examples.sample_with_input = Ok s
    /\ Sample.load s false = (tr, Ok it)
    /\ Tensor.shape (NamedTensor.tensor (Item.inputs it)) = [2; 1; 1; 1]%nat
    /\ Tensor.shape (NamedTensor.tensor (Item.outputs it)) = [1; 1; 1; 1]%nat.
Proof.
  eexists. eexists. eexists. split; [reflexivity|].
  match goal with
  | |- ?l = (?tr, Ok ?it) /\ _ =>
      assert (Hl : l = (tr, Ok it)) by (vm_compute; reflexivity)
  end.
  split; [exact Hl|].
  eapply (load_shapes Examples.timestamps3 Examples.settings_2_1
            [Examples.orography; Examples.temperature] None Examples.grid1
            (accessor_exists Examples.accessor1)
            (accessor_get_param_tensor Examples.accessor1) 0 _ 1 1 false).
  - reflexivity.
  - intros p st ts se b m x. simpl. unfold Examples.fetch_hours.
    intros [= <-]. by destruct b.
  - simpl. lia.
  - simpl. lia.
  - exact Hl.
Defined.

(** ** The dates and the terms of a period *)

Lemma ceil_div_nonpos (d s : Z) : d <= 0 -> 0 < s -> ceil_div d s <= 0.
Proof.
  intros Hd Hs. unfold ceil_div.
  pose proof (Z.div_pos (- d) s ltac:(lia) Hs). lia.
Qed.

Lemma arange_values_empty (start stop step : Z) :
  0 < step -> stop <= start -> arange_values start stop step = [].
Proof.
  intros Hs Hle. unfold arange_values.
  pose proof (ceil_div_nonpos (stop - start) step ltac:(lia) Hs).
  by replace (Z.to_nat (ceil_div (stop - start) step)) with 0%nat by lia.
Qed.

Lemma arange_values_elem_iff (start stop step x : Z) :
  0 < step ->
  x ∈ arange_values start stop step
  <-> exists i : nat, x = start + Z.of_nat i * step /\ x < stop.
Proof.
  intros Hs. split.
  - intros Hx. pose proof (arange_values_below_stop _ _ _ _ Hs Hx) as Hlt.
    apply arange_values_elem in Hx as (i & -> & _). eauto.
  - intros (i & -> & Hlt). unfold arange_values.
    apply list_elem_of_fmap. exists i. split; [done|].
    apply elem_of_seq. split; [lia|]. simpl.
    assert (Z.of_nat i < ceil_div (stop - start) step); [|lia].
    unfold ceil_div.
    pose proof (Z.div_mod (- (stop - start)) step ltac:(lia)).
    pose proof (Z.mod_pos_bound (- (stop - start)) step Hs).
    nia.
Qed.

Lemma ceil_div_exact (d s : Z) :
  0 < s -> ceil_div d s = d / s + (if d mod s =? 0 then 0 else 1).
Proof.
  intros Hs. unfold ceil_div.
  pose proof (Z.div_mod d s ltac:(lia)) as Hd.
  pose proof (Z.mod_pos_bound d s Hs) as Hm.
  destruct (Z.eqb_spec (d mod s) 0) as [E|E].
  - assert (Hq : (- d) / s = - (d / s)); [|lia].
    symmetry. apply (Z.div_unique_pos _ _ _ 0); lia.
  - assert (Hq : (- d) / s = - (d / s + 1)); [|lia].
    symmetry. apply (Z.div_unique_pos _ _ _ (s - d mod s)); lia.
Qed.

Lemma date_list_length (p : Period.t) :
  Period.start p <= Period.end_ p ->
  Z.of_nat (length (Period.date_list p))
  = (Period.end_ p - Period.start p) / DAY + 1
    + (if (Period.end_ p - Period.start p) mod DAY =? 0 then 0 else 1).
Proof.
  intros Hle. unfold Period.date_list. rewrite arange_values_length.
  rewrite ceil_div_exact by reflexivity.
  replace (Period.end_ p + DAY - Period.start p)
    with (Period.end_ p - Period.start p + 1 * DAY) by lia.
  rewrite Z.div_add, Z.mod_add by (unfold DAY; lia).
  pose proof (Z.div_pos (Period.end_ p - Period.start p) DAY ltac:(lia)
                ltac:(reflexivity)).
  destruct (_ =? 0); lia.
Qed.

Lemma date_list_last (p : Period.t) :
  Period.start p <= Period.end_ p ->
  last (Period.date_list p)
  = Some (Period.start p
          + ((Period.end_ p - Period.start p) / DAY
             + (if (Period.end_ p - Period.start p) mod DAY =? 0 then 0 else 1))
            * DAY).
Proof.
  intros Hle. pose proof (date_list_length p Hle) as Hlen.
  pose proof (Z.div_pos (Period.end_ p - Period.start p) DAY ltac:(lia)
                ltac:(reflexivity)) as Hq.
  rewrite last_lookup, date_list_spacing.
  - f_equal. f_equal. f_equal. destruct (_ =? 0); lia.
  - destruct (_ =? 0); lia.
Qed.

(** X7. The dates of a period are the instants [start + i * 24h] that
    are earlier than [end + 24h], in increasing order; there is none
    when [end + 24h <= start]. When [start <= end] and [end] is a whole
    number of days after [start], there are [(end - start) / 24h + 1]
    dates and the last one is [end]; when it is not, there is one date
    more and the last one is later than [end]. *)
Theorem date_list_dates (p : Period.t) :
  (forall d, d ∈ Period.date_list p
     <-> exists i : nat, d = Period.start p + Z.of_nat i * DAY
                         /\ d < Period.end_ p + DAY)
  /\ StronglySorted Z.lt (Period.date_list p)
  /\ (Period.end_ p + DAY <= Period.start p -> Period.date_list p = [])
  /\ (Period.start p <= Period.end_ p ->
      (Period.end_ p - Period.start p) mod DAY = 0 ->
      Z.of_nat (length (Period.date_list p))
      = (Period.end_ p - Period.start p) / DAY + 1
      /\ last (Period.date_list p) = Some (Period.end_ p))
  /\ (Period.start p <= Period.end_ p ->
      (Period.end_ p - Period.start p) mod DAY <> 0 ->
      Z.of_nat (length (Period.date_list p))
      = (Period.end_ p - Period.start p) / DAY + 2
      /\ exists d, last (Period.date_list p) = Some d
                   /\ Period.end_ p < d < Period.end_ p + DAY).
Proof.
  assert (HD : 0 < DAY) by reflexivity.
  split; [|split; [|split; [|split]]].
  - intros d. by apply arange_values_elem_iff.
  - by apply arange_values_sorted.
  - intros Hle. apply arange_values_empty; [done | lia].
  - intros Hle Hm. rewrite date_list_length, date_list_last by done.
    rewrite Hm. simpl. split; [lia|]. f_equal.
    pose proof (Z.div_mod (Period.end_ p - Period.start p) DAY ltac:(lia)).
    lia.
  - intros Hle Hm. rewrite date_list_length, date_list_last by done.
    destruct (Z.eqb_spec ((Period.end_ p - Period.start p) mod DAY) 0)
      as [E|_]; [done|].
    split; [lia|]. eexists. split; [reflexivity|].
    pose proof (Z.div_mod (Period.end_ p - Period.start p) DAY ltac:(lia)).
    pose proof (Z.mod_pos_bound (Period.end_ p - Period.start p) DAY HD).
    lia.
Qed.


(** ** What a batch tells about its items *)

Section BatchProps.
Context {V : Type} `{Scalar V}.
Implicit Types (item : Item.t V) (items : list (Item.t V)).

Lemma stack_ok_inv (l : list (Tensor.t V)) c :
  Tensor.stack l = Ok c ->
  exists x l',
    l = x :: l' /\ Tensor.shape c = length l :: Tensor.shape x
    /\ Forall (fun y => Tensor.shape y = Tensor.shape x) l'.
Proof.
  unfold Tensor.stack. destruct l as [|x l']; [discriminate|].
  destruct (forallb _ l') eqn:E; [|discriminate].
  intros [= <-]. exists x, l'. repeat split.
  apply Forall_forall. intros y Hy.
  rewrite forallb_forall in E. apply list_elem_of_In, E in Hy.
  by apply bool_decide_eq_true_1 in Hy.
Qed.

Lemma collate_field_ok_inv (f : Item.field_name) items b :
  collate_field f items = Ok b ->
  exists item0 rest,
    items = item0 :: rest
    /\ Tensor.shape (NamedTensor.tensor b)
       = length items :: Tensor.shape (NamedTensor.tensor (Item.getattr item0 f))
    /\ NamedTensor.names b = "batch" :: NamedTensor.names (Item.getattr item0 f)
    /\ NamedTensor.feature_names b
       = NamedTensor.feature_names (Item.getattr item0 f)
    /\ NamedTensor.wf b
    /\ Forall (fun it =>
                 Tensor.shape (NamedTensor.tensor (Item.getattr it f))
                 = Tensor.shape (NamedTensor.tensor (Item.getattr item0 f)))
         rest.
Proof.
  unfold collate_field, collate_tensor_fn.
  destruct (Tensor.stack _) as [c|e] eqn:Ec; simpl; [|discriminate].
  apply stack_ok_inv in Ec as (x & l' & El & Sc & Hall).
  destruct items as [|item0 rest]; [discriminate|].
  simpl in El. injection El as <- <-. simpl first_item. simpl rbind.
  unfold NamedTensor.expand_to_batch_like. intros Hn.
  apply NamedTensor_new_ok_inv in Hn as [-> Hwf].
  exists item0, rest. simpl. rewrite Sc, length_map.
  do 5 (split; [done|]). by apply Forall_fmap in Hall.
Qed.

Lemma dim_size_batched (b x : NamedTensor.t V) (n : nat) (name : string) :
  Tensor.shape (NamedTensor.tensor b) = n :: Tensor.shape (NamedTensor.tensor x) ->
  NamedTensor.names b = "batch" :: NamedTensor.names x ->
  NamedTensor.dim_size b name
  = if decide (name = "batch") then Ok n else NamedTensor.dim_size x name.
Proof.
  intros Hs Hn. unfold NamedTensor.dim_size. rewrite Hs, Hn. simpl.
  destruct (decide (name = "batch")); [done|].
  by destruct (list_index name (NamedTensor.names x)).
Qed.

(** X9. A batch that [collate_fn] returned came from a list that is not
    empty, whose items have, field by field, tensors of the shape of the
    first item; the inputs and the outputs of the first item have the
    same axis names and feature names. The batch size is the number of
    items, and the numbers of input and prediction steps of the batch
    are the sizes of the axis [timestep] of the inputs and of the
    outputs of the first item. *)
Theorem collate_fn_batch_dimensions items (b : ItemBatch.t V) :
  collate_fn items = Ok b ->
  exists item0 rest,
    items = item0 :: rest
    /\ Forall (fun it => forall f,
                 Tensor.shape (NamedTensor.tensor (Item.getattr it f))
                 = Tensor.shape (NamedTensor.tensor (Item.getattr item0 f)))
         rest
    /\ NamedTensor.names (Item.inputs item0)
       = NamedTensor.names (Item.outputs item0)
    /\ NamedTensor.feature_names (Item.inputs item0)
       = NamedTensor.feature_names (Item.outputs item0)
    /\ ItemBatch.batch_size b = Ok (length items)
    /\ ItemBatch.num_input_steps b
       = NamedTensor.dim_size (Item.inputs item0) "timestep"
    /\ ItemBatch.num_pred_steps b
       = NamedTensor.dim_size (Item.outputs item0) "timestep".
Proof.
  unfold collate_fn.
  destruct (collate_field Item.f_inputs items) as [bi|e] eqn:Ei; simpl;
    [|discriminate].
  destruct (collate_field Item.f_forcing items) as [bf|e] eqn:Ef; simpl;
    [|discriminate].
  destruct (collate_field Item.f_outputs items) as [bo|e] eqn:Eo; simpl;
    [|discriminate].
  unfold ItemBatch.new, Item.new.
  case_bool_decide as Hn; simpl; [|discriminate].
  case_bool_decide as Hf; simpl; [|discriminate].
  intros [= <-].
  apply collate_field_ok_inv in Ei as (item0 & rest & -> & Si & Ni & Fi & _ & Ai).
  apply collate_field_ok_inv in Ef as (? & ? & [= <- <-] & _ & _ & _ & _ & Af).
  apply collate_field_ok_inv in Eo as (? & ? & [= <- <-] & So & No & Fo & _ & Ao).
  simpl in *. exists item0, rest.
  split; [done|]. split; [|split; [|split; [|split; [|split]]]].
  - rewrite Forall_forall in Ai, Af, Ao. apply Forall_forall.
    intros it Hit [ | | ]; simpl; auto.
  - rewrite Ni, No in Hn. by injection Hn.
  - by rewrite <- Fi, <- Fo.
  - unfold ItemBatch.batch_size. simpl.
    by rewrite (dim_size_batched bi _ _ _ Si Ni).
  - unfold ItemBatch.num_input_steps. simpl.
    by rewrite (dim_size_batched bi _ _ _ Si Ni).
  - unfold ItemBatch.num_pred_steps. simpl.
    by rewrite (dim_size_batched bo _ _ _ So No).
Qed.

End BatchProps.

Lemma collate_fn_batch_dimensions_witness :
  exists b,
    collate_fn [Examples.item_a; Examples.item_b] = Ok b
    /\ ItemBatch.batch_size b = Ok 2%nat
    /\ ItemBatch.num_input_steps b = Ok 2%nat
    /\ ItemBatch.num_pred_steps b = Ok 1%nat.
Proof.
  eexists.
  match goal with
  | |- ?l = Ok ?b /\ _ => assert (Hb : l = Ok b) by (vm_compute; reflexivity)
  end.
  split; [exact Hb|].
  destruct (collate_fn_batch_dimensions _ _ Hb)
    as (item0 & rest & [= <- <-] & _ & _ & _ & Hn & Hi & Ho).
  split; [exact Hn|]. split; [exact Hi | exact Ho].
Defined.

(** ** The dimensions of a dataset and its items *)

Section DatasetDims.
Context {V : Type} `{Scalar V} `{ForcingUtils V}.
Variable timestamps_of : Z -> Timestamps.
Variable set_order : gset Z -> list Z.
Implicit Types (ds : Dataset.t V) (k : Kind) (ps : list WeatherParam).

Lemma count_kind k ps (a : Z) :
  fold_left (fun res param =>
               if decide (kind param = k) then res + 1 else res) ps a
  = a + Z.of_nat (length (filter (fun p => kind p = k) ps)).
Proof.
  revert a. induction ps as [|p ps IH]; intros a; simpl; [lia|].
  rewrite IH, filter_cons. destruct (decide (kind p = k)); simpl; lia.
Qed.

Lemma kinds_partition ps :
  (length (filter (fun p => kind p = input) ps)
   + length (filter (fun p => kind p = input_output) ps)
   + length (filter (fun p => kind p = output) ps))%nat = length ps.
Proof.
  induction ps as [|p ps IH]; [done|].
  rewrite !filter_cons.
  destruct (kind p);
    repeat match goal with
           | |- context [decide ?P] => destruct (decide P); try done
           end; simpl; lia.
Qed.

(** X10. The three dimensions of a dataset count its parameters by kind:
    [input_dim] is five more than the number of [input] parameters,
    [input_output_dim] and [output_dim] are the numbers of [input_output]
    and of [output] parameters, which are the lengths of the lists that
    [shortnames] returns; together they count every parameter once. *)
Theorem dataset_dims_count_kinds ds :
  Dataset.input_dim ds
  = 5 + Z.of_nat (length (Dataset.shortnames ds input))
  /\ Dataset.input_output_dim ds
     = Z.of_nat (length (Dataset.shortnames ds input_output))
  /\ Dataset.output_dim ds
     = Z.of_nat (length (Dataset.shortnames ds output))
  /\ Dataset.input_dim ds + Dataset.input_output_dim ds
     + Dataset.output_dim ds
     = 5 + Z.of_nat (length (Dataset.params ds)).
Proof.
  unfold Dataset.input_dim, Dataset.input_output_dim, Dataset.output_dim,
    Dataset.shortnames.
  rewrite !count_kind, !length_map.
  pose proof (kinds_partition (Dataset.params ds)). lia.
Qed.

Lemma filter_is_input_output ps :
  filter is_input_output ps = filter (fun p => kind p = input_output) ps.
Proof.
  induction ps as [|p ps IH]; [done|].
  rewrite !filter_cons, IH. unfold is_input_output.
  destruct (decide (kind p = input_output)) as [E|E].
  - by rewrite decide_True by (by apply bool_decide_spec).
  - by rewrite decide_False by (by rewrite bool_decide_spec).
Qed.

Lemma load_ok_no_output (s : Sample.t V) b tr it :
  Sample.load s b = (tr, Ok it) ->
  filter (fun p => kind p = output) (Sample.params s) = [].
Proof.
  intros Hl.
  pose proof (load_inputs_feature_names s _ tr it Hl) as Hin.
  destruct (load_ok_inv s _ tr it Hl)
    as (li & lo & lf & lf' & i & f & o & Hp & _ & _ & _ & Ho & _ & Hit).
  apply load_params_outputs in Hp. simpl in Hp.
  apply concat_feature_names in Ho. rewrite Hp, concat_singletons in Ho.
  destruct (Item_new_ok_inv i f o it Hit) as (-> & _ & Hsame).
  simpl in *. rewrite Hin, Ho in Hsame. apply (f_equal length) in Hsame.
  rewrite !length_map, filter_predicted_length in Hsame.
  apply length_zero_iff_nil. lia.
Qed.

Lemma rmapM_Forall {A B} (P : B -> Prop) (f : A -> result B) (l : list A) r :
  (forall a b, f a = Ok b -> P b) -> rmapM f l = Ok r -> Forall P r.
Proof.
  intros Hf. revert r. induction l as [|a l IH]; intros r; simpl.
  - intros [= <-]. constructor.
  - destruct (f a) as [b|e] eqn:Ea; simpl; [|discriminate].
    destruct (rmapM f l) as [bs|e]; simpl; [|discriminate].
    intros [= <-]. constructor; [by eapply Hf | by apply IH].
Qed.

Lemma trial_sample_fields ds st (d : Z) (s : Sample.t V) :
  Dataset.trial_sample timestamps_of ds st d = Ok s ->
  Sample.params s = Dataset.params ds
  /\ Sample.settings s = Dataset.settings ds
  /\ Sample.timestamps s = timestamps_of d.
Proof.
  unfold Dataset.trial_sample. intros Hs.
  apply Sample_new_fields in Hs. tauto.
Qed.

Lemma fresh_go_Forall (P : Sample.t V -> Prop) ds st (dates : list Z) l :
  (forall d s, Dataset.trial_sample timestamps_of ds st d = Ok s -> P s) ->
  Dataset.fresh_go timestamps_of ds st dates = Ok l -> Forall P l.
Proof.
  intros HP. revert l. induction dates as [|d dates IH]; intros l; simpl.
  - intros [= <-]. constructor.
  - destruct (Dataset.trial_sample timestamps_of ds st d) as [s|e] eqn:Es;
      simpl; [|discriminate].
    destruct (Dataset.fresh_go timestamps_of ds st dates) as [ss|e]; simpl;
      [|discriminate].
    intros [= <-]. specialize (IH ss eq_refl).
    destruct (Sample.is_valid s); [|done]. constructor; [by eapply HP | done].
Qed.

(** Every sample of the list was built for the dataset. *)
Lemma sample_list_Forall (P : Sample.t V -> Prop) ds file l :
  (forall st d s, Dataset.trial_sample timestamps_of ds st d = Ok s -> P s) ->
  Dataset.sample_list timestamps_of set_order ds file = Ok l -> Forall P l.
Proof.
  intros HP. unfold Dataset.sample_list. destruct file as [content|].
  - destruct (rmapM strptime _) as [dates|e]; simpl; [|discriminate].
    apply rmapM_Forall. apply HP.
  - apply fresh_go_Forall. apply HP.
Qed.

Lemma py_getitem_elem {A} (l : list A) (i : Z) (x : A) :
  py_getitem l i = Ok x -> x ∈ l.
Proof.
  unfold py_getitem. destruct (_ && _); [|discriminate].
  destruct (l !! _) as [y|] eqn:E; [|discriminate].
  intros [= <-]. by eapply list_elem_of_lookup_2.
Qed.


End DatasetDims.

(** ** The Titan accessor *)

Lemma rmapM_ok_all {A B} (P : B -> Prop) (f : A -> result B) (l : list A) :
  (forall a, a ∈ l -> exists b, f a = Ok b /\ P b) ->
  exists r, rmapM f l = Ok r /\ Forall P r /\ length r = length l.
Proof.
  induction l as [|a l IH]; intros Hf; simpl.
  - exists []. by repeat split.
  - destruct (Hf a) as (b & -> & Hb); [left|].
    destruct IH as (r & -> & Hr & Hlen).
    { intros a' Ha'. apply Hf. by right. }
    simpl. exists (b :: r). repeat split; [by constructor | simpl; lia].
Qed.

Section Titan.
Context {V : Type} `{Scalar V}.
Variable load_data_from_disk :
  string -> WeatherParam -> Z -> string -> result (Tensor.t V).
Implicit Types (param : WeatherParam) (stats : option (Stats V)).
Implicit Types (dates : list Z) (settings : SamplePreprocSettings).

Local Abbreviation get_param_tensor :=
  (TitanAccessor.get_param_tensor load_data_from_disk).

Lemma titan_stack dates (raw_shape : list nat) (arrays : list (Tensor.t V)) :
  dates <> [] -> length arrays = length dates ->
  Forall (fun a => Tensor.shape a = raw_shape) arrays ->
  exists arr, TitanAccessor.np_stack arrays = Ok arr
              /\ Tensor.shape arr = length dates :: raw_shape.
Proof.
  intros Hne Hlen Hall. unfold TitanAccessor.np_stack.
  destruct arrays as [|a arrays].
  { destruct dates; [done | discriminate]. }
  apply Forall_cons in Hall as [Ha Hall].
  destruct (stack_ok a arrays) as [d Hd].
  { eapply Forall_impl; [exact Hall|]. intros y Hy. simpl in Hy. congruence. }
  rewrite Hd. eexists. split; [reflexivity|]. simpl in *. congruence.
Qed.

(** The array before the standardization. *)
Lemma titan_raw_shape param dates settings (raw_shape : list nat) :
  dates <> [] ->
  (forall date, date ∈ dates ->
     exists a, load_data_from_disk (dataset_name settings) param date
                 (file_format settings) = Ok a
               /\ Tensor.shape a = raw_shape) ->
  exists arr,
    rbind (rmapM (fun date =>
             load_data_from_disk (dataset_name settings) param date
               (file_format settings)) dates) TitanAccessor.np_stack = Ok arr
    /\ Tensor.shape arr = length dates :: raw_shape.
Proof.
  intros Hne Hload.
  destruct (rmapM_ok_all (fun a => Tensor.shape a = raw_shape) _ dates Hload)
    as (arrays & -> & Hall & Hlen).
  simpl. by apply titan_stack.
Qed.



End Titan.

(** ** The registry of datasets *)

Section RegistryProps.
Context {Datasets : Type}.
Variable from_json : Registry.from_json_call -> result Datasets.
Implicit Types (i : Registry.imports) (name : string).

Lemma lookup_register (ok : bool) (key name : string) (e : Registry.entry)
    (r : gmap string Registry.entry) :
  Registry.register ok key e r !! name
  = if ok && bool_decide (name = key) then Some e else r !! name.
Proof.
  unfold Registry.register. destruct ok; simpl; [|done].
  case_bool_decide as E.
  - subst. apply lookup_insert_eq.
  - by apply lookup_insert_ne.
Qed.

(** What the registry holds under a name, by the imports that
    succeeded. *)
Lemma registry_lookup i name :
  Registry.registry i !! name
  = if Registry.dummy_ok i && bool_decide (name = "dummy")
    then Some (Registry.Pair "DummyDataset" "")
    else if Registry.poesy_infer_ok i && bool_decide (name = "poesy_infer")
    then Some (Registry.Quad "Poesy" "InferPoesyDataset" "PoesyAccessor"
                 "poesy_infer.json")
    else if Registry.poesy_ok i && bool_decide (name = "poesy")
    then Some (Registry.Quad "Poesy" "PoesyDataset" "PoesyAccessor"
                 "poesy_refacto.json")
    else if Registry.titan_ok i && bool_decide (name = "titan")
    then Some (Registry.Quad "Titan" "TitanDataset" "TitanAccessor"
                 "titan_full.json")
    else if Registry.smeagol_infer_ok i
            && bool_decide (name = "smeagol_infer")
    then Some (Registry.Pair "InferSmeagolDataset" "smeagol.json")
    else if Registry.smeagol_ok i && bool_decide (name = "smeagol")
    then Some (Registry.Pair "SmeagolDataset" "smeagol.json")
    else None.
Proof. unfold Registry.registry. by rewrite !lookup_register, lookup_empty. Qed.

(** X14. Whatever imports succeeded, [get_datasets] raises a
    [ValueError] for the names [smeagol], [smeagol_infer] and [dummy],
    registered or not, and for every name that is not registered; it
    calls [from_json] only for [titan], [poesy] and [poesy_infer], with
    the registered dataset name, classes and, when no configuration file
    is given, the registered default. *)
Theorem get_datasets_registered_names i name (n_in n_train n_val : Z)
    (config_file : option string) :
  let r := Registry.get_datasets from_json (Registry.registry i) name
             n_in n_train n_val config_file in
  (name ∈ ["smeagol"; "smeagol_infer"; "dummy"]
   \/ Registry.registry i !! name = None ->
   exists msg, r = Raise (ValueError msg))
  /\ (forall d, r = Ok d ->
      exists dataset_name dataset_kls accessor_kls default_config,
        (name, dataset_name, dataset_kls, accessor_kls, default_config)
          ∈ [("titan", "Titan", "TitanDataset", "TitanAccessor",
              "titan_full.json");
             ("poesy", "Poesy", "PoesyDataset", "PoesyAccessor",
              "poesy_refacto.json");
             ("poesy_infer", "Poesy", "InferPoesyDataset", "PoesyAccessor",
              "poesy_infer.json")]
        /\ r = from_json
                 (Registry.mkCall dataset_kls accessor_kls dataset_name
                    (default default_config config_file)
                    n_in n_train n_val)).
Proof.
  cbv zeta. unfold Registry.get_datasets. rewrite registry_lookup.
  split.
  - intros [Hname|Hnone].
    + repeat (apply elem_of_cons in Hname as [->|Hname]);
        [..|by apply elem_of_nil in Hname];
        destruct i as [[] [] [] [] [] []]; simpl; eauto.
    + rewrite Hnone. eauto.
  - intros d.
    repeat match goal with
           | |- context [?b && bool_decide (name = ?k)] =>
               destruct (b && bool_decide (name = k)) eqn:?
           end; try discriminate;
      match goal with
      | E : _ && bool_decide (name = _) = true |- _ =>
          apply andb_true_iff in E as [_ E];
          apply bool_decide_eq_true_1 in E; subst name
      end;
      intros Hd; do 4 eexists; (split; [|destruct config_file; reflexivity]).
    + do 2 right. left.
    + right. left.
    + left.
Qed.

End RegistryProps.

(** ** The frames of a plot *)

Lemma py_getitem_nonneg {A} (l : list A) (i : Z) :
  0 <= i < Z.of_nat (length l) ->
  exists x, py_getitem l i = Ok x /\ l !! Z.to_nat i = Some x.
Proof.
  intros Hi. unfold py_getitem.
  destruct (Z.ltb_spec i 0); [lia|].
  destruct (Z.leb_spec 0 i); [|lia].
  destruct (Z.ltb_spec i (Z.of_nat (length l))); [|lia]. simpl.
  destruct (lookup_lt_is_Some_2 l (Z.to_nat i) ltac:(lia)) as [x Hx].
  rewrite Hx. eauto.
Qed.

Lemma py_getitem_neg {A} (l : list A) (i : Z) :
  - Z.of_nat (length l) <= i < 0 ->
  exists x, py_getitem l i = Ok x
            /\ l !! Z.to_nat (i + Z.of_nat (length l)) = Some x.
Proof.
  intros Hi. unfold py_getitem.
  destruct (Z.ltb_spec i 0); [|lia].
  destruct (Z.leb_spec 0 (i + Z.of_nat (length l))); [|lia].
  destruct (Z.ltb_spec (i + Z.of_nat (length l)) (Z.of_nat (length l)));
    [|lia].
  simpl.
  destruct (lookup_lt_is_Some_2 l (Z.to_nat (i + Z.of_nat (length l)))
              ltac:(lia)) as [x Hx].
  rewrite Hx. eauto.
Qed.

Lemma arange_values_unit (lo hi x : Z) :
  x ∈ arange_values lo hi 1 <-> lo <= x < hi.
Proof.
  rewrite arange_values_elem_iff by lia. split.
  - intros (i & -> & Hlt). lia.
  - intros Hx. exists (Z.to_nat (x - lo)). lia.
Qed.

Lemma arange_values_split (lo mid hi : Z) :
  lo <= mid <= hi ->
  arange_values lo hi 1 = arange_values lo mid 1 ++ arange_values mid hi 1.
Proof.
  intros Hm. unfold arange_values.
  rewrite !(ceil_div_exact _ 1), !Z.mod_1_r, !Z.div_1_r by lia. simpl.
  replace (Z.to_nat (hi - lo + 0))
    with (Z.to_nat (mid - lo + 0) + Z.to_nat (hi - mid + 0))%nat by lia.
  rewrite seq_app, map_app. f_equal. simpl Nat.add.
  assert (Eseq : forall a b : nat, seq a b = map (Nat.add a) (seq 0 b)).
  { intros a b. by rewrite fmap_add_seq, Nat.add_0_r. }
  rewrite (Eseq (Z.to_nat (mid - lo + 0))), <- list_fmap_compose.
  apply map_ext. intros i. simpl. lia.
Qed.

Section Plot.
Context {V : Type} `{Scalar V} `{ForcingUtils V}.
Implicit Types (s : Sample.t V) (step : Z).


(** X16. The title of a frame against the frame, for a sample that was
    built with at least one input step and one prediction step and
    whose validity times are distinct: for every step of [plot_gif] both
    the validity time of the title and that of the timestep shown
    exist, and they are the same exactly when the sample has a single
    input step. With two input steps or more, no frame carries its own
    validity time in the title. *)
Theorem plot_title_and_frame ts st ps (stats : option (Stats V)) g ex gp m s
    step :
  Sample.new ts st ps stats g ex gp m = Ok s ->
  1 <= num_input_steps st -> 1 <= num_pred_steps st ->
  NoDup (validity_times ts) ->
  step ∈ Sample.plot_gif_steps s ->
  exists title frame,
    Sample.plot_title_time s step = Ok title
    /\ Sample.plot_frame_time s step = Ok frame
    /\ (title = frame <-> num_input_steps st = 1).
Proof.
  intros Hs Hi Hp Hnd Hstep.
  pose proof (proj1 (Sample_new_ok_iff ts st ps stats g ex gp m)) as Hlen.
  rewrite Hs in Hlen. specialize (Hlen eq_refl).
  unfold Sample.plot_gif_steps in Hstep. apply arange_values_unit in Hstep.
  unfold Sample.plot_title_time, Sample.plot_frame_time, Sample.plot_select.
  unfold Sample.new in Hs. destruct (negb _); [discriminate|].
  injection Hs as <-. simpl in *.
  set (vt := validity_times ts) in *.
  destruct (slice_to_first (num_input_steps st) vt ltac:(lia)) as [Eto Lto].
  assert (Efrom : slice_from (num_input_steps st) vt
                  = drop (Z.to_nat (num_input_steps st)) vt).
  { unfold slice_from, slice_bound.
    destruct (Z.ltb_spec (num_input_steps st) 0); [lia|].
    by rewrite Nat.min_l by lia. }
  assert (Hidx : forall (i j : nat) x y,
            vt !! i = Some x -> vt !! j = Some y -> (x = y <-> i = j)).
  { intros i j x y Hx Hy. split.
    - intros <-. by eapply NoDup_lookup.
    - intros <-. congruence. }
  destruct (Z.leb_spec step 0) as [Hle|Hgt]; cbv beta iota zeta;
    simpl validity_times; fold vt.
  - destruct (py_getitem_nonneg (slice_to (num_input_steps st) vt)
                (step + num_input_steps st - 1) ltac:(lia))
      as (frame & -> & Hf).
    rewrite Eto, lookup_take_lt in Hf by lia.
    destruct (Z.eq_dec step 0) as [->|Hne].
    + destruct (py_getitem_nonneg vt 0 ltac:(lia)) as (title & -> & Ht).
      exists title, frame. split; [done|]. split; [done|].
      rewrite (Hidx _ _ _ _ Ht Hf). lia.
    + destruct (py_getitem_neg vt step ltac:(lia)) as (title & -> & Ht).
      exists title, frame. split; [done|]. split; [done|].
      rewrite (Hidx _ _ _ _ Ht Hf). lia.
  - assert (Ldrop : length (slice_from (num_input_steps st) vt)
                    = Z.to_nat (num_pred_steps st)).
    { rewrite Efrom, length_drop. lia. }
    destruct (py_getitem_nonneg (slice_from (num_input_steps st) vt)
                (step - 1) ltac:(lia)) as (frame & -> & Hf).
    rewrite Efrom, lookup_drop in Hf.
    destruct (py_getitem_nonneg vt step ltac:(lia)) as (title & -> & Ht).
    exists title, frame. split; [done|]. split; [done|].
    rewrite (Hidx _ _ _ _ Ht Hf). lia.
Qed.

End Plot.

(** ** The file of valid samples, read again *)

Lemma rmapM_same_shape {A B C} (R : B -> C -> Prop) (f : A -> result B)
    (g : A -> result C) (l : list A) r :
  (forall a b, f a = Ok b -> exists c, g a = Ok c /\ R b c) ->
  rmapM f l = Ok r -> exists r', rmapM g l = Ok r' /\ Forall2 R r r'.
Proof.
  intros Hfg. revert r. induction l as [|a l IH]; intros r; simpl.
  - intros [= <-]. eauto.
  - destruct (f a) as [b|e] eqn:Ea; simpl; [|discriminate].
    destruct (rmapM f l) as [bs|e]; simpl; [|discriminate].
    intros [= <-]. destruct (Hfg a b Ea) as (c & -> & Hc).
    destruct (IH bs eq_refl) as (cs & -> & Hcs). simpl. eauto.
Qed.

Section CacheReuse.
Context {V : Type} `{Scalar V} `{ForcingUtils V}.
Variable timestamps_of : Z -> Timestamps.
Variable set_order : gset Z -> list Z.
Hypothesis set_order_lists : forall s, set_order s ≡ₚ elements s.
Implicit Types (ds : Dataset.t V) (st : option (Stats V)) (d : Z).

Local Abbreviation trial_sample := (Dataset.trial_sample timestamps_of).
Local Abbreviation date_valid := (Dataset.date_valid timestamps_of).
Local Abbreviation sample_list := (Dataset.sample_list timestamps_of set_order).
Local Abbreviation write_list_valid_samples :=
  (Dataset.write_list_valid_samples timestamps_of).

Lemma fresh_go_with_period ds (p' : Period.t) st (dates : list Z) :
  Dataset.fresh_go timestamps_of (Dataset.with_period ds p') st dates
  = Dataset.fresh_go timestamps_of ds st dates.
Proof. induction dates as [|d dates IH]; simpl; [done | by rewrite IH]. Qed.



End CacheReuse.

(** ** The further properties on the example dataset *)




Lemma plot_title_and_frame_witness :
  exists s title frame,
    Examples.sample_with_input = Ok s
    /\ Sample.plot_title_time s 1 = Ok title
    /\ Sample.plot_frame_time s 1 = Ok frame
    /\ (title = frame <-> 2 = 1).
Proof.
  eexists.
  edestruct (plot_title_and_frame Examples.timestamps3 Examples.settings_2_1
               [Examples.orography; Examples.temperature] None Examples.grid1
               (accessor_exists Examples.accessor1)
               (accessor_get_param_tensor Examples.accessor1) 0 _ 1 eq_refl)
    as (title & frame & Ht & Hf & Hiff).
  - simpl. lia.
  - simpl. lia.
  - apply (bool_decide_unpack _). vm_compute. exact I.
  - do 2 right. left.
  - exists title, frame. split; [reflexivity|].
    split; [exact Ht|]. split; [exact Hf | exact Hiff].
Defined.



(** ** The construction of a period *)

(** X19. A period that was built has whole hours as [start] and [end]
    and the step and the terms that it was given. Nothing compares the
    two stamps: when a period can be built, so can the period with the
    stamps exchanged, whose [end] is the [start] of the first. *)
Theorem Period_new_accepts_any_order start end_ step name ts te
    (p : Period.t) :
  Period.new start end_ step name ts te = Ok p ->
  Period.start p mod HOUR = 0 /\ Period.end_ p mod HOUR = 0
  /\ Period.step_duration p = step
  /\ Period.term_start p = ts /\ Period.term_end p = te
  /\ Period.new end_ start step name ts te
     = Ok (Period.mk (Period.end_ p) (Period.start p) step name ts te).
Proof.
  unfold Period.new.
  destruct (strptime_YmdH (str_int start)) as [s|e] eqn:Es; [|discriminate].
  destruct (strptime_YmdH (str_int end_)) as [e|e'] eqn:Ee; [|discriminate].
  simpl. intros [= <-]. simpl.
  apply strptime_YmdH_whole_hour in Es, Ee. done.
Qed.

Lemma Period_new_accepts_any_order_witness :
  exists p,
    Period.new 2023010100 2023010107 1 "train" 0 23 = Ok p
    /\ Period.start p mod HOUR = 0 /\ Period.end_ p mod HOUR = 0
    /\ Period.new 2023010107 2023010100 1 "train" 0 23
       = Ok (Period.mk (Period.end_ p) (Period.start p) 1 "train" 0 23).
Proof.
  eexists.
  match goal with
  | |- ?l = Ok ?p /\ _ => assert (Hp : l = Ok p) by (vm_compute; reflexivity)
  end.
  split; [exact Hp|].
  destruct (Period_new_accepts_any_order _ _ _ _ _ _ _ Hp)
    as (Hs & He & _ & _ & _ & Hr).
  split; [exact Hs|]. split; [exact He | exact Hr].
Defined.

(** ** The generated forcings *)

Section ForcingShapes.
Context {V : Type} `{Scalar V} `{ForcingUtils V}.

Lemma slice_axis1_shape (sl : list (list V) -> list (list V))
    (x : Tensor.t V) (y : Tensor.t V) :
  Tensor.slice_axis 1 sl x = Ok y ->
  exists t n rest,
    Tensor.shape x = t :: n :: rest
    /\ Tensor.shape y = t :: length (sl (replicate n [])) :: rest
    /\ Tensor.dtype_of y = Tensor.dtype_of x.
Proof.
  unfold Tensor.slice_axis.
  destruct (Tensor.shape x) as [|t [|n rest]] eqn:Es; simpl;
    [discriminate..|].
  intros [= <-]. simpl. eauto 6.
Qed.

Lemma slice_axis1_ok (sl : list (list V) -> list (list V)) (x : Tensor.t V)
    t n rest :
  Tensor.shape x = t :: n :: rest ->
  exists y, Tensor.slice_axis 1 sl x = Ok y.
Proof. intros Es. unfold Tensor.slice_axis. rewrite Es. simpl. eauto. Qed.

(** What [generate_forcings] returns, and from what. *)
Lemma generate_forcings_ok_shapes (date : Z) (output_terms : list Z)
    (grid : Grid V) l :
  generate_forcings date output_terms grid = Ok l ->
  exists t a b c f_hour f_doy f_solar,
    l = [f_hour; f_doy; f_solar]
    /\ Tensor.shape (get_year_hour_forcing date output_terms) = [t; 4%nat]
    /\ Tensor.shape (generate_toa_radiation_forcing (lat grid) (lon grid) date
                       output_terms) = [a; b; c; 1%nat]
    /\ Tensor.shape (NamedTensor.tensor f_hour) = [t; 2%nat]
    /\ Tensor.shape (NamedTensor.tensor f_doy) = [t; 2%nat]
    /\ Tensor.shape (NamedTensor.tensor f_solar) = [a; b; c; 1%nat]
    /\ Forall (fun f => Tensor.dtype_of (NamedTensor.tensor f) = float32) l.
Proof.
  unfold generate_forcings, Tensor.to1, Tensor.from1.
  set (df := get_year_hour_forcing date output_terms).
  set (sf := generate_toa_radiation_forcing (lat grid) (lon grid) date
               output_terms).
  destruct (Tensor.slice_axis 1 (slice_to 2) _) as [hours|e] eqn:Eh;
    simpl; [|discriminate].
  destruct (NamedTensor.new hours _ _ _) as [fh|e] eqn:Efh; simpl;
    [|discriminate].
  destruct (Tensor.slice_axis 1 (slice_from 2) _) as [days|e] eqn:Ed;
    simpl; [|discriminate].
  destruct (NamedTensor.new days _ _ _) as [fd|e] eqn:Efd; simpl;
    [|discriminate].
  destruct (NamedTensor.new (Tensor.type float32 sf) _ _ _) as [fs|e] eqn:Efs;
    simpl; [|discriminate].
  intros [= <-].
  apply slice_axis1_shape in Eh as (t & n & rest & Sdf & Sh & Dh).
  apply slice_axis1_shape in Ed as (t' & n' & rest' & Sdf' & Sd & Dd).
  simpl in Sdf, Sdf'. rewrite Sdf in Sdf'. injection Sdf' as <- <- <-.
  apply NamedTensor_new_ok_inv in Efh as [-> (Dimh & ih & Hih & Fh)].
  apply NamedTensor_new_ok_inv in Efd as [-> (Dimd & id & Hid & Fd)].
  apply NamedTensor_new_ok_inv in Efs as [-> (Dims & is' & His & Fs)].
  simpl in *. injection Hih as <-. injection Hid as <-. injection His as <-.
  unfold Tensor.dim in *. rewrite Sh in Dimh, Fh. rewrite Sd in Fd.
  simpl in Dimh, Fh, Fd.
  destruct rest; [|discriminate]. clear Dimh Dimd.
  unfold slice_to, slice_from, slice_bound in *. simpl in *.
  rewrite length_take, length_replicate in *.
  rewrite length_drop, length_replicate in *.
  destruct (Tensor.shape sf) as [|a [|b [|c [|d [|? ?]]]]] eqn:Ssf;
    try discriminate.
  simpl in Fs. subst d.
  exists t, a, b, c. do 3 eexists. split; [reflexivity|].
  assert (n = 4%nat) as -> by lia.
  simpl. rewrite Sh, Sd, Ssf.
  repeat split; repeat constructor; done.
Qed.


End ForcingShapes.

(** ** The shape of the forcing of a loaded item *)

Section LoadForcingShape.
Context {V : Type} `{Scalar V} `{ForcingUtils V}.
Implicit Types (x y : Tensor.t V) (s : Sample.t V).

Lemma expand_axis_keep (axis : nat) x y :
  Tensor.expand_axis axis (-1) x = Ok y -> y = x.
Proof.
  unfold Tensor.expand_axis. destruct (drop axis _); [discriminate|].
  simpl. by intros [= <-].
Qed.

Lemma expand_axis_one (pre post : list nat) (m : nat) x y :
  Tensor.shape x = pre ++ 1%nat :: post ->
  Tensor.expand_axis (length pre) (Z.of_nat m) x = Ok y ->
  Tensor.shape y = pre ++ m :: post.
Proof.
  intros Sx. unfold Tensor.expand_axis.
  rewrite Sx, drop_app_length, take_app_length.
  destruct (Z.eqb_spec (Z.of_nat m) (-1)); [lia|].
  destruct (Z.eqb_spec (Z.of_nat m) (Z.of_nat 1)) as [E|_].
  - intros [= <-]. rewrite Sx. do 2 f_equal. lia.
  - rewrite bool_decide_eq_true_2 by done.
    destruct (Z.leb_spec 0 (Z.of_nat m)); [|lia]. simpl.
    intros [= <-]. simpl. by rewrite Nat2Z.id.
Qed.

Lemma unsqueeze_shape (idx : nat) x y :
  Tensor.unsqueeze idx x = Ok y ->
  Tensor.shape y
  = take idx (Tensor.shape x) ++ 1%nat :: drop idx (Tensor.shape x).
Proof.
  unfold Tensor.unsqueeze. destruct (_ <=? _)%nat; [|discriminate].
  by intros [= <-].
Qed.

(** A date forcing on the grid of a state. *)
Lemma expand_on_grid (t k gh gw : nat) x y :
  Tensor.shape x = [t; 1; 1; k]%nat ->
  Tensor.expand [-1; Z.of_nat gh; Z.of_nat gw; -1] x = Ok y ->
  Tensor.shape y = [t; gh; gw; k].
Proof.
  intros Sx. unfold Tensor.expand, Tensor.dim. rewrite Sx. simpl.
  destruct (Tensor.expand_axis 0 (-1) x) as [x0|e] eqn:E0; simpl;
    [|discriminate].
  apply expand_axis_keep in E0 as ->.
  destruct (Tensor.expand_axis 1 (Z.of_nat gh) x) as [x1|e] eqn:E1; simpl;
    [|discriminate].
  apply (expand_axis_one [t] [1%nat; k]) in E1; [|done].
  destruct (Tensor.expand_axis 2 (Z.of_nat gw) x1) as [x2|e] eqn:E2; simpl;
    [|discriminate].
  apply (expand_axis_one [t; gh] [k]) in E2; [|done].
  destruct (Tensor.expand_axis 3 (-1) x2) as [x3|e] eqn:E3; simpl;
    [|discriminate].
  apply expand_axis_keep in E3 as ->. by intros [= <-].
Qed.

Lemma unsqueeze_and_expand_from_shape (f other f' : NamedTensor.t V)
    (t k n gh gw k0 : nat) :
  NamedTensor.names other = Sample.STATE_NAMES ->
  Tensor.shape (NamedTensor.tensor other) = [n; gh; gw; k0] ->
  NamedTensor.unsqueeze_and_expand_from f other = Ok f' ->
  (NamedTensor.names f = DATE_NAMES ->
   Tensor.shape (NamedTensor.tensor f) = [t; k] ->
   Tensor.shape (NamedTensor.tensor f') = [t; gh; gw; k])
  /\ (NamedTensor.names f = Sample.STATE_NAMES -> f' = f).
Proof.
  intros No So. unfold NamedTensor.unsqueeze_and_expand_from. intros Hf.
  split.
  - intros Nf Sf.
    assert (Em : NamedTensor.missing_names f other
                 = [("lat", 1%nat); ("lon", 2%nat)]).
    { unfold NamedTensor.missing_names. rewrite Nf, No.
      vm_compute. reflexivity. }
    rewrite Em in Hf. simpl in Hf.
    destruct (Tensor.unsqueeze 1 _) as [t1|e] eqn:E1; simpl in Hf;
      [|discriminate].
    destruct (Tensor.unsqueeze 2 t1) as [t2|e] eqn:E2; simpl in Hf;
      [|discriminate].
    apply unsqueeze_shape in E1, E2. rewrite Sf in E1. simpl in E1.
    rewrite E1 in E2. simpl in E2.
    rewrite Nf in Hf. simpl in Hf.
    unfold NamedTensor.dim_size in Hf. rewrite No, So in Hf. simpl in Hf.
    destruct (Tensor.expand _ _) as [tx|e] eqn:Ex; simpl in Hf;
      [|discriminate].
    injection Hf as <-. simpl.
    by apply (expand_on_grid t k gh gw) in Ex.
  - intros Nf.
    assert (Em : NamedTensor.missing_names f other = []).
    { unfold NamedTensor.missing_names. rewrite Nf, No.
      vm_compute. reflexivity. }
    rewrite Em in Hf. by injection Hf as <-.
Qed.

Lemma cat_last_lead (x : Tensor.t V) (l : list (Tensor.t V)) c :
  Tensor.cat_last (x :: l) = Ok c ->
  Tensor.shape x <> []
  /\ Forall (fun y => Tensor.shape y <> []
                      /\ removelast (Tensor.shape y)
                         = removelast (Tensor.shape x)) l
  /\ Tensor.shape c
     = removelast (Tensor.shape x)
       ++ [fold_right Nat.add 0%nat
             (map (fun y => List.last (Tensor.shape y) 0%nat) (x :: l))].
Proof.
  unfold Tensor.cat_last.
  destruct (rev (Tensor.shape x)) as [|k r] eqn:Er; [discriminate|].
  destruct (forallb _ l) eqn:Ef; [|discriminate].
  intros [= <-]. split; [|split; [|done]].
  - intros E. by rewrite E in Er.
  - apply Forall_forall. intros y Hy.
    rewrite forallb_forall in Ef. apply list_elem_of_In, Ef in Hy.
    by apply bool_decide_eq_true_1 in Hy.
Qed.

(** The leading axes of a concatenation are those of its first
    tensor. *)
Lemma concat_lead (x0 : NamedTensor.t V) (l : list (NamedTensor.t V))
    (x : NamedTensor.t V) :
  NamedTensor.concat (x0 :: l) = Ok x ->
  removelast (Tensor.shape (NamedTensor.tensor x))
  = removelast (Tensor.shape (NamedTensor.tensor x0)).
Proof.
  unfold NamedTensor.concat. destruct l as [|x1 l].
  - by intros [= <-].
  - destruct (negb _); [discriminate|].
    destruct (negb _); [discriminate|].
    destruct (Tensor.cat_last _) as [c|e] eqn:Ec; simpl; [|discriminate].
    intros Hn. apply NamedTensor_new_ok_inv in Hn as [-> _]. simpl.
    simpl map in Ec. apply cat_last_lead in Ec as (_ & _ & ->).
    by rewrite removelast_last.
Qed.

(** X21. The shape of the forcing of a loaded item whose inputs have
    the shape [(n, gh, gw, K)]: the date forcing was a matrix of [t]
    rows and four columns, the solar forcing had the shape
    [(t, gh, gw, 1)] already, and the forcing of the item has the shape
    [(t, gh, gw, 5)]: the grid is that of the inputs, and the number of
    timesteps is that of the generated forcings, whatever the numbers of
    steps of the sample. *)
Theorem load_forcing_shape s (no_standardize : bool) tr it (n gh gw K : nat) :
  Sample.load s no_standardize = (tr, Ok it) ->
  Tensor.shape (NamedTensor.tensor (Item.inputs it)) = [n; gh; gw; K] ->
  exists t,
    Tensor.shape (get_year_hour_forcing (datetime (Sample.timestamps s))
                    (terms (Sample.output_timestamps s))) = [t; 4%nat]
    /\ Tensor.shape (generate_toa_radiation_forcing (lat (Sample.grid s))
                       (lon (Sample.grid s)) (datetime (Sample.timestamps s))
                       (terms (Sample.output_timestamps s)))
       = [t; gh; gw; 1%nat]
    /\ Tensor.shape (NamedTensor.tensor (Item.forcing it)) = [t; gh; gw; 5%nat].
Proof.
  intros Hl Si.
  destruct (load_ok_inv s _ tr it Hl)
    as (li & lo & lf & lf' & i & f & o & Hp & Hg & Hx & Hi & Ho & Hf & Hit).
  apply load_params_state_like in Hp as [Hli _]; [|constructor..].
  destruct (Item_new_ok_inv i f o it Hit) as (-> & _ & _). simpl in *.
  destruct (concat_names li i Hi) as (i0 & li' & -> & _).
  apply Forall_cons in Hli as [[Ni0 _] _].
  apply concat_lead in Hi. rewrite Si in Hi. simpl in Hi.
  pose proof (generate_forcings_ok_shapes _ _ _ lf Hg)
    as (t & a & b & c & fh & fd & fs & -> & Sdf & Ssf & Sh & Sd & Ss & _).
  destruct (generate_forcings_ok_inv _ _ _ _ Hg)
    as (fh' & fd' & fs' & [= <- <- <-] & Nh & Nd & Ns & _).
  unfold Sample.expand_forcings in Hx. simpl in Hx.
  destruct (NamedTensor.unsqueeze_and_expand_from fh i0) as [fh1|e] eqn:Eh;
    simpl in Hx; [|discriminate].
  destruct (NamedTensor.unsqueeze_and_expand_from fd i0) as [fd1|e] eqn:Ed;
    simpl in Hx; [|discriminate].
  destruct (NamedTensor.unsqueeze_and_expand_from fs i0) as [fs1|e] eqn:Es;
    simpl in Hx; [|discriminate].
  injection Hx as <-.
  assert (Si0 : exists k0, Tensor.shape (NamedTensor.tensor i0)
                           = [n; gh; gw; k0]).
  { destruct (Tensor.shape (NamedTensor.tensor i0))
      as [|n0 [|n1 [|n2 [|n3 [|? ?]]]]]; try discriminate.
    injection Hi as <- <- <-. eauto. }
  destruct Si0 as [k0 Si0].
  destruct (unsqueeze_and_expand_from_shape fh i0 fh1 t 2 n gh gw k0 Ni0 Si0 Eh)
    as [Sh1 _].
  destruct (unsqueeze_and_expand_from_shape fd i0 fd1 t 2 n gh gw k0 Ni0 Si0 Ed)
    as [Sd1 _].
  destruct (unsqueeze_and_expand_from_shape fs i0 fs1 t 1 n gh gw k0 Ni0 Si0 Es)
    as [_ Es1].
  specialize (Sh1 Nh Sh). specialize (Sd1 Nd Sd). specialize (Es1 Ns).
  subst fs1.
  unfold NamedTensor.concat in Hf.
  destruct (negb _); [discriminate|].
  destruct (negb _); [discriminate|].
  destruct (Tensor.cat_last _) as [cf|e] eqn:Ec; simpl in Hf; [|discriminate].
  apply NamedTensor_new_ok_inv in Hf as [-> _]. simpl.
  simpl map in Ec. apply cat_last_lead in Ec as (_ & Hall & ->).
  apply Forall_cons in Hall as [_ Hall].
  apply Forall_cons in Hall as [[_ Hs] _].
  rewrite Sh1, Ss in Hs. simpl in Hs. injection Hs as -> -> ->.
  exists t. split; [exact Sdf|]. split; [exact Ssf|].
  simpl. rewrite Sh1, Sd1, Ss. reflexivity.
Qed.

End LoadForcingShape.

Lemma load_forcing_shape_witness :
  exists s tr it,
    Examples.sample_with_input = Ok s
    /\ Sample.load s false = (tr, Ok it)
    /\ Tensor.shape (NamedTensor.tensor (Item.forcing it)) = [1; 1; 1; 5]%nat.
Proof.
  eexists. eexists. eexists. split; [reflexivity|].
  match goal with
  | |- ?l = (?tr, Ok ?it) /\ _ =>
      assert (Hl : l = (tr, Ok it)) by (vm_compute; reflexivity)
  end.
  split; [exact Hl|].
  destruct (load_forcing_shape _ false _ _ 2 1 1 1 Hl eq_refl)
    as (t & Sdf & _ & Sf).
  injection Sdf as <-. exact Sf.
Defined.

(** ** A new axis and its removal *)

Lemma list_index_middle (name : string) (pre post : list string) :
  name ∉ pre -> list_index name (pre ++ name :: post) = Ok (length pre).
Proof.
  induction pre as [|y pre IH]; intros Hn; simpl.
  - by rewrite decide_True.
  - rewrite decide_False by (intros ->; apply Hn; left).
    rewrite IH; [done|]. intros Hin. apply Hn. by right.
Qed.

Lemma py_remove_middle (name : string) (pre post : list string) :
  name ∉ pre -> py_remove name (pre ++ name :: post) = Ok (pre ++ post).
Proof.
  induction pre as [|y pre IH]; intros Hn; simpl.
  - by rewrite decide_True.
  - rewrite decide_False by (intros ->; apply Hn; left).
    rewrite IH; [done|]. intros Hin. apply Hn. by right.
Qed.

Section AxisRoundTrip.
Context {V : Type} `{Scalar V}.
Implicit Types (x : NamedTensor.t V) (item : Item.t V).

Lemma squeeze_shape_skip (i j : nat) (sh : list nat) :
  (i < j)%nat -> Tensor.squeeze_shape [i] j sh = sh.
Proof.
  revert j. induction sh as [|n sh IH]; intros j Hij; simpl; [done|].
  rewrite bool_decide_eq_false_2.
  - simpl. by rewrite IH by lia.
  - intros Hin. apply list_elem_of_singleton in Hin. lia.
Qed.

Lemma squeeze_shape_inserted (j : nat) (pre post : list nat) :
  Tensor.squeeze_shape [(j + length pre)%nat] j (pre ++ 1%nat :: post)
  = pre ++ post.
Proof.
  revert j. induction pre as [|n pre IH]; intros j; simpl.
  - rewrite Nat.add_0_r.
    rewrite bool_decide_eq_true_2 by (by apply list_elem_of_singleton).
    simpl. apply squeeze_shape_skip. lia.
  - rewrite bool_decide_eq_false_2.
    + simpl. f_equal. rewrite <- (IH (S j)). do 2 f_equal. lia.
    + intros Hin. apply list_elem_of_singleton in Hin. lia.
Qed.

(** Squeezing the axis that was just inserted gives the tensor
    back. *)
Lemma NamedTensor_unsqueeze_squeeze (dim_name : string) (dim_index : Z) x x' :
  0 <= dim_index ->
  Tensor.dim (NamedTensor.tensor x) = length (NamedTensor.names x) ->
  dim_name ∉ NamedTensor.names x ->
  NamedTensor.unsqueeze_ dim_name dim_index x = Ok x' ->
  NamedTensor.squeeze_ [dim_name] x' = Ok x.
Proof.
  intros Hi Hdim Hfresh. unfold NamedTensor.unsqueeze_, Tensor.unsqueeze_at.
  destruct (Z.leb_spec 0 dim_index); [|lia].
  destruct (Z.leb_spec dim_index (Z.of_nat (Tensor.dim (NamedTensor.tensor x))))
    as [Hle|Hgt]; simpl.
  2: { destruct (Z.ltb_spec dim_index 0); [lia|].
       rewrite andb_false_r. discriminate. }
  unfold Tensor.unsqueeze.
  destruct (Nat.leb_spec (Z.to_nat dim_index) (Tensor.dim (NamedTensor.tensor x)));
    [|lia].
  simpl. intros [= <-].
  unfold py_insert, slice_bound.
  destruct (Z.ltb_spec dim_index 0); [lia|].
  rewrite Nat.min_l by lia.
  set (i := Z.to_nat dim_index) in *.
  destruct x as [[sh data dt] names fnames fdn]. unfold Tensor.dim in *.
  simpl in *.
  assert (Hpre : dim_name ∉ take i names).
  { intros Hin. apply Hfresh. rewrite <- (take_drop i names).
    apply elem_of_app. by left. }
  unfold NamedTensor.squeeze_. simpl.
  rewrite list_index_middle by done. simpl.
  unfold Tensor.squeeze, Tensor.dim. simpl.
  rewrite length_take, Nat.min_l by lia.
  destruct (Nat.ltb_spec i (length (take i sh ++ 1%nat :: drop i sh))) as [_|Hge].
  2: { rewrite length_app, length_take in Hge. simpl in Hge. lia. }
  simpl. rewrite py_remove_middle by done. simpl.
  rewrite take_drop. do 3 f_equal.
  replace i with (0 + length (take i sh))%nat at 1
    by (rewrite length_take; lia).
  rewrite squeeze_shape_inserted. apply take_drop.
Qed.

(** X22. An axis of size one that is inserted in the three tensors of
    an item under a new name, at a position counted from the start, is
    taken away again by squeezing that name: the item is as before.
    The tensors have one name per axis, as their constructor
    demands. *)
Theorem Item_unsqueeze_then_squeeze (dim_name : string) (dim_index : Z)
    item item' :
  0 <= dim_index ->
  (forall f,
     Tensor.dim (NamedTensor.tensor (Item.getattr item f))
     = length (NamedTensor.names (Item.getattr item f))
     /\ dim_name ∉ NamedTensor.names (Item.getattr item f)) ->
  Item.unsqueeze_ dim_name dim_index item = Ok item' ->
  Item.squeeze_ [dim_name] item' = Ok item.
Proof.
  intros Hi Hitem. unfold Item.unsqueeze_.
  destruct (NamedTensor.unsqueeze_ _ _ (Item.inputs item)) as [i|e] eqn:Ei;
    simpl; [|discriminate].
  destruct (NamedTensor.unsqueeze_ _ _ (Item.outputs item)) as [o|e] eqn:Eo;
    simpl; [|discriminate].
  destruct (NamedTensor.unsqueeze_ _ _ (Item.forcing item)) as [f|e] eqn:Ef;
    simpl; [|discriminate].
  intros [= <-]. unfold Item.squeeze_. simpl.
  destruct (Hitem Item.f_inputs) as [Di Fi].
  destruct (Hitem Item.f_outputs) as [Do Fo].
  destruct (Hitem Item.f_forcing) as [Df Ff].
  rewrite (NamedTensor_unsqueeze_squeeze _ _ _ _ Hi Di Fi Ei).
  rewrite (NamedTensor_unsqueeze_squeeze _ _ _ _ Hi Do Fo Eo).
  rewrite (NamedTensor_unsqueeze_squeeze _ _ _ _ Hi Df Ff Ef).
  simpl. by destruct item.
Qed.

End AxisRoundTrip.

Lemma Item_unsqueeze_then_squeeze_witness :
  exists item',
    Item.unsqueeze_ "batch" 0 Examples.item_a = Ok item'
    /\ NamedTensor.names (Item.inputs item')
       = ["batch"; "timestep"; "lat"; "lon"; "features"]
    /\ Item.squeeze_ ["batch"] item' = Ok Examples.item_a.
Proof.
  eexists.
  match goal with
  | |- ?l = Ok ?b /\ _ => assert (Hb : l = Ok b) by (vm_compute; reflexivity)
  end.
  split; [exact Hb|]. split; [reflexivity|].
  apply (Item_unsqueeze_then_squeeze "batch" 0 Examples.item_a);
    [lia | | exact Hb].
  intros f. split; [by destruct f|].
  destruct f; apply (bool_decide_unpack _); vm_compute; exact I.
Defined.

(** ** Datasets from a configuration *)

Section ConfigProps.
Context {V : Type} `{Scalar V} `{ForcingUtils V}.
Variable weather_param : string -> Z -> Kind -> result WeatherParam.
Hypothesis weather_param_kind :
  forall name lvl k p, weather_param name lvl k = Ok p -> kind p = k.
Implicit Types (c : Config.conf) (k : Kind).

Lemma rmapM_length {A B} (f : A -> result B) (l : list A) r :
  rmapM f l = Ok r -> length r = length l.
Proof.
  revert r. induction l as [|a l IH]; intros r; simpl.
  - by intros [= <-].
  - destruct (f a); simpl; [|discriminate].
    destruct (rmapM f l) as [bs|e]; simpl; [|discriminate].
    intros [= <-]. simpl. by rewrite (IH bs).
Qed.

Lemma get_param_list_kinds c k (ps : list WeatherParam) :
  Config.get_param_list weather_param c = Ok ps ->
  length (filter (fun p => kind p = k) ps) = Config.levels_of_kind c k.
Proof.
  unfold Config.get_param_list, Config.levels_of_kind.
  destruct (rmapM _ (Config.conf_params c)) as [per_name|e] eqn:Em; simpl;
    [|discriminate].
  intros [= <-]. revert per_name Em.
  induction (Config.conf_params c) as [|[name values] l IH];
    intros per_name; simpl.
  - by intros [= <-].
  - destruct (rmapM _ (Config.pc_levels values)) as [ps|e] eqn:Ep; simpl;
      [|discriminate].
    destruct (rmapM _ l) as [rest|e]; simpl; [|discriminate].
    intros [= <-]. simpl. rewrite filter_app, length_app, (IH rest eq_refl).
    f_equal.
    assert (Hk : Forall (fun p => kind p = Config.pc_kind values) ps).
    { eapply rmapM_Forall; [|exact Ep]. intros lvl p Hp.
      by apply weather_param_kind in Hp. }
    apply rmapM_length in Ep. rewrite <- Ep. clear Ep.
    destruct (decide (Config.pc_kind values = k)) as [<-|Hne].
    + induction Hk as [|p ps' Hp _ IHk]; [done|].
      rewrite filter_cons, decide_True by done. simpl. by rewrite IHk.
    + induction Hk as [|p ps' Hp _ IHk]; [done|].
      by rewrite filter_cons, decide_False by congruence.
Qed.

(** X23. The three datasets that [from_dict] builds share the grid and
    the list of parameters, one parameter per level that the
    configuration lists, so that [input_output_dim] is the number of
    levels listed under the kind [input_output]. The test dataset is
    given the settings of the validation dataset: its prediction steps
    are those asked for validation and test, and its settings carry the
    step duration of the validation period, whatever that of the test
    period. Only the training dataset is shuffled. *)
Theorem from_dict_datasets (name : string) c (grid : Grid V) (stats : Stats V)
    (n_in n_train n_val : Z) (accessor : DataAccessor V)
    (train valid test : Dataset.t V) :
  Config.from_dict weather_param name c grid stats n_in n_train n_val accessor
  = Ok (train, valid, test) ->
  Dataset.params valid = Dataset.params train
  /\ Dataset.params test = Dataset.params train
  /\ Dataset.input_output_dim train = Z.of_nat (Config.levels_of_kind c input_output)
  /\ Dataset.settings test = Dataset.settings valid
  /\ num_pred_steps (Dataset.settings train) = n_train
  /\ num_pred_steps (Dataset.settings test) = n_val
  /\ settings_step_duration (Dataset.settings test)
     = Config.pc_step_duration (Config.conf_valid c)
  /\ Period.step_duration (Dataset.period test)
     = Config.pc_step_duration (Config.conf_test c)
  /\ Config.shuffle train = true
  /\ Config.shuffle valid = false /\ Config.shuffle test = false.
Proof.
  unfold Config.from_dict, Config.period_of.
  destruct (Config.get_param_list weather_param c) as [ps|e] eqn:Eps; simpl;
    [|discriminate].
  destruct (Period.new _ _ _ "train" _ _) as [ptrain|e] eqn:Etr; simpl;
    [|discriminate].
  destruct (Period.new _ _ _ "valid" _ _) as [pvalid|e] eqn:Eva; simpl;
    [|discriminate].
  destruct (Period.new _ _ _ "test" _ _) as [ptest|e] eqn:Ete; simpl;
    [|discriminate].
  intros [= <- <- <-]. simpl.
  unfold Period.new in Etr, Eva, Ete.
  destruct (strptime_YmdH _) in Etr; [|discriminate].
  destruct (strptime_YmdH _) in Etr; [|discriminate].
  destruct (strptime_YmdH _) in Eva; [|discriminate].
  destruct (strptime_YmdH _) in Eva; [|discriminate].
  destruct (strptime_YmdH _) in Ete; [|discriminate].
  destruct (strptime_YmdH _) in Ete; [|discriminate].
  simpl in *. injection Etr as <-. injection Eva as <-. injection Ete as <-.
  unfold Dataset.input_output_dim, Config.shuffle. simpl.
  rewrite count_kind, (get_param_list_kinds c input_output ps Eps).
  repeat split; lia.
Qed.

End ConfigProps.

Lemma from_dict_datasets_witness :
  exists train valid test,
    Config.from_dict Examples.isobaric_param "dummy" Examples.dummy_conf
      Examples.grid1 ∅ 2 1 3 Examples.accessor1 = Ok (train, valid, test)
    /\ Dataset.input_output_dim train = 1
    /\ Dataset.settings test = Dataset.settings valid
    /\ num_pred_steps (Dataset.settings test) = 3.
Proof.
  assert (Hok : is_ok (Config.from_dict Examples.isobaric_param "dummy"
                         Examples.dummy_conf Examples.grid1 ∅ 2 1 3
                         Examples.accessor1) = true)
    by (vm_compute; reflexivity).
  destruct (Config.from_dict Examples.isobaric_param "dummy"
              Examples.dummy_conf Examples.grid1 ∅ 2 1 3 Examples.accessor1)
    as [[[train valid] test]|e] eqn:Hd; [|discriminate Hok].
  exists train, valid, test. split; [reflexivity|].
  destruct (from_dict_datasets Examples.isobaric_param
              ltac:(by intros ? ? ? ? [= <-]) _ _ _ _ _ _ _ _ _ _ _ Hd)
    as (_ & _ & Hio & Hset & _ & Hn & _).
  split; [exact Hio|]. split; [exact Hset | exact Hn].
Defined.

(** ** Consistent timestamps *)

Lemma slice_bound_map_length {A B} (f : A -> B) (k : Z) (l : list A) :
  slice_bound k (length (map f l)) = slice_bound k (length l).
Proof. by rewrite length_map. Qed.

Section ConsistentSplit.
Context {V : Type} `{Scalar V}.

(** X24. Splitting keeps the timestamps consistent: when the validity
    times of the timestamps of a sample are its terms, in hours, added
    to the reference datetime, the same holds of the input timestamps
    and of the output timestamps of the sample. *)
Theorem Sample_new_keeps_consistency ts st ps (stats : option (Stats V))
    g ex gp m s :
  Sample.new ts st ps stats g ex gp m = Ok s ->
  Timestamps_consistent ts ->
  Timestamps_consistent (Sample.input_timestamps s)
  /\ Timestamps_consistent (Sample.output_timestamps s).
Proof.
  unfold Sample.new. destruct (negb _); [discriminate|].
  intros [= <-] Hc. unfold Timestamps_consistent in *. simpl.
  rewrite Hc. unfold slice_to, slice_from.
  rewrite !slice_bound_map_length. split.
  - symmetry. apply fmap_take.
  - symmetry. apply fmap_drop.
Qed.

End ConsistentSplit.

Lemma Sample_new_keeps_consistency_witness :
  exists s,
    Examples.sample_with_input = Ok s
    /\ Timestamps_consistent (Sample.input_timestamps s)
    /\ Timestamps_consistent (Sample.output_timestamps s).
Proof.
  eexists. split; [reflexivity|].
  apply (Sample_new_keeps_consistency Examples.timestamps3
           Examples.settings_2_1 [Examples.orography; Examples.temperature]
           None Examples.grid1 (accessor_exists Examples.accessor1)
           (accessor_get_param_tensor Examples.accessor1) 0);
    reflexivity.
Defined.

(** ** The list of samples, computed afresh *)

Section FreshList.
Context {V : Type} `{Scalar V} `{ForcingUtils V}.
Variable timestamps_of : Z -> Timestamps.
Variable set_order : gset Z -> list Z.
Implicit Types (ds : Dataset.t V) (st : option (Stats V)) (d : Z).

Local Abbreviation trial_sample := (Dataset.trial_sample timestamps_of).
Local Abbreviation date_valid := (Dataset.date_valid timestamps_of).
Local Abbreviation sample_list := (Dataset.sample_list timestamps_of set_order).

Lemma fresh_go_samples ds st (dates : list Z) l :
  Dataset.fresh_go timestamps_of ds st dates = Ok l ->
  map Sample.timestamps l
  = map timestamps_of (List.filter (date_valid ds) dates)
  /\ Forall (fun s => Sample.is_valid s = true) l
  /\ Forall (fun d => is_ok (trial_sample ds None d) = true) dates.
Proof.
  revert l. induction dates as [|d dates IH]; intros l; simpl.
  - intros [= <-]. by repeat split.
  - pose proof (trial_sample_stats timestamps_of ds st d) as Hst.
    destruct (trial_sample ds None d) as [s0|e] eqn:E0.
    2: { rewrite Hst. discriminate. }
    destruct Hst as (s & Es & Hv). rewrite Es. simpl.
    destruct (Dataset.fresh_go timestamps_of ds st dates) as [ss|e]; simpl;
      [|discriminate].
    destruct (IH ss eq_refl) as (Hts & Hvalid & Hok).
    intros [= <-]. rewrite <- Hv.
    apply trial_sample_fields in Es as (_ & _ & Ets).
    destruct (Sample.is_valid s) eqn:Evalid; simpl.
    + rewrite Hts, Ets. repeat split; [by constructor|].
      constructor; [by rewrite E0 | done].
    + repeat split; [done..|]. constructor; [by rewrite E0 | done].
Qed.


End FreshList.

(** ** A new axis at a position counted from the end *)

Section NegativeIndex.
Context {V : Type} `{Scalar V}.
Implicit Types (x : NamedTensor.t V) (item : Item.t V).

Lemma NamedTensor_unsqueeze_negative (dim_name : string) (dim_index : Z)
    x x' :
  Tensor.dim (NamedTensor.tensor x) = length (NamedTensor.names x) ->
  - Z.of_nat (length (NamedTensor.names x)) <= dim_index < 0 ->
  dim_name ∉ NamedTensor.names x ->
  NamedTensor.unsqueeze_ dim_name dim_index x = Ok x' ->
  let k := Z.to_nat (Z.of_nat (length (NamedTensor.names x)) + dim_index) in
  NamedTensor.names x'
  = take k (NamedTensor.names x) ++ dim_name :: drop k (NamedTensor.names x)
  /\ Tensor.shape (NamedTensor.tensor x')
     = take (S k) (Tensor.shape (NamedTensor.tensor x))
       ++ 1%nat :: drop (S k) (Tensor.shape (NamedTensor.tensor x))
  /\ NamedTensor.dim_size x' dim_name
     = Ok (nth k (Tensor.shape (NamedTensor.tensor x)) 0%nat).
Proof.
  intros Hdim Hi Hfresh. unfold NamedTensor.unsqueeze_, Tensor.unsqueeze_at.
  destruct (Z.leb_spec 0 dim_index); [lia|]. simpl.
  rewrite Hdim.
  destruct (Z.leb_spec (- (Z.of_nat (length (NamedTensor.names x)) + 1))
              dim_index); [|lia].
  destruct (Z.ltb_spec dim_index 0); [|lia]. simpl.
  unfold Tensor.unsqueeze. rewrite Hdim.
  destruct (Nat.leb_spec
              (Z.to_nat (dim_index + Z.of_nat (length (NamedTensor.names x)) + 1))
              (length (NamedTensor.names x))); [|lia].
  simpl. intros [= <-]. cbv zeta.
  set (k := Z.to_nat (Z.of_nat (length (NamedTensor.names x)) + dim_index)).
  replace (Z.to_nat (dim_index + Z.of_nat (length (NamedTensor.names x)) + 1))
    with (S k) by lia.
  unfold py_insert, slice_bound.
  destruct (Z.ltb_spec dim_index 0); [|lia].
  replace (Z.to_nat (Z.max 0 (Z.of_nat (length (NamedTensor.names x))
                              + dim_index))) with k by lia.
  simpl. split; [done|]. split; [done|].
  unfold NamedTensor.dim_size. simpl.
  rewrite list_index_middle.
  2: { intros Hin. apply Hfresh. rewrite <- (take_drop k (NamedTensor.names x)).
       apply elem_of_app. by left. }
  simpl. f_equal. rewrite length_take, Nat.min_l by lia.
  unfold Tensor.dim in Hdim.
  rewrite app_nth1 by (rewrite length_take; lia).
  rewrite <- (take_drop (S k) (Tensor.shape (NamedTensor.tensor x))) at 2.
  by rewrite app_nth1 by (rewrite length_take; lia).
Qed.

(** X26. With an index counted from the end, the name and the axis that
    [unsqueeze_] inserts do not meet: in each tensor of the item (one
    name per axis, the new name not among them) the new axis of size one
    comes one position after the new name, so that the new name
    designates the axis that was at that position before, and
    [dim_size] of the new name is the size of that axis. With the index
    [-1] the new axis is the last one and the new name the last but
    one. *)
Theorem Item_unsqueeze_from_the_end (dim_name : string) (dim_index : Z)
    item item' :
  (forall f,
     Tensor.dim (NamedTensor.tensor (Item.getattr item f))
     = length (NamedTensor.names (Item.getattr item f))
     /\ - Z.of_nat (length (NamedTensor.names (Item.getattr item f)))
        <= dim_index < 0
     /\ dim_name ∉ NamedTensor.names (Item.getattr item f)) ->
  Item.unsqueeze_ dim_name dim_index item = Ok item' ->
  forall f,
    let x := Item.getattr item f in
    let x' := Item.getattr item' f in
    let k := Z.to_nat (Z.of_nat (length (NamedTensor.names x)) + dim_index) in
    NamedTensor.names x'
    = take k (NamedTensor.names x) ++ dim_name :: drop k (NamedTensor.names x)
    /\ Tensor.shape (NamedTensor.tensor x')
       = take (S k) (Tensor.shape (NamedTensor.tensor x))
         ++ 1%nat :: drop (S k) (Tensor.shape (NamedTensor.tensor x))
    /\ NamedTensor.dim_size x' dim_name
       = Ok (nth k (Tensor.shape (NamedTensor.tensor x)) 0%nat).
Proof.
  intros Hitem. unfold Item.unsqueeze_.
  destruct (NamedTensor.unsqueeze_ _ _ (Item.inputs item)) as [i|e] eqn:Ei;
    simpl; [|discriminate].
  destruct (NamedTensor.unsqueeze_ _ _ (Item.outputs item)) as [o|e] eqn:Eo;
    simpl; [|discriminate].
  destruct (NamedTensor.unsqueeze_ _ _ (Item.forcing item)) as [f|e] eqn:Ef;
    simpl; [|discriminate].
  intros [= <-] fld. destruct (Hitem fld) as (Hd & Hi & Hn).
  destruct fld; simpl in *;
    eapply NamedTensor_unsqueeze_negative; eauto.
Qed.

End NegativeIndex.

Lemma Item_unsqueeze_from_the_end_witness :
  exists item',
    Item.unsqueeze_ "level" (-1) Examples.item_a = Ok item'
    /\ NamedTensor.names (Item.inputs item')
       = ["timestep"; "lat"; "lon"; "level"; "features"]
    /\ Tensor.shape (NamedTensor.tensor (Item.inputs item'))
       = [2; 1; 1; 1; 1]%nat
    /\ NamedTensor.names (Item.forcing item')
       = ["timestep"; "lat"; "lon"; "level"; "features"]
    /\ Tensor.shape (NamedTensor.tensor (Item.forcing item'))
       = [1; 1; 1; 5; 1]%nat
    /\ NamedTensor.dim_size (Item.forcing item') "features" = Ok 1%nat
    /\ NamedTensor.dim_size (Item.forcing item') "level" = Ok 5%nat.
Proof.
  eexists.
  match goal with
  | |- ?l = Ok ?b /\ _ => assert (Hb : l = Ok b) by (vm_compute; reflexivity)
  end.
  split; [exact Hb|].
  assert (Hitem : forall f,
     Tensor.dim (NamedTensor.tensor (Item.getattr Examples.item_a f))
     = length (NamedTensor.names (Item.getattr Examples.item_a f))
     /\ - Z.of_nat (length (NamedTensor.names (Item.getattr Examples.item_a f)))
        <= -1 < 0
     /\ "level" ∉ NamedTensor.names (Item.getattr Examples.item_a f)).
  { intros f. split; [by destruct f|]. split; [destruct f; simpl; lia|].
    destruct f; apply (bool_decide_unpack _); vm_compute; exact I. }
  pose proof (Item_unsqueeze_from_the_end "level" (-1) Examples.item_a _
                Hitem Hb) as Hall.
  destruct (Hall Item.f_inputs) as (Ni & Si & _).
  destruct (Hall Item.f_forcing) as (Nf & Sf & Df).
  split; [exact Ni|]. split; [exact Si|]. split; [exact Nf|].
  split; [exact Sf|]. split; [reflexivity | exact Df].
Defined.
